(** * The stock data collector of magicSplitGPT, embedded and verified

    Source: [src/src/stock_data_collector.py], class [StockDataCollector].

    The collector is a linear script of Selenium calls against a site it does
    not control.  The embedding keeps that shape: every method is a
    computation in a state-and-exception monad, written statement by
    statement after the Python text.  The browser, the file system and the
    clock are the environment: a record [env] fixes what each outside call
    answers (a value, or an exception), and a [world] holds what changes
    during a run.  Delays ([time.sleep]) and log lines have no effect on
    any value the program computes and are left out. *)

From stdpp Require Import gmap strings list fin_maps pretty.
From Stdlib Require Import ZArith Ascii Lia Sorted.

Open Scope string_scope.
Open Scope list_scope.
Open Scope nat_scope.

(** ** Exceptions and results *)

Inductive exn : Type :=
| TimeoutException
| NoSuchElementException
| WebDriverException
| AttributeError
| KeyError
| IndexError
| TypeError
| OSError
| PyException.

Definition is_timeout (e : exn) : bool :=
  match e with TimeoutException => true | _ => false end.

Inductive result (A : Type) : Type :=
| Ok (a : A)
| Raise (e : exn).
Arguments Ok {A} a.
Arguments Raise {A} e.

Definition is_ok {A} (r : result A) : bool :=
  match r with Ok _ => true | Raise _ => false end.

(** ** Python strings *)

Module PyStr.

(** Strings are UTF-8 byte strings.  The white space [str.strip] removes
    is every code point for which [str.isspace] holds: U+0009..U+000D,
    U+001C..U+0020, U+0085, U+00A0, U+1680, U+2000..U+200A, U+2028, U+2029,
    U+202F, U+205F and U+3000.  [is_space] recognises the one-byte ones,
    [is_space2] and [is_space3] the two- and three-byte encodings. *)
Definition is_space (c : ascii) : bool :=
  let n := nat_of_ascii c in
  (((9 <=? n) && (n <=? 13)) || ((28 <=? n) && (n <=? 32)))%nat.

Definition is_space2 (c1 c2 : ascii) : bool :=
  let n1 := nat_of_ascii c1 in
  let n2 := nat_of_ascii c2 in
  ((n1 =? 194) && ((n2 =? 133) || (n2 =? 160)))%nat.

Definition is_space3 (c1 c2 c3 : ascii) : bool :=
  let n1 := nat_of_ascii c1 in
  let n2 := nat_of_ascii c2 in
  let n3 := nat_of_ascii c3 in
  (((n1 =? 225) && (n2 =? 154) && (n3 =? 128))
   || ((n1 =? 226) && (n2 =? 128)
       && (((128 <=? n3) && (n3 <=? 138)) || (n3 =? 168) || (n3 =? 169) || (n3 =? 175)))
   || ((n1 =? 226) && (n2 =? 129) && (n3 =? 159))
   || ((n1 =? 227) && (n2 =? 128) && (n3 =? 128)))%nat.

Fixpoint lstrip (s : string) : string :=
  match s with
  | EmptyString => EmptyString
  | String c1 s1 =>
      if is_space c1 then lstrip s1
      else
        match s1 with
        | EmptyString => s
        | String c2 s2 =>
            if is_space2 c1 c2 then lstrip s2
            else
              match s2 with
              | EmptyString => s
              | String c3 s3 => if is_space3 c1 c2 c3 then lstrip s3 else s
              end
        end
  end.

Definition reverse (s : string) : string :=
  String.string_of_list_ascii (rev (String.list_ascii_of_string s)).

(** [lstrip] on a reversed string: the bytes of a code point come last
    byte first. *)
Fixpoint lstrip_reversed (s : string) : string :=
  match s with
  | EmptyString => EmptyString
  | String c1 s1 =>
      if is_space c1 then lstrip_reversed s1
      else
        match s1 with
        | EmptyString => s
        | String c2 s2 =>
            if is_space2 c2 c1 then lstrip_reversed s2
            else
              match s2 with
              | EmptyString => s
              | String c3 s3 => if is_space3 c3 c2 c1 then lstrip_reversed s3 else s
              end
        end
  end.

Definition rstrip (s : string) : string := reverse (lstrip_reversed (reverse s)).

Definition strip (s : string) : string := rstrip (lstrip s).

(** [s.replace(c, '')] for a one-character [c]. *)
Fixpoint remove_char (c : ascii) (s : string) : string :=
  match s with
  | EmptyString => EmptyString
  | String d s' =>
      if Ascii.eqb c d then remove_char c s' else String d (remove_char c s')
  end.

(** [c in s]. *)
Fixpoint contains_char (c : ascii) (s : string) : bool :=
  match s with
  | EmptyString => false
  | String d s' => Ascii.eqb c d || contains_char c s'
  end.

(** [s.split(c)[0]]. *)
Fixpoint before_char (c : ascii) (s : string) : string :=
  match s with
  | EmptyString => EmptyString
  | String d s' => if Ascii.eqb c d then EmptyString else String d (before_char c s')
  end.

(** Truth value of a string: non-empty. *)
Definition truthy (s : string) : bool :=
  match s with EmptyString => false | _ => true end.

(** [sep.join(l)]. *)
Definition join (sep : string) (l : list string) : string := String.concat sep l.

End PyStr.

(** ** The page as Selenium shows it *)

Inductive By : Type := CSS_SELECTOR | XPATH | CLASS_NAME | ID | TAG_NAME.

#[global] Instance By_eq_dec : EqDecision By.
Proof. solve_decision. Defined.

Definition locator : Type := By * string.

(** What [execute_script] and the DevTools commands hand back. *)
Inductive jsval : Type :=
| JNull
| JBool (b : bool)
| JNum (n : Z)
| JStr (s : string).

Definition js_truthy (v : jsval) : bool :=
  match v with
  | JNull => false
  | JBool b => b
  | JNum n => negb (n =? 0)%Z
  | JStr s => PyStr.truthy s
  end.

(** A [WebElement]: each member access is a call to the browser and may
    raise; [el_png] is what [screenshot] would capture. *)
#[warnings="-register-all"]
Inductive element : Type := Element {
  el_text : result string;
  el_get_attribute : string -> result (option string);
  el_find_element : locator -> result element;
  el_find_elements : locator -> result (list element);
  el_png : result string
}.

(** The scripts the collector sends; the text of each is in the source. *)
Inductive script : Type :=
| click_arg0 (e : element)
| scroll_to_top
| document_height
| resize_iframe (xpath : string) (height : jsval)
| body_scroll_height
| pointer_click_div (css_class : string)
| pointer_click_hour.

(** A loaded document, seen through the driver. *)
#[warnings="-register-all"]
Inductive page : Type := Page {
  pg_title : result string;
  pg_find_element : locator -> result element;
  pg_find_elements : locator -> result (list element);
  pg_wait_presence : locator -> result unit;
  pg_execute_script : script -> result jsval;
  pg_layout_metrics : result (gmap string (gmap string Z));
  pg_capture_screenshot : Z -> Z -> result (gmap string string);
  pg_png : result string;
  pg_window_size : result (gmap string Z);
  pg_set_window_size : jsval -> jsval -> option exn;
  pg_frame : element -> result page
}.

(** ** Records the collector builds *)

(** One news entry: the dict literal of [_get_news_announcements]. *)
Record news_item : Type := NewsItem {
  news_title : string;
  news_date : string;
  news_source : string;
  news_index : nat
}.

(** One flow row: the dict literal of [_get_investor_trends]. *)
Record investor_row : Type := InvestorRow {
  row_date : string;
  foreign_buy : string;
  foreign_sell : string;
  institution_buy : string;
  institution_sell : string;
  individual_volume : string;
  row_index : nat
}.

Record StockData : Type := mkStockData {
  stock_code : string;
  stock_name : string;
  current_price : string;
  price_change : string;
  change_rate : string;
  volume : string;
  market_cap : string;
  investment_opinion : string;
  news_data : list news_item;
  discussion_data : list investor_row;
  related_themes : list string;
  chart_screenshots : gmap string string;
  financial_data : gmap string string;
  technical_indicators : gmap string string;
  collected_at : string
}.

(** ** Environment and world *)

Inductive content : Type :=
| Bytes (b : string)
| JsonDoc (d : StockData).

Record env : Type := Env {
  (* configuration *)
  cfg_stock_url : string;
  cfg_format : string;
  cfg_save_path : string;
  (* clock and file system *)
  strftime : string -> nat -> string;
  isoformat : nat -> string;
  mkdir : string -> option exn;
  makedirs : string -> option exn;
  writable : string -> bool;
  b64decode : string -> result string;
  (* browser *)
  chrome_with_options : option exn;
  chrome_default : option exn;
  implicitly_wait : option exn;
  blank : page;
  site : string -> result page;
  quit : option exn
}.

Inductive event : Type :=
| EvLaunch
| EvQuit
| EvGet (url : string)
| EvWait (loc : locator)
| EvFindElement (loc : locator)
| EvFindElements (loc : locator)
| EvScript (s : script)
| EvCdp (cmd : string)
| EvSaveScreenshot (path : string)
| EvElementScreenshot (path : string)
| EvSwitchFrame
| EvDefaultContent
| EvGetWindowSize
| EvSetWindowSize
| EvTitle.

Record world : Type := World {
  (* attributes of the collector object *)
  driver : bool;                                  (* [self.driver] is set *)
  current_stock_screenshot_dir : option string;
  (* the browser behind [self.driver] *)
  alive : bool;                                   (* its process runs *)
  top : page;
  context : page;
  (* outside: the regular files the collector's own calls write ([open],
     [save_screenshot], [element.screenshot]); directories, the profile
     Chrome keeps and the log file of the logging module are not part of
     the world *)
  files : gmap string content;
  clock : nat;
  log : list event
}.

Definition set_driver (b : bool) (w : world) : world :=
  World b (current_stock_screenshot_dir w) (alive w) (top w) (context w)
        (files w) (clock w) (log w).
Definition set_dir (d : option string) (w : world) : world :=
  World (driver w) d (alive w) (top w) (context w) (files w) (clock w) (log w).
Definition set_alive (b : bool) (w : world) : world :=
  World (driver w) (current_stock_screenshot_dir w) b (top w) (context w)
        (files w) (clock w) (log w).
Definition set_pages (t c : page) (w : world) : world :=
  World (driver w) (current_stock_screenshot_dir w) (alive w) t c
        (files w) (clock w) (log w).
Definition set_files (f : gmap string content) (w : world) : world :=
  World (driver w) (current_stock_screenshot_dir w) (alive w) (top w) (context w)
        f (clock w) (log w).
Definition tick (w : world) : world :=
  World (driver w) (current_stock_screenshot_dir w) (alive w) (top w) (context w)
        (files w) (S (clock w)) (log w).
Definition emit (e : event) (w : world) : world :=
  World (driver w) (current_stock_screenshot_dir w) (alive w) (top w) (context w)
        (files w) (clock w) (log w ++ [e]).

(** ** The monad: local variables, world, exceptions

    A computation runs on the local variables [L] of the method it belongs
    to and on the world.  An exception keeps every change made before it,
    as in Python: the handler sees the locals and the world as the raising
    statement left them. *)

Definition M (L A : Type) : Type := L * world -> result A * (L * world).

#[global] Instance M_ret {L} : MRet (M L) := λ A a s, (Ok a, s).

#[global] Instance M_bind {L} : MBind (M L) := λ A B k m s,
  match m s with
  | (Ok a, s') => k a s'
  | (Raise e, s') => (Raise e, s')
  end.

Definition raise {L A} (e : exn) : M L A := λ s, (Raise e, s).

Definition of_result {L A} (r : result A) : M L A := λ s, (r, s).

(** [try: m  except <sel>: h] *)
Definition try_except_when {L A} (sel : exn -> bool) (m : M L A) (h : exn -> M L A) : M L A :=
  λ s, match m s with
       | (Ok a, s') => (Ok a, s')
       | (Raise e, s') => if sel e then h e s' else (Raise e, s')
       end.

(** [try: m  except Exception: h] *)
Definition try_except {L A} (m : M L A) (h : exn -> M L A) : M L A :=
  try_except_when (λ _, true) m h.

Definition get_local {L} : M L L := λ s, (Ok s.1, s).
Definition put_local {L} (l : L) : M L unit := λ s, (Ok tt, (l, s.2)).
Definition update_local {L} (f : L -> L) : M L unit := λ s, (Ok tt, (f s.1, s.2)).

(** A method call: the callee runs in a frame of its own. *)
Definition call {L L' A} (init : L') (m : M L' A) : M L A :=
  λ s, let '(r, (_, w)) := m (init, s.2) in (r, (s.1, w)).

Definition on_world {L A} (f : world -> result A * world) : M L A :=
  λ s, let '(r, w) := f s.2 in (r, (s.1, w)).

(** [for x in l: body x] *)
Fixpoint for_each {L X} (l : list X) (body : X -> M L unit) : M L unit :=
  match l with
  | [] => mret tt
  | x :: l' => body x ;; for_each l' body
  end.

(** A [for] loop whose body may [break]: the body answers [true] to break. *)
Fixpoint for_break {L X} (l : list X) (body : X -> M L bool) : M L unit :=
  match l with
  | [] => mret tt
  | x :: l' => b ← body x; if b : bool then mret tt else for_break l' body
  end.

(** [enumerate(l)] *)
Definition enumerate {X} (l : list X) : list (nat * X) := imap (λ i x, (i, x)) l.

(** Computations that touch neither locals nor world: reads on an element
    already found. *)
#[global] Instance result_ret : MRet result := λ A a, Ok a.

#[global] Instance result_bind : MBind result := λ A B k r,
  match r with
  | Ok a => k a
  | Raise e => Raise e
  end.

(** [d[k]] on a dict: [KeyError] when the key is missing. *)
Definition lookup_key {V} (d : gmap string V) (k : string) : result V :=
  match d !! k with
  | Some v => Ok v
  | None => Raise KeyError
  end.

Definition getitem {L V} (d : gmap string V) (k : string) : M L V :=
  of_result (lookup_key d k).

(** [l[i]] on a list: [IndexError] out of range. *)
Definition lookup_index {X} (l : list X) (i : nat) : result X :=
  match l !! i with
  | Some x => Ok x
  | None => Raise IndexError
  end.

Definition nth_item {L X} (l : list X) (i : nat) : M L X :=
  of_result (lookup_index l i).

(** [d.get(k, default)] *)
Definition dict_get (d : gmap string string) (k : string) (dflt : string) : string :=
  default dflt (d !! k).

(** [Path.parent]: the path without its last component. *)
Definition parent (p : string) : string :=
  let fix cut (l : list ascii) : list ascii :=
    match l with
    | [] => []
    | c :: l' => if Ascii.eqb c "/"%char then l' else cut l'
    end in
  String.string_of_list_ascii (rev (cut (rev (String.list_ascii_of_string p)))).

(** [d / name] on paths: an absolute [name] replaces [d].  The string is
    not brought to pathlib's normal form (doubled or trailing separators
    and [.] components are kept as written). *)
Definition path_div (d name : string) : string :=
  if String.prefix "/" name then name else d +:+ "/" +:+ name.

Definition double_quote : string := String (ascii_of_nat 34) EmptyString.

(** Placeholder the collector stores when a text could not be read. *)
Definition no_info : string := "정보 없음".

(** * Reading one list entry

    The per-entry bodies of the news and flow loops only read elements
    already in hand. *)

(** [title_elem.get_attribute("title") or title_elem.text.strip()] *)
Definition title_of (title_elem : element) : result string :=
  a ← el_get_attribute title_elem "title";
  match a with
  | Some s => if PyStr.truthy s then Ok s
              else t ← el_text title_elem; Ok (PyStr.strip t)
  | None => t ← el_text title_elem; Ok (PyStr.strip t)
  end.

(** The body of the per-item [try] of [_get_news_announcements]: the dict
    built from list entry number [idx]. *)
Definition news_entry (idx : nat) (item : element) : result news_item :=
  title_elem ← el_find_element item (CSS_SELECTOR, "a");
  title ← title_of title_elem;
  date_elem ← el_find_element item (CSS_SELECTOR, ".date, .wdate");
  t ← el_text date_elem;
  let date := PyStr.strip t in
  source_elem ← el_find_element item (CSS_SELECTOR, ".press, .info_policy");
  t ← el_text source_elem;
  let source := PyStr.strip t in
  Ok (NewsItem title date source (idx + 1)).

(** [cells[i].text.strip()] *)
Definition cell_text (cells : list element) (i : nat) : result string :=
  c ← lookup_index cells i;
  t ← el_text c;
  Ok (PyStr.strip t).

(** The dict [_get_investor_trends] builds from the cells of row number
    [idx]. *)
Definition investor_entry (idx : nat) (cells : list element) : result investor_row :=
  c0 ← cell_text cells 0;
  c1 ← cell_text cells 1;
  c2 ← cell_text cells 2;
  c3 ← cell_text cells 3;
  c4 ← cell_text cells 4;
  c5 ← cell_text cells 5;
  Ok (InvestorRow c0 c1 c2 c3 c4 c5 (idx + 1)).

(** * The collector *)

Section Collector.

Variable E : env.

(** ** Outside calls *)

(** A call through [self.driver]: [AttributeError] while no driver is
    set; otherwise the call is recorded and answered. *)
Definition on_driver {L A} (ev : event) (f : world -> result A * world) : M L A :=
  on_world (λ w, if driver w then f (emit ev w) else (Raise AttributeError, w)).

Definition answer {A} (r : result A) (w : world) : result A * world := (r, w).

Definition outcome (o : option exn) (w : world) : result unit * world :=
  match o with
  | None => (Ok tt, w)
  | Some e => (Raise e, w)
  end.

Definition driver_get {L} (url : string) : M L unit :=
  on_driver (EvGet url) (λ w,
    match site E url with
    | Ok p => (Ok tt, set_pages p p w)
    | Raise e => (Raise e, w)
    end).

Definition driver_title {L} : M L string :=
  on_driver EvTitle (λ w, answer (pg_title (context w)) w).

Definition driver_find_element {L} (loc : locator) : M L element :=
  on_driver (EvFindElement loc) (λ w, answer (pg_find_element (context w) loc) w).

Definition driver_find_elements {L} (loc : locator) : M L (list element) :=
  on_driver (EvFindElements loc) (λ w, answer (pg_find_elements (context w) loc) w).

(** [self.wait.until(EC.presence_of_element_located(loc))] *)
Definition wait_until_presence {L} (loc : locator) : M L unit :=
  on_driver (EvWait loc) (λ w, answer (pg_wait_presence (context w) loc) w).

Definition driver_execute_script {L} (s : script) : M L jsval :=
  on_driver (EvScript s) (λ w, answer (pg_execute_script (context w) s) w).

Definition driver_switch_to_frame {L} (e : element) : M L unit :=
  on_driver EvSwitchFrame (λ w,
    match pg_frame (context w) e with
    | Ok p => (Ok tt, set_pages (top w) p w)
    | Raise x => (Raise x, w)
    end).

Definition driver_switch_to_default_content {L} : M L unit :=
  on_driver EvDefaultContent (λ w, (Ok tt, set_pages (top w) (top w) w)).

Definition driver_get_window_size {L} : M L (gmap string Z) :=
  on_driver EvGetWindowSize (λ w, answer (pg_window_size (top w)) w).

Definition driver_set_window_size {L} (width height : jsval) : M L unit :=
  on_driver EvSetWindowSize (λ w, outcome (pg_set_window_size (top w) width height) w).

(** Selenium's [save_screenshot]: raises when the browser cannot capture,
    answers [False] when the file cannot be written, else writes it. *)
Definition save_png (png : result string) (path : string) (w : world) : result bool * world :=
  match png with
  | Ok b =>
      if writable E path then (Ok true, set_files (<[path := Bytes b]> (files w)) w)
      else (Ok false, w)
  | Raise e => (Raise e, w)
  end.

Definition driver_save_screenshot {L} (path : string) : M L bool :=
  on_driver (EvSaveScreenshot path) (λ w, save_png (pg_png (top w)) path w).

(** [element.screenshot(path)] *)
Definition element_screenshot {L} (e : element) (path : string) : M L bool :=
  on_world (λ w, save_png (el_png e) path (emit (EvElementScreenshot path) w)).

Definition driver_cdp_layout_metrics {L} : M L (gmap string (gmap string Z)) :=
  on_driver (EvCdp "Page.getLayoutMetrics") (λ w, answer (pg_layout_metrics (top w)) w).

Definition driver_cdp_capture {L} (width height : Z) : M L (gmap string string) :=
  on_driver (EvCdp "Page.captureScreenshot")
            (λ w, answer (pg_capture_screenshot (top w) width height) w).

(** [uc.Chrome(...)] followed by the assignment to [self.driver]; what
    Chrome stores in its profile directory is not modelled. *)
Definition uc_Chrome {L} (o : option exn) : M L unit :=
  on_world (λ w,
    match o with
    | None => (Ok tt, set_driver true (set_alive true (set_pages (blank E) (blank E) (emit EvLaunch w))))
    | Some e => (Raise e, emit EvLaunch w)
    end).

Definition driver_implicitly_wait {L} : M L unit :=
  on_world (outcome (implicitly_wait E)).

Definition driver_quit {L} : M L unit :=
  on_world (λ w,
    match quit E with
    | None => (Ok tt, set_alive false (emit EvQuit w))
    | Some e => (Raise e, emit EvQuit w)
    end).

(** [os.makedirs(p, exist_ok=True)] and [Path.mkdir]: directories are not
    part of [files], only whether the call raises is kept. *)
Definition os_makedirs {L} (p : string) : M L unit := on_world (outcome (makedirs E p)).

Definition path_mkdir {L} (p : string) : M L unit := on_world (outcome (mkdir E p)).

(** [open(path, "wb")] or [open(path, "w")]: the file is created empty. *)
Definition open_write {L} (path : string) : M L unit :=
  on_world (λ w,
    if writable E path then (Ok tt, set_files (<[path := Bytes EmptyString]> (files w)) w)
    else (Raise OSError, w)).

Definition write_file {L} (path : string) (c : content) : M L unit :=
  on_world (λ w, (Ok tt, set_files (<[path := c]> (files w)) w)).

(** [datetime.now().strftime(fmt)] *)
Definition now_strftime {L} (fmt : string) : M L string :=
  on_world (λ w, (Ok (strftime E fmt (clock w)), tick w)).

(** [datetime.now().isoformat()] *)
Definition now_isoformat {L} : M L string :=
  on_world (λ w, (Ok (isoformat E (clock w)), tick w)).

Definition self_driver {L} : M L bool := on_world (λ w, (Ok (driver w), w)).

(** Attribute lookup [self.<name>] for the directory attributes.  The
    class creates two of them, in [__init__]: [base_screenshot_dir] and
    [current_stock_screenshot_dir] (initially [None]); any other name
    raises [AttributeError]. *)
Definition getattr_dir {L} (name : string) : M L (option string) :=
  if decide (name = "base_screenshot_dir") then mret (Some (cfg_save_path E))
  else if decide (name = "current_stock_screenshot_dir")
       then on_world (λ w, (Ok (current_stock_screenshot_dir w), w))
       else raise AttributeError.

(** [self.<name> / filename]; a [None] directory has no [/]. *)
Definition dir_div {L} (name filename : string) : M L string :=
  d ← getattr_dir name;
  match d with
  | Some p => mret (path_div p filename)
  | None => raise TypeError
  end.

Definition text_of {L} (e : element) : M L string := of_result (el_text e).

(** ** Session set-up and tear-down *)

Definition _setup_driver : M unit unit :=
  try_except
    (os_makedirs "~/magicSplitGPT_chrome_profile" ;;
     try_except
       (uc_Chrome (chrome_with_options E))
       (λ _, uc_Chrome (chrome_default E)) ;;
     driver_implicitly_wait ;;
     mret tt)
    (λ e, raise e).

Definition _close_driver : M unit unit :=
  d ← self_driver;
  if d : bool then
    try_except driver_quit (λ _, mret tt)
  else mret tt.

Definition _setup_stock_screenshot_folder (stock_code : string) : M unit unit :=
  timestamp ← now_strftime "%y%m%d%H%M";
  let folder_name := stock_code +:+ "_" +:+ timestamp in
  let dir := path_div (cfg_save_path E) folder_name in
  on_world (λ w, (Ok tt, set_dir (Some dir) w)) ;;
  path_mkdir dir.

(** ** Capture through the DevTools protocol *)

Definition _take_full_page_screenshot_cdp (filepath : string) : M unit bool :=
  try_except
    (page_rect ← driver_cdp_layout_metrics;
     size_w ← getitem page_rect "contentSize";
     width ← getitem size_w "width";
     size_h ← getitem page_rect "contentSize";
     height ← getitem size_h "height";
     base_64_png ← driver_cdp_capture width height;
     open_write filepath ;;
     data ← getitem base_64_png "data";
     png ← of_result (b64decode E data);
     write_file filepath (Bytes png) ;;
     mret true)
    (λ _, mret false).

(** ** Navigation to the overview page *)

Definition get_stock_url (stock_code : string) : string :=
  cfg_stock_url E +:+ "?code=" +:+ stock_code.

Definition selectors_to_try : list locator :=
  [ (CLASS_NAME, "chart_area");
    (ID, "chart");
    (CLASS_NAME, "graph_wrap");
    (CLASS_NAME, "today");
    (TAG_NAME, "body") ].

(** The local variable is [loaded].  Both outer handlers of the source
    ([TimeoutException], then [Exception]) return [False]. *)
Definition _navigate_to_stock (stock_code : string) : M bool bool :=
  try_except
    (let stock_url := get_stock_url stock_code in
     driver_get stock_url ;;
     put_local false ;;
     for_break selectors_to_try (λ loc,
       try_except_when is_timeout
         (wait_until_presence loc ;;
          put_local true ;;
          mret true)
         (λ _, mret false)) ;;
     mret true)
    (λ _, mret false).

(** ** Extraction on the overview page *)

(** A loop that builds a value local to one [try] block. *)
Fixpoint fold_each {L X B} (l : list X) (acc : B) (body : B -> X -> M L B) : M L B :=
  match l with
  | [] => mret acc
  | x :: l' => acc' ← body acc x; fold_each l' acc' body
  end.

(** The local variable is the dict [basic_info]. *)
Definition _get_basic_info : M (gmap string string) (gmap string string) :=
  put_local ∅ ;;
  try_except
    (stock_name_elem ← driver_find_element (CSS_SELECTOR, ".wrap_company h2 a");
     t ← text_of stock_name_elem;
     update_local (<["stock_name" := PyStr.strip t]>) ;;
     stock_code_elem ← driver_find_element (CSS_SELECTOR, ".wrap_company .description .code");
     t ← text_of stock_code_elem;
     update_local (<["stock_code" := PyStr.strip t]>) ;;
     current_price_elem ← driver_find_element (CSS_SELECTOR, ".today .no_today em");
     t ← text_of current_price_elem;
     update_local (<["current_price" := PyStr.remove_char "," (PyStr.strip t)]>) ;;
     price_change_elements ← driver_find_elements (CSS_SELECTOR, ".today .no_exday em");
     (if (2 <=? length price_change_elements)%nat then
        e0 ← nth_item price_change_elements 0;
        t0 ← text_of e0;
        let price_change := PyStr.remove_char "," (PyStr.strip t0) in
        e1 ← nth_item price_change_elements 1;
        t1 ← text_of e1;
        let change_rate := PyStr.strip t1 in
        update_local (<["price_change" := price_change]>) ;;
        update_local (<["change_rate" := change_rate]>)
      else mret tt) ;;
     try_except
       (summary_elem ← driver_find_element (CSS_SELECTOR, ".summary a");
        driver_execute_script (click_arg0 summary_elem) ;;
        company_desc_elements ← driver_find_elements (CSS_SELECTOR, ".summary_info p");
        company_description ← fold_each company_desc_elements [] (λ acc elem,
          t ← text_of elem;
          let text := PyStr.strip t in
          if PyStr.truthy text && negb (String.prefix "출처" text)
          then mret (acc ++ [text])
          else mret acc);
        update_local (<["company_description" := PyStr.join " " company_description]>) ;;
        close_btn ← driver_find_element (CSS_SELECTOR, ".summary_lyr .btn_area_top a");
        driver_execute_script (click_arg0 close_btn) ;;
        mret tt)
       (λ _, update_local (<["company_description" := no_info]>)) ;;
     (* the log line formats basic_info['stock_name'] and ['stock_code'] *)
     basic_info ← get_local;
     getitem basic_info "stock_name" ;;
     getitem basic_info "stock_code" ;;
     mret tt)
    (λ _,
     try_except
       (title ← driver_title;
        if PyStr.contains_char ":" title then
          title' ← driver_title;
          update_local (<["stock_name" := PyStr.strip (PyStr.before_char ":" title')]>)
        else update_local (<["stock_name" := no_info]>))
       (λ _, update_local (<["stock_name" := no_info]>))) ;;
  get_local.

(** The theme extractor; the local variable is the list [themes]. *)
Definition _get_related_themes : M (list string) (list string) :=
  put_local [] ;;
  try_except
    (theme_section ← driver_find_element (CLASS_NAME, "group_theme");
     theme_links ← of_result (el_find_elements theme_section (TAG_NAME, "a"));
     for_each theme_links (λ theme_link,
       t ← text_of theme_link;
       let theme_text := PyStr.strip t in
       themes ← get_local;
       if PyStr.truthy theme_text && negb (bool_decide (theme_text ∈ themes))
       then put_local (themes ++ [theme_text])
       else mret tt))
    (λ _, mret tt) ;;
  get_local.

(** ** Company analysis page *)

Definition iframe_xpath : string := "/html/body/div[3]/div[2]/div[2]/div[1]/div[3]/iframe".

Definition analysis_url (stock_code : string) : string :=
  "https://finance.naver.com/item/coinfo.naver?code=" +:+ stock_code.

Definition artifact_name (stock_code label timestamp : string) : string :=
  stock_code +:+ label +:+ timestamp +:+ "." +:+ cfg_format E.

(** The local variable is the dict [analysis_screenshots]. *)
Definition _capture_company_analysis (stock_code : string)
  : M (gmap string string) (gmap string string) :=
  put_local ∅ ;;
  try_except
    (driver_get (analysis_url stock_code) ;;
     try_except
       (iframe ← driver_find_element (XPATH, iframe_xpath);
        driver_switch_to_frame iframe ;;
        iframe_height ← driver_execute_script document_height;
        driver_switch_to_default_content ;;
        driver_execute_script (resize_iframe iframe_xpath iframe_height) ;;
        timestamp ← now_strftime "%Y%m%d_%H%M%S";
        let filename := artifact_name stock_code "_company_analysis_cdp_full_" timestamp in
        filepath ← dir_div "current_stock_screenshot_dir" filename;
        success ← call tt (_take_full_page_screenshot_cdp filepath);
        if success : bool then
          update_local (<["cdp_screenshot" := filepath]>)
        else
          driver_save_screenshot filepath ;;
          update_local (<["fallback_screenshot" := filepath]>))
       (λ _,
        total_height ← driver_execute_script body_scroll_height;
        original_size ← driver_get_window_size;
        driver_set_window_size (JNum 1920%Z) total_height ;;
        timestamp ← now_strftime "%Y%m%d_%H%M%S";
        let filename := artifact_name stock_code "_company_analysis_fallback_" timestamp in
        filepath ← dir_div "current_stock_screenshot_dir" filename;
        driver_save_screenshot filepath ;;
        width ← getitem original_size "width";
        height ← getitem original_size "height";
        driver_set_window_size (JNum width) (JNum height) ;;
        update_local (<["fallback_screenshot" := filepath]>)))
    (λ _, mret tt) ;;
  get_local.

(** ** News page *)

Definition news_url (stock_code : string) : string :=
  "https://finance.naver.com/item/news.naver?code=" +:+ stock_code.

(** The local variable is the list [news_data]. *)
Definition _get_news_announcements (stock_code : string)
  : M (list news_item) (list news_item) :=
  put_local [] ;;
  try_except
    (driver_get (news_url stock_code) ;;
     driver_execute_script scroll_to_top ;;
     timestamp ← now_strftime "%Y%m%d_%H%M%S";
     let filename := artifact_name stock_code "_news_cdp_full_" timestamp in
     filepath ← dir_div "current_stock_screenshot_dir" filename;
     success ← call tt (_take_full_page_screenshot_cdp filepath);
     (if negb success then driver_save_screenshot filepath ;; mret tt else mret tt) ;;
     news_items ← driver_find_elements (CSS_SELECTOR, ".tb_cont, .newsList li");
     for_each (enumerate (take 20 news_items)) (λ '(idx, item),
       try_except
         (entry ← of_result (news_entry idx item);
          update_local (λ news_data, news_data ++ [entry]))
         (λ _, mret tt)))
    (λ _, mret tt) ;;
  get_local.

(** ** Investor flows page *)

Definition investor_url (stock_code : string) : string :=
  "https://finance.naver.com/item/frgn.naver?code=" +:+ stock_code.

(** The local variable is the list [investor_data]. *)
Definition _get_investor_trends (stock_code : string)
  : M (list investor_row) (list investor_row) :=
  put_local [] ;;
  try_except
    (driver_get (investor_url stock_code) ;;
     driver_execute_script scroll_to_top ;;
     timestamp ← now_strftime "%Y%m%d_%H%M%S";
     let filename := artifact_name stock_code "_investor_trends_cdp_full_" timestamp in
     filepath ← dir_div "current_stock_screenshot_dir" filename;
     success ← call tt (_take_full_page_screenshot_cdp filepath);
     (if negb success then driver_save_screenshot filepath ;; mret tt else mret tt) ;;
     try_except
       (table ← driver_find_element (CSS_SELECTOR, ".type2, .tb_cont");
        all_rows ← of_result (el_find_elements table (TAG_NAME, "tr"));
        let rows := take 10 (drop 1 all_rows) in
        for_each (enumerate rows) (λ '(idx, row),
          cells ← of_result (el_find_elements row (TAG_NAME, "td"));
          if (6 <=? length cells)%nat then
            entry ← of_result (investor_entry idx cells);
            update_local (λ investor_data, investor_data ++ [entry])
          else mret tt))
       (λ _, mret tt))
    (λ _, mret tt) ;;
  get_local.

(** ** Advanced chart page *)

Definition chart_url (stock_code : string) : string :=
  "https://finance.naver.com/item/fchart.naver?code=" +:+ stock_code.

Definition menu_xpath : string :=
  "//*[@id=" +:+ double_quote +:+ "content" +:+ double_quote
  +:+ "]/div[3]/cq-context/div[1]/div[1]/div/div[2]/cq-menu".

Definition studies_xpath (item : string) : string :=
  menu_xpath +:+ "/cq-menu-dropdown/cq-scroll/cq-studies/cq-studies-content/" +:+ item.

Definition chart_types : list (string * string * string) :=
  [ ("month", "month", "월봉");
    ("week", "week", "주봉");
    ("day", "day", "일봉") ].

Definition chart_area_selector : locator := (CSS_SELECTOR, "cq-context, .chart_area, #chart").

(** The chart region, or the whole page when the region fails: the inner
    [try]/[except] shared by the three candle intervals and the hourly
    one; [label] is what follows [chart_] in the key and the file name. *)
Definition capture_chart_area (stock_code label : string) : M (gmap string string) unit :=
  try_except
    (chart_area ← driver_find_element chart_area_selector;
     timestamp ← now_strftime "%Y%m%d_%H%M%S";
     let filename := artifact_name stock_code ("_chart_" +:+ label +:+ "_") timestamp in
     filepath ← dir_div "current_stock_screenshot_dir" filename;
     element_screenshot chart_area filepath ;;
     update_local (<["chart_" +:+ label := filepath]>))
    (λ _,
     timestamp ← now_strftime "%Y%m%d_%H%M%S";
     let filename := artifact_name stock_code ("_chart_" +:+ label +:+ "_full_") timestamp in
     filepath ← dir_div "current_stock_screenshot_dir" filename;
     driver_save_screenshot filepath ;;
     update_local (<["chart_" +:+ label +:+ "_full" := filepath]>)).

(** The local variable is the dict [chart_screenshots]. *)
Definition _capture_advanced_charts (stock_code : string)
  : M (gmap string string) (gmap string string) :=
  put_local ∅ ;;
  try_except
    (driver_get (chart_url stock_code) ;;
     try_except
       (indicator_menu ← driver_find_element (XPATH, menu_xpath +:+ "/span");
        driver_execute_script (click_arg0 indicator_menu) ;;
        macd_elem ← driver_find_element (XPATH, studies_xpath "cq-item[9]/cq-label");
        driver_execute_script (click_arg0 macd_elem) ;;
        rsi_elem ← driver_find_element (XPATH, studies_xpath "cq-item[12]");
        driver_execute_script (click_arg0 rsi_elem) ;;
        stoch_elem ← driver_find_element (XPATH, studies_xpath "cq-item[15]");
        driver_execute_script (click_arg0 stoch_elem) ;;
        mret tt)
       (λ _, mret tt) ;;
     for_each chart_types (λ '(chart_type, css_class, korean_name),
       try_except
         (result ← driver_execute_script (pointer_click_div css_class);
          if js_truthy result then capture_chart_area stock_code chart_type
          else mret tt)
         (λ _, mret tt)) ;;
     try_except
       (result ← driver_execute_script pointer_click_hour;
        (if js_truthy result then mret tt else raise PyException) ;;
        capture_chart_area stock_code "1hour")
       (λ _, mret tt))
    (λ _, mret tt) ;;
  get_local.

(** ** The orchestrator *)

Definition collect_stock_data (stock_code : string) : M unit (option StockData) :=
  try_except
    (call tt (_setup_stock_screenshot_folder stock_code) ;;
     call tt _setup_driver ;;
     navigated ← call false (_navigate_to_stock stock_code);
     if negb navigated then mret None
     else
       basic_info ← call ∅ _get_basic_info;
       analysis_screenshots ← call ∅ (_capture_company_analysis stock_code);
       news ← call [] (_get_news_announcements stock_code);
       investor_trends ← call [] (_get_investor_trends stock_code);
       advanced_charts ← call ∅ (_capture_advanced_charts stock_code);
       collected ← now_isoformat;
       mret (Some {|
         stock_code := stock_code;
         stock_name := dict_get basic_info "stock_name" EmptyString;
         current_price := dict_get basic_info "current_price" EmptyString;
         price_change := dict_get basic_info "price_change" EmptyString;
         change_rate := dict_get basic_info "change_rate" EmptyString;
         volume := dict_get basic_info "volume" EmptyString;
         market_cap := dict_get basic_info "market_cap" EmptyString;
         investment_opinion := dict_get basic_info "company_description" EmptyString;
         news_data := news;
         discussion_data := investor_trends;
         related_themes := [];
         (* {**analysis_screenshots, **advanced_charts}: the later dict wins *)
         chart_screenshots := advanced_charts ∪ analysis_screenshots;
         financial_data := ∅;
         technical_indicators := ∅;
         collected_at := collected
       |}))
    (λ _,
     (* close the driver only when an error occurred *)
     call tt _close_driver ;;
     mret None).

Definition close_driver_if_needed : M unit unit := _close_driver.

(** ** Saving the record *)

Definition save_data_to_json (stock_data : StockData) (filepath : option string)
  : M unit string :=
  filepath ← match filepath with
             | None =>
                 timestamp ← now_strftime "%Y%m%d_%H%M%S";
                 let filename := stock_code stock_data +:+ "_" +:+ timestamp +:+ ".json" in
                 screenshot_dir ← getattr_dir "screenshot_dir";
                 match screenshot_dir with
                 | None => raise AttributeError
                 | Some dir =>
                     let filepath := path_div (path_div (parent dir) "data") filename in
                     path_mkdir (parent filepath) ;;
                     mret filepath
                 end
             | Some p => mret p
             end;
  try_except
    (open_write filepath ;;
     write_file filepath (JsonDoc stock_data) ;;
     mret filepath)
    (λ e, raise e).

End Collector.

(** * Running a method *)

(** A method run in a frame of its own, from world [w]. *)
Definition run_in {L A} (init : L) (m : M L A) (w : world) : result A * world :=
  let '(r, (_, w')) := m (init, w) in (r, w').

Definition run {A} (m : M unit A) (w : world) : result A * world := run_in tt m w.

(** The collector as [__init__] leaves it: no driver, no run directory. *)
Definition fresh (E : env) : world :=
  World false None false (blank E) (blank E) ∅ 0 [].

(** * What the environment decides

    The three ways a run ends without a record, read off the environment. *)

Definition run_dir (E : env) (stock_code : string) (w : world) : string :=
  path_div (cfg_save_path E) (stock_code +:+ "_" +:+ strftime E "%y%m%d%H%M" (clock w)).

(** Creating the run directory raises. *)
Definition folder_setup_fails (E : env) (stock_code : string) (w : world) : bool :=
  bool_decide (is_Some (mkdir E (run_dir E stock_code w))).

(** [_setup_driver] raises: the profile directory cannot be made, Chrome
    starts neither with the options nor without, or the implicit wait is
    refused. *)
Definition driver_setup_fails (E : env) : bool :=
  bool_decide (is_Some (makedirs E "~/magicSplitGPT_chrome_profile"))
  || (bool_decide (is_Some (chrome_with_options E)) && bool_decide (is_Some (chrome_default E)))
  || bool_decide (is_Some (implicitly_wait E)).

(** A page-ready wait raises something other than a timeout before any
    wait succeeds. *)
Fixpoint waits_abort (p : page) (l : list locator) : bool :=
  match l with
  | [] => false
  | loc :: l' =>
      match pg_wait_presence p loc with
      | Ok _ => false
      | Raise e => if is_timeout e then waits_abort p l' else true
      end
  end.

(** Every page-ready wait times out. *)
Definition waits_all_time_out (p : page) (l : list locator) : bool :=
  forallb (λ loc, match pg_wait_presence p loc with
                  | Raise TimeoutException => true
                  | _ => false
                  end) l.

(** [_navigate_to_stock] answers [False]: loading the overview page raises,
    or a wait aborts. *)
Definition navigation_fails (E : env) (stock_code : string) : bool :=
  match site E (get_stock_url E stock_code) with
  | Raise _ => true
  | Ok p => waits_abort p selectors_to_try
  end.

(** * Events of a stage *)

Definition theme_lookup (e : event) : bool :=
  match e with
  | EvFindElement (CLASS_NAME, s) => bool_decide (s = "group_theme")
  | _ => false
  end.

Definition session_event (e : event) : bool :=
  match e with
  | EvLaunch | EvQuit => true
  | _ => false
  end.

Definition stage_event (e : event) : Prop :=
  theme_lookup e = false ∧ session_event e = false.

(** [w'] continues [w] with the same session: the driver attribute, the
    browser process and the run directory are untouched, and the log grew
    by stage events only. *)
Definition quiet (w w' : world) : Prop :=
  driver w' = driver w ∧ alive w' = alive w ∧
  current_stock_screenshot_dir w' = current_stock_screenshot_dir w ∧
  ∃ t, log w' = log w ++ t ∧ Forall stage_event t.

(** A computation that only ever continues the world quietly. *)
Definition keeps {L A} (m : M L A) : Prop := ∀ s, quiet s.2 (m s).2.2.

(** A computation that never raises. *)
Definition total {L A} (m : M L A) : Prop := ∀ s, ∃ a, (m s).1 = Ok a.

(** Events [_setup_driver] may add: no theme lookup, and no [quit]. *)
Definition session_log (t : list event) : Prop :=
  Forall (λ e, theme_lookup e = false ∧ e ≠ EvQuit) t.

(** One turn of the page-ready loop of [_navigate_to_stock]. *)
Definition wait_turn (loc : locator) : M bool bool :=
  try_except_when is_timeout
    (wait_until_presence loc ;; put_local true ;; mret true)
    (λ _, mret false).

(** The record the orchestrator builds from what the stages returned. *)
Definition record_of (code : string) (basic_info analysis : gmap string string)
    (news : list news_item) (flows : list investor_row)
    (charts : gmap string string) (collected : string) : StockData :=
  {| stock_code := code;
     stock_name := dict_get basic_info "stock_name" EmptyString;
     current_price := dict_get basic_info "current_price" EmptyString;
     price_change := dict_get basic_info "price_change" EmptyString;
     change_rate := dict_get basic_info "change_rate" EmptyString;
     volume := dict_get basic_info "volume" EmptyString;
     market_cap := dict_get basic_info "market_cap" EmptyString;
     investment_opinion := dict_get basic_info "company_description" EmptyString;
     news_data := news;
     discussion_data := flows;
     related_themes := [];
     chart_screenshots := charts ∪ analysis;
     financial_data := ∅;
     technical_indicators := ∅;
     collected_at := collected |}.

(** The five stages after navigation, as one run threads the world through
    them from [w3]; it ends in [w'] with record [d]. *)
Definition stages_from (E : env) (code : string) (w3 : world) (d : StockData) (w' : world) : Prop :=
  ∃ bi w4 an w5 nw w6 fl w7 ch w8,
    run_in ∅ _get_basic_info w3 = (Ok bi, w4) ∧
    run_in ∅ (_capture_company_analysis E code) w4 = (Ok an, w5) ∧
    run_in [] (_get_news_announcements E code) w5 = (Ok nw, w6) ∧
    run_in [] (_get_investor_trends E code) w6 = (Ok fl, w7) ∧
    run_in ∅ (_capture_advanced_charts E code) w7 = (Ok ch, w8) ∧
    d = record_of code bi an nw fl ch (isoformat E (clock w8)) ∧
    w' = tick w8.

(** * Concrete sites

    Small environments on which the methods can be run: a site with the
    fixed-selector overview page, and variations where one outside call
    fails. *)

Module Mock.

(** An element with a text and nothing below it. *)
Definition leaf (text : string) : element :=
  Element (Ok text) (λ _, Ok None) (λ _, Raise NoSuchElementException)
          (λ _, Ok []) (Ok "png:element").

Definition window : gmap string Z := <["width" := 1920%Z]> (<["height" := 1080%Z]> ∅).

(** A page that answers the given lookups; scripts answer [null], the
    DevTools commands are refused, the viewport can be captured. *)
Definition page_with (title : string)
    (one : locator → result element) (many : locator → result (list element))
    (waits : locator → result unit) (png : result string) : page :=
  Page (Ok title) one many waits (λ _, Ok JNull)
       (Raise WebDriverException) (λ _ _, Raise WebDriverException)
       png (Ok window) (λ _ _, None) (λ _, Raise WebDriverException).

Definition nothing : locator → result element := λ _, Raise NoSuchElementException.
Definition none : locator → result (list element) := λ _, Ok [].
Definition ready : locator → result unit := λ _, Ok tt.
Definition never_ready : locator → result unit := λ _, Raise TimeoutException.

Definition bare : page := page_with "Naver" nothing none ready (Ok "png:viewport").

(** The overview page of 005930. *)
Definition overview_elements (loc : locator) : result element :=
  if decide (loc = (CSS_SELECTOR, ".wrap_company h2 a")) then Ok (leaf " Samsung Electronics ")
  else if decide (loc = (CSS_SELECTOR, ".wrap_company .description .code")) then Ok (leaf "005930")
  else if decide (loc = (CSS_SELECTOR, ".today .no_today em")) then Ok (leaf "71,200")
  else Raise NoSuchElementException.

Definition overview_lists (loc : locator) : result (list element) :=
  if decide (loc = (CSS_SELECTOR, ".today .no_exday em"))
  then Ok [leaf "1,000"; leaf "1.4%"]
  else Ok [].

Definition overview : page :=
  page_with "Samsung Electronics : Npay" overview_elements overview_lists ready
            (Ok "png:viewport").

(** The same page before it reports ready: every wait times out. *)
Definition slow_overview : page :=
  page_with "Samsung Electronics : Npay" overview_elements overview_lists never_ready
            (Ok "png:viewport").

(** The overview page without the stock-name element. *)
Definition nameless_elements (loc : locator) : result element :=
  if decide (loc = (CSS_SELECTOR, ".wrap_company h2 a")) then Raise NoSuchElementException
  else overview_elements loc.

Definition nameless_overview : page :=
  page_with "Samsung Electronics : Npay" nameless_elements overview_lists ready
            (Ok "png:viewport").

Definition overview_url : string := "https://finance.naver.com/item/main.naver?code=005930".

Definition site_with (overview_page : result page) (url : string) : result page :=
  if decide (url = overview_url) then overview_page else Ok bare.

Definition env_with (chrome1 chrome2 : option exn) (pages : string → result page) : env :=
  Env "https://finance.naver.com/item/main.naver" "png" "screenshots"
      (λ _ n, "t" +:+ pretty n) (λ n, "t" +:+ pretty n)
      (λ _, None) (λ _, None) (λ _, true) (λ s, Ok s)
      chrome1 chrome2 None bare pages None.

(** Everything works. *)
Definition site_ok : env := env_with None None (site_with (Ok overview)).


(** The overview page cannot be loaded. *)
Definition unreachable : env :=
  env_with None None (site_with (Raise WebDriverException)).

(** The overview page loads but never reports ready. *)
Definition site_slow : env := env_with None None (site_with (Ok slow_overview)).

(** A page that cannot be captured at all. *)
Definition blind_page : page :=
  page_with "News" nothing none ready (Raise WebDriverException).

Definition news_url_005930 : string := "https://finance.naver.com/item/news.naver?code=005930".

(** The news page can be captured neither through DevTools nor as a viewport. *)
Definition news_blind : env :=
  env_with None None (λ url, if decide (url = news_url_005930) then Ok blind_page else Ok bare).

(** A flow table: the header, a row of two cells, a row of six. *)
Definition row_of (cells : list string) : element :=
  Element (Ok EmptyString) (λ _, Ok None) (λ _, Raise NoSuchElementException)
          (λ loc, if decide (loc = (TAG_NAME, "td")) then Ok (leaf <$> cells) else Ok [])
          (Ok "png:row").

Definition header_row : element := row_of [].
Definition short_row : element := row_of ["2025.01.02"; " "].
Definition full_row : element :=
  row_of [" 2025.01.03 "; "1,200"; "900"; "3,000"; "2,500"; "41,000"].

Definition flow_table : element :=
  Element (Ok EmptyString) (λ _, Ok None) (λ _, Raise NoSuchElementException)
          (λ loc, if decide (loc = (TAG_NAME, "tr"))
                  then Ok [header_row; short_row; full_row] else Ok [])
          (Ok "png:table").

Definition flows_page : page :=
  page_with "Flows"
    (λ loc, if decide (loc = (CSS_SELECTOR, ".type2, .tb_cont")) then Ok flow_table
            else Raise NoSuchElementException)
    none ready (Ok "png:viewport").

Definition flows_url_005930 : string := "https://finance.naver.com/item/frgn.naver?code=005930".

Definition flows_site : env :=
  env_with None None (λ url, if decide (url = flows_url_005930) then Ok flows_page else Ok bare).

Definition full_entry : investor_row :=
  InvestorRow "2025.01.03" "1,200" "900" "3,000" "2,500" "41,000" 2.

End Mock.

(** The name [_get_basic_info] falls back to: the page title up to its
    first colon, or the placeholder. *)
Definition title_fallback (p : page) : string :=
  match pg_title p with
  | Ok title =>
      if PyStr.contains_char ":" title
      then PyStr.strip (PyStr.before_char ":" title)
      else no_info
  | Raise _ => no_info
  end.

Definition name_selector : locator := (CSS_SELECTOR, ".wrap_company h2 a").
Definition code_selector : locator := (CSS_SELECTOR, ".wrap_company .description .code").
Definition price_selector : locator := (CSS_SELECTOR, ".today .no_today em").
Definition change_selector : locator := (CSS_SELECTOR, ".today .no_exday em").

(** The text of the element a selector finds, stripped. *)
Definition field_text (p : page) (loc : locator) : result string :=
  e ← pg_find_element p loc; t ← el_text e; Ok (PyStr.strip t).

(** The change pair as [_get_basic_info] reads it: nothing with fewer than
    two change elements, else the texts of the first two. *)
Definition change_pair (p : page) : result (option (string * string)) :=
  price_change_elements ← pg_find_elements p change_selector;
  if (2 <=? length price_change_elements)%nat then
    e0 ← lookup_index price_change_elements 0;
    t0 ← el_text e0;
    e1 ← lookup_index price_change_elements 1;
    t1 ← el_text e1;
    Ok (Some (PyStr.remove_char "," (PyStr.strip t0), PyStr.strip t1))
  else Ok None.

(** The paragraphs the description loop keeps: the non-empty stripped
    texts that do not start with the source mark. *)
Fixpoint description_texts (elems : list element) : result (list string) :=
  match elems with
  | [] => Ok []
  | elem :: rest =>
      t ← el_text elem;
      let text := PyStr.strip t in
      texts ← description_texts rest;
      Ok (if PyStr.truthy text && negb (String.prefix "출처" text)
          then text :: texts else texts)
  end.

(** What the description block of [_get_basic_info] stores on page [p]:
    the kept paragraphs joined by a space when every step of the block
    goes through, closing the pop-up included, and the placeholder as soon
    as one step raises. *)
Definition company_description_of (p : page) : string :=
  match
    (summary_elem ← pg_find_element p (CSS_SELECTOR, ".summary a");
     _ ← pg_execute_script p (click_arg0 summary_elem);
     company_desc_elements ← pg_find_elements p (CSS_SELECTOR, ".summary_info p");
     texts ← description_texts company_desc_elements;
     close_btn ← pg_find_element p (CSS_SELECTOR, ".summary_lyr .btn_area_top a");
     _ ← pg_execute_script p (click_arg0 close_btn);
     Ok (PyStr.join " " texts))
  with
  | Ok description => description
  | Raise _ => no_info
  end.

(** A collector whose driver shows page [p], with run directory [dir]. *)
Definition browsing (p : page) (dir : string) : world :=
  World true (Some dir) true p p ∅ 0 [].

(** What the protocol-level capture would write to [path] on page [p], or
    the exception that makes [_take_full_page_screenshot_cdp] answer
    [False]. *)
Definition cdp_png (E : env) (p : page) (path : string) : result string :=
  page_rect ← pg_layout_metrics p;
  size_w ← lookup_key page_rect "contentSize";
  width ← lookup_key size_w "width";
  size_h ← lookup_key page_rect "contentSize";
  height ← lookup_key size_h "height";
  base_64_png ← pg_capture_screenshot p width height;
  (if writable E path then Ok tt else Raise OSError) ;;
  data ← lookup_key base_64_png "data";
  b64decode E data.

Definition is_cdp (e : event) : bool :=
  match e with EvCdp _ => true | _ => false end.

Definition news_selector : locator := (CSS_SELECTOR, ".tb_cont, .newsList li").
Definition table_selector : locator := (CSS_SELECTOR, ".type2, .tb_cont").

(** The entries the news loop keeps: one per list element that could be
    read, in the order of the list. *)
Definition kept_news (items : list (nat * element)) : list news_item :=
  omap (λ '(idx, item), match news_entry idx item with
                        | Ok entry => Some entry
                        | Raise _ => None
                        end) items.

(** The table rows the flow loop visits: [rows[1:11]]. *)
Definition flow_table_rows (p : page) : result (list element) :=
  table ← pg_find_element p table_selector;
  all_rows ← el_find_elements table (TAG_NAME, "tr");
  Ok (take 10 (drop 1 all_rows)).

(** The entries the flow loop keeps: short rows are passed over, and the
    first row that cannot be read ends the loop. *)
Fixpoint kept_rows (rows : list (nat * element)) : list investor_row :=
  match rows with
  | [] => []
  | (idx, row) :: rest =>
      match el_find_elements row (TAG_NAME, "td") with
      | Raise _ => []
      | Ok cells =>
          if (6 <=? length cells)%nat then
            match investor_entry idx cells with
            | Ok entry => entry :: kept_rows rest
            | Raise _ => []
            end
          else kept_rows rest
      end
  end.

(** A row the flow loop can read: its cells are found and, when there are
    six or more, the first six have a text. *)
Definition readable_row (row : element) : Prop :=
  ∃ cells, el_find_elements row (TAG_NAME, "td") = Ok cells ∧
           (length cells < 6 ∨ is_ok (investor_entry 0 cells) = true).

Definition is_none {A} (o : option A) : bool :=
  match o with None => true | Some _ => false end.

(** Every call of the plain-capture fallback of [_capture_company_analysis]
    goes through on page [p]: measuring the body, reading and setting the
    window size, capturing, restoring the window. *)
Definition plain_capture_works (p : page) : bool :=
  match pg_execute_script p body_scroll_height, pg_window_size p, pg_png p with
  | Ok total_height, Ok original_size, Ok _ =>
      is_none (pg_set_window_size p (JNum 1920%Z) total_height) &&
      match original_size !! "width", original_size !! "height" with
      | Some width, Some height => is_none (pg_set_window_size p (JNum width) (JNum height))
      | _, _ => false
      end
  | _, _, _ => false
  end.



(** * Blocks of the method bodies, named

    Parts of the bodies above that the proofs treat as a unit. *)

(** The description block of [_get_basic_info]. *)
Definition description_block : M (gmap string string) unit :=
  try_except
    (summary_elem ← driver_find_element (CSS_SELECTOR, ".summary a");
     driver_execute_script (click_arg0 summary_elem) ;;
     company_desc_elements ← driver_find_elements (CSS_SELECTOR, ".summary_info p");
     company_description ← fold_each company_desc_elements [] (λ acc elem,
       t ← text_of elem;
       let text := PyStr.strip t in
       if PyStr.truthy text && negb (String.prefix "출처" text)
       then mret (acc ++ [text])
       else mret acc);
     update_local (<["company_description" := PyStr.join " " company_description]>) ;;
     close_btn ← driver_find_element (CSS_SELECTOR, ".summary_lyr .btn_area_top a");
     driver_execute_script (click_arg0 close_btn) ;;
     mret tt)
    (λ _, update_local (<["company_description" := no_info]>)).


(** The handler of the outer [try]: the name from the page title. *)
Definition name_fallback : M (gmap string string) unit :=
  try_except
    (title ← driver_title;
     if PyStr.contains_char ":" title then
       title' ← driver_title;
       update_local (<["stock_name" := PyStr.strip (PyStr.before_char ":" title')]>)
     else update_local (<["stock_name" := no_info]>))
    (λ _, update_local (<["stock_name" := no_info]>)).


(** One turn of the flow loop, and the guarded table block around it. *)
Definition flow_turn : nat * element → M (list investor_row) unit :=
  λ '(idx, row),
    cells ← of_result (el_find_elements row (TAG_NAME, "td"));
    if 6 <=? length cells then
      entry ← of_result (investor_entry idx cells);
      update_local (λ investor_data, investor_data ++ [entry])
    else mret tt.

Definition flow_table_block : M (list investor_row) unit :=
  try_except
    (table ← driver_find_element (CSS_SELECTOR, ".type2, .tb_cont");
     all_rows ← of_result (el_find_elements table (TAG_NAME, "tr"));
     let rows := take 10 (drop 1 all_rows) in
     for_each (enumerate rows) (λ '(idx, row),
       cells ← of_result (el_find_elements row (TAG_NAME, "td"));
       if 6 <=? length cells then
         entry ← of_result (investor_entry idx cells);
         update_local (λ investor_data, investor_data ++ [entry])
       else mret tt))
    (λ _, mret tt).

(** Where the news and flow stages save their capture. *)
Definition news_path (E : env) (code dir : string) (w : world) : string :=
  path_div dir (artifact_name E code "_news_cdp_full_" (strftime E "%Y%m%d_%H%M%S" (clock w))).

Definition flows_path (E : env) (code dir : string) (w : world) : string :=
  path_div dir (artifact_name E code "_investor_trends_cdp_full_"
                              (strftime E "%Y%m%d_%H%M%S" (clock w))).

(** * Methods the orchestrator does not call

    [_get_investment_opinion], [_get_news_data], [_get_discussion_data],
    [_get_financial_data] and [_capture_charts] are methods of the class
    that no path of [collect_stock_data] reaches.  The first four click a
    tab of the overview page and read the list or table behind it. *)

(** One row of the opinion table: the dict literal of
    [_get_investment_opinion]. *)
Record opinion : Type := Opinion {
  opinion_date : string;
  opinion_company : string;
  opinion_text : string;
  opinion_target_price : string
}.

(** The dict literal of [_get_news_data]. *)
Record tab_news : Type := TabNews {
  tab_news_title : string;
  tab_news_date : string;
  tab_news_source : string
}.

(** The dict literal of [_get_discussion_data]. *)
Record discussion : Type := Discussion {
  discussion_title : string;
  discussion_author : string;
  discussion_date : string
}.

(** The dict built from the cells of one opinion row; the texts are taken
    as they are. *)
Definition opinion_entry (cells : list element) : result opinion :=
  c0 ← lookup_index cells 0;
  date ← el_text c0;
  c1 ← lookup_index cells 1;
  company ← el_text c1;
  c2 ← lookup_index cells 2;
  op ← el_text c2;
  c3 ← lookup_index cells 3;
  target_price ← el_text c3;
  Ok (Opinion date company op target_price).

(** The body of the per-item [try] of [_get_news_data]. *)
Definition tab_news_entry (news_item : element) : result tab_news :=
  title_elem ← el_find_element news_item (TAG_NAME, "a");
  a ← el_get_attribute title_elem "title";
  title ← match a with
          | Some s => if PyStr.truthy s then Ok s else el_text title_elem
          | None => el_text title_elem
          end;
  date_elem ← el_find_element news_item (CLASS_NAME, "date");
  date ← el_text date_elem;
  source_elem ← el_find_element news_item (CLASS_NAME, "press");
  source ← el_text source_elem;
  Ok (TabNews title date source).

(** The body of the per-item [try] of [_get_discussion_data]. *)
Definition discussion_entry (discussion_item : element) : result discussion :=
  title_elem ← el_find_element discussion_item (TAG_NAME, "a");
  title ← el_text title_elem;
  author_elem ← el_find_element discussion_item (CLASS_NAME, "p11");
  author ← el_text author_elem;
  date_elem ← el_find_element discussion_item (CLASS_NAME, "num");
  date ← el_text date_elem;
  Ok (Discussion title author date).

Section Tabs.

(** What a click on an element does to the documents the driver shows
    (the top document and the current context): the new pair, or the
    exception [click] raises. *)
Variable click : page → page → element → result (page * page).

(** [element.click()] *)
Definition element_click {L} (e : element) : M L unit :=
  on_world (λ w,
    match click (top w) (context w) e with
    | Ok (t, c) => (Ok tt, set_pages t c w)
    | Raise x => (Raise x, w)
    end).

(** One turn of the row loop of [_get_investment_opinion]. *)
Definition opinion_turn (opinions : list opinion) (row : element)
  : M (gmap string (list opinion)) (list opinion) :=
  cells ← of_result (el_find_elements row (TAG_NAME, "td"));
  if (4 <=? length cells)%nat then
    entry ← of_result (opinion_entry cells);
    mret (opinions ++ [entry])
  else mret opinions.

(** The local variable is the dict [investment_data]; the list [opinions]
    lives inside the [try] block and reaches the dict only at its end. *)
Definition _get_investment_opinion
  : M (gmap string (list opinion)) (gmap string (list opinion)) :=
  put_local ∅ ;;
  try_except
    (opinion_tab ← driver_find_element (XPATH, "//a[contains(text(),'투자의견')]");
     element_click opinion_tab ;;
     opinion_table ← driver_find_element (CLASS_NAME, "type_1");
     rows ← of_result (el_find_elements opinion_table (TAG_NAME, "tr"));
     opinions ← fold_each (take 5 (drop 1 rows)) [] opinion_turn;
     update_local (<["opinions" := opinions]>))
    (λ _, update_local (<["opinions" := []]>)) ;;
  get_local.

(** The local variable is the list [news_data]. *)
Definition _get_news_data : M (list tab_news) (list tab_news) :=
  put_local [] ;;
  try_except
    (news_tab ← driver_find_element (XPATH, "//a[contains(text(),'뉴스')]");
     element_click news_tab ;;
     news_list ← driver_find_elements (CLASS_NAME, "tb_cont");
     for_each (take 10 news_list) (λ news_item,
       try_except
         (entry ← of_result (tab_news_entry news_item);
          update_local (λ news_data, news_data ++ [entry]))
         (λ _, mret tt)))
    (λ _, mret tt) ;;
  get_local.

(** The local variable is the list [discussion_data]. *)
Definition _get_discussion_data : M (list discussion) (list discussion) :=
  put_local [] ;;
  try_except
    (discussion_tab ← driver_find_element (XPATH, "//a[contains(text(),'토론실')]");
     element_click discussion_tab ;;
     discussion_list ← driver_find_elements (CLASS_NAME, "tb_cont");
     for_each (take 10 discussion_list) (λ discussion_item,
       try_except
         (entry ← of_result (discussion_entry discussion_item);
          update_local (λ discussion_data, discussion_data ++ [entry]))
         (λ _, mret tt)))
    (λ _, mret tt) ;;
  get_local.

(** One turn of the row loop of [_get_financial_data]: the header cells
    come before the data cells. *)
Definition finance_turn (row : element) : M (gmap string string) unit :=
  ths ← of_result (el_find_elements row (TAG_NAME, "th"));
  tds ← of_result (el_find_elements row (TAG_NAME, "td"));
  let cells := ths ++ tds in
  if (2 <=? length cells)%nat then
    c0 ← nth_item cells 0;
    t0 ← text_of c0;
    let label := PyStr.strip t0 in
    value ← (if (1 <? length cells)%nat then
               c1 ← nth_item cells 1;
               t1 ← text_of c1;
               mret (PyStr.strip t1)
             else mret "N/A");
    if PyStr.truthy label then update_local (<[label := value]>) else mret tt
  else mret tt.

(** The local variable is the dict [financial_data]. *)
Definition _get_financial_data : M (gmap string string) (gmap string string) :=
  put_local ∅ ;;
  try_except
    (finance_tab ← driver_find_element (XPATH, "//a[contains(text(),'재무제표')]");
     element_click finance_tab ;;
     finance_table ← driver_find_element (CLASS_NAME, "tb_type1_ifrs");
     rows ← of_result (el_find_elements finance_table (TAG_NAME, "tr"));
     for_each rows finance_turn)
    (λ _, mret tt) ;;
  get_local.

End Tabs.

Definition is_no_such_element (e : exn) : bool :=
  match e with NoSuchElementException => true | _ => false end.

Definition chart_selectors : list string :=
  ["#chart"; ".chart"; ".chart_area"; ".graph_image"].

Section OverviewCharts.

Variable E : env.

(** The local variables are the dict [chart_paths] and [chart_element]. *)
Definition _capture_charts (stock_code : string)
  : M (gmap string string * option element) (gmap string string) :=
  put_local (∅, None) ;;
  try_except
    (try_except
       (update_local (λ l, (l.1, None)) ;;
        for_break chart_selectors (λ selector,
          try_except_when is_no_such_element
            (found ← driver_find_element (CSS_SELECTOR, selector);
             update_local (λ l, (l.1, Some found)) ;;
             mret true)
            (λ _, mret false)) ;;
        l ← get_local;
        match l.2 with
        | Some chart_element =>
            timestamp ← now_strftime E "%Y%m%d_%H%M%S";
            let filename := artifact_name E stock_code "_main_chart_" timestamp in
            filepath ← dir_div E "screenshot_dir" filename;
            element_screenshot E chart_element filepath ;;
            update_local (λ l, (<["main_chart" := filepath]> l.1, l.2))
        | None => mret tt
        end)
       (λ _, mret tt) ;;
     try_except
       (timestamp ← now_strftime E "%Y%m%d_%H%M%S";
        let full_filename := artifact_name E stock_code "_full_page_" timestamp in
        full_filepath ← dir_div E "screenshot_dir" full_filename;
        driver_save_screenshot E full_filepath ;;
        update_local (λ l, (<["full_page" := full_filepath]> l.1, l.2)))
       (λ _, mret tt))
    (λ _, mret tt) ;;
  l ← get_local;
  mret l.1.

End OverviewCharts.

(** What [Page.captureScreenshot] answers on page [p], reached through
    the layout metrics as [_take_full_page_screenshot_cdp] does. *)
Definition cdp_shot (p : page) : result (gmap string string) :=
  page_rect ← pg_layout_metrics p;
  size_w ← lookup_key page_rect "contentSize";
  width ← lookup_key size_w "width";
  size_h ← lookup_key page_rect "contentSize";
  height ← lookup_key size_h "height";
  pg_capture_screenshot p width height.

(** The image in such an answer. *)
Definition shot_png (E : env) (shot : gmap string string) : result string :=
  data ← lookup_key shot "data";
  b64decode E data.

(** A page whose DevTools capture answers without image data. *)
Definition dataless_page : page :=
  Page (Ok "Naver") Mock.nothing Mock.none Mock.ready (λ _, Ok JNull)
       (Ok {[ "contentSize" := {[ "width" := 800%Z; "height" := 600%Z ]} ]})
       (λ _ _, Ok ∅)
       (Ok "png:viewport") (Ok Mock.window) (λ _ _, None) (λ _, Raise WebDriverException).

(** [self.driver.save_screenshot] and [element.screenshot] calls. *)
Definition is_screenshot (e : event) : bool :=
  match e with
  | EvSaveScreenshot _ | EvElementScreenshot _ => true
  | _ => false
  end.

(** Nothing is recorded, no file changes, and the log grows by calls that
    take no screenshot. *)
Definition nothing_captured (F : gmap string content) (log0 : list event)
    (s : (gmap string string * option element) * world) : Prop :=
  s.1.1 = ∅ ∧ files s.2 = F ∧
  ∃ t, log s.2 = log0 ++ t ∧ Forall (λ e, is_screenshot e = false) t.

(** * What the tab extractors keep *)

(** The opinions of the rows the loop visits, when all of them can be
    read: a row with fewer than four cells gives none, any other row the
    one built from its first four cells. *)
Fixpoint read_opinions (rows : list element) : result (list opinion) :=
  match rows with
  | [] => Ok []
  | row :: rest =>
      cells ← el_find_elements row (TAG_NAME, "td");
      if (4 <=? length cells)%nat then
        entry ← opinion_entry cells;
        entries ← read_opinions rest;
        Ok (entry :: entries)
      else read_opinions rest
  end.

(** The rows the opinion loop visits. *)
Definition opinion_rows (p : page) : result (list element) :=
  opinion_table ← pg_find_element p (CLASS_NAME, "type_1");
  rows ← el_find_elements opinion_table (TAG_NAME, "tr");
  Ok (take 5 (drop 1 rows)).

(** A row of the opinion table that cannot be read: its cells cannot be
    listed, or there are four or more and one of the first four has no
    text. *)
Definition unreadable_opinion_row (row : element) : Prop :=
  match el_find_elements row (TAG_NAME, "td") with
  | Raise _ => True
  | Ok cells => 4 ≤ length cells ∧ is_ok (opinion_entry cells) = false
  end.

(** The entries of the list items that can be read, in the order of
    the list; an item that cannot be read is passed over. *)
Fixpoint readable_entries {X} (entry_of : element → result X) (items : list element)
  : list X :=
  match items with
  | [] => []
  | item :: rest =>
      match entry_of item with
      | Ok entry => entry :: readable_entries entry_of rest
      | Raise _ => readable_entries entry_of rest
      end
  end.

(** What one row of the finance table contributes: nothing when it has
    fewer than two cells or an empty label, else the stripped texts of its
    first two cells, header cells counted before data cells.  (The value
    the source keeps for a row with a single cell is never used: such a
    row is passed over before.) *)
Definition finance_entry (row : element) : result (option (string * string)) :=
  ths ← el_find_elements row (TAG_NAME, "th");
  tds ← el_find_elements row (TAG_NAME, "td");
  let cells := ths ++ tds in
  if (2 <=? length cells)%nat then
    c0 ← lookup_index cells 0;
    t0 ← el_text c0;
    let label := PyStr.strip t0 in
    c1 ← lookup_index cells 1;
    t1 ← el_text c1;
    Ok (if PyStr.truthy label then Some (label, PyStr.strip t1) else None)
  else Ok None.

(** The mapping read from the rows of the finance table, in order: a
    later row with the same label replaces the entry, and the first row
    that cannot be read ends the reading with what was stored before. *)
Fixpoint finance_table (rows : list element) (data : gmap string string)
  : gmap string string :=
  match rows with
  | [] => data
  | row :: rest =>
      match finance_entry row with
      | Ok (Some (label, value)) => finance_table rest (<[label := value]> data)
      | Ok None => finance_table rest data
      | Raise _ => data
      end
  end.

Definition news_tab_xpath : locator := (XPATH, "//a[contains(text(),'뉴스')]").
Definition discussion_tab_xpath : locator := (XPATH, "//a[contains(text(),'토론실')]").
Definition finance_tab_xpath : locator := (XPATH, "//a[contains(text(),'재무제표')]").

(** The rows of the finance table of page [p]. *)
Definition finance_rows (p : page) : result (list element) :=
  finance_table_elem ← pg_find_element p (CLASS_NAME, "tb_type1_ifrs");
  el_find_elements finance_table_elem (TAG_NAME, "tr").

(** An opinion table whose second data row cannot be read, behind a tab
    that opens it. *)
Definition opinion_tab_xpath : locator := (XPATH, "//a[contains(text(),'투자의견')]").

Definition broken_row : element :=
  Element (Ok EmptyString) (λ _, Ok None) (λ _, Raise NoSuchElementException)
          (λ _, Raise WebDriverException) (Ok "png:row").

Definition opinion_table_mock : element :=
  Element (Ok EmptyString) (λ _, Ok None) (λ _, Raise NoSuchElementException)
          (λ loc, if decide (loc = (TAG_NAME, "tr"))
                  then Ok [Mock.header_row; Mock.row_of ["25.01.03"; "Broker"; "Buy"; "90,000"];
                           broken_row]
                  else Ok [])
          (Ok "png:table").

Definition opinion_page : page :=
  Mock.page_with "Opinions"
    (λ loc, if decide (loc = (CLASS_NAME, "type_1")) then Ok opinion_table_mock
            else if decide (loc = opinion_tab_xpath) then Ok (Mock.leaf "tab")
            else Raise NoSuchElementException)
    Mock.none Mock.ready (Ok "png:viewport").

Definition click_stays (t c : page) (e : element) : result (page * page) := Ok (t, c).

Section TabResults.

Variable click : page → page → element → result (page * page).

(** What is read behind a tab of the page the driver shows: the tab is
    looked up and clicked, and [read] is applied to the document shown
    then.  Without a driver there is nothing to look the tab up in. *)
Definition behind_tab {A} (tab_xpath : locator) (read : page → result A) (w : world)
  : result A :=
  if driver w then
    tab ← pg_find_element (context w) tab_xpath;
    pages ← click (top w) (context w) tab;
    read pages.2
  else Raise AttributeError.

(** The opinions of the table behind the opinion tab: those of the rows
    visited when tab, table and every such row can be read, and none as
    soon as one of them cannot. *)
Definition opinions_shown (w : world) : list opinion :=
  match behind_tab opinion_tab_xpath (λ c, rows ← opinion_rows c; read_opinions rows) w with
  | Ok entries => entries
  | Raise _ => []
  end.

(** The entries of the first ten items of the list behind a tab. *)
Definition tab_list {X} (tab_xpath : locator) (entry_of : element → result X) (w : world)
  : list X :=
  match behind_tab tab_xpath (λ c, pg_find_elements c (CLASS_NAME, "tb_cont")) w with
  | Ok items => readable_entries entry_of (take 10 items)
  | Raise _ => []
  end.

(** The mapping read from the table behind the finance tab. *)
Definition finance_shown (w : world) : gmap string string :=
  match behind_tab finance_tab_xpath finance_rows w with
  | Ok rows => finance_table rows ∅
  | Raise _ => ∅
  end.

End TabResults.

(** A page with the three tabs: an opinion table that can be read
    throughout, a list of three items of which the second lacks its parts,
    and a finance table with a one-cell row, a row with an empty label and
    a label that comes twice. *)
Definition list_item (title second third : string) : element :=
  Element (Ok EmptyString) (λ _, Ok None)
          (λ loc, if decide (loc = (TAG_NAME, "a")) then Ok (Mock.leaf title)
                  else if decide (loc = (CLASS_NAME, "date")) then Ok (Mock.leaf second)
                  else if decide (loc = (CLASS_NAME, "press")) then Ok (Mock.leaf third)
                  else if decide (loc = (CLASS_NAME, "p11")) then Ok (Mock.leaf second)
                  else if decide (loc = (CLASS_NAME, "num")) then Ok (Mock.leaf third)
                  else Raise NoSuchElementException)
          (λ _, Ok []) (Ok "png:item").

Definition finance_row (ths tds : list string) : element :=
  Element (Ok EmptyString) (λ _, Ok None) (λ _, Raise NoSuchElementException)
          (λ loc, if decide (loc = (TAG_NAME, "th")) then Ok (Mock.leaf <$> ths)
                  else if decide (loc = (TAG_NAME, "td")) then Ok (Mock.leaf <$> tds)
                  else Ok [])
          (Ok "png:row").

Definition table_of (rows : list element) : element :=
  Element (Ok EmptyString) (λ _, Ok None) (λ _, Raise NoSuchElementException)
          (λ loc, if decide (loc = (TAG_NAME, "tr")) then Ok rows else Ok [])
          (Ok "png:table").

Definition tabs_page : page :=
  Mock.page_with "Tabs"
    (λ loc, if decide (loc = (CLASS_NAME, "type_1"))
            then Ok (table_of [Mock.header_row;
                               Mock.row_of ["25.01.03"; "Broker"; "Buy"; "90,000"];
                               Mock.short_row;
                               Mock.row_of ["25.01.02"; "Other"; "Hold"; "80,000"; "more"]])
            else if decide (loc = (CLASS_NAME, "tb_type1_ifrs"))
            then Ok (table_of [finance_row [" Sales "] ["100"; "90"];
                               finance_row [] ["alone"];
                               finance_row [" "] ["5"];
                               finance_row ["Sales"] [" 120 "]])
            else if decide (loc ∈ [opinion_tab_xpath; news_tab_xpath; discussion_tab_xpath;
                                   finance_tab_xpath])
            then Ok (Mock.leaf "tab")
            else Raise NoSuchElementException)
    (λ loc, if decide (loc = (CLASS_NAME, "tb_cont"))
            then Ok [list_item "First" "01.03" "Daily"; Mock.leaf "banner";
                     list_item "Third" "01.02" "Weekly"]
            else Ok [])
    Mock.ready (Ok "png:viewport").

(** A company-analysis page whose iframe document answers no script,
    while the host page itself can be measured and captured. *)
Definition frame_inner : page :=
  Page (Ok "frame") Mock.nothing Mock.none Mock.ready (λ _, Raise WebDriverException)
       (Raise WebDriverException) (λ _ _, Raise WebDriverException)
       (Ok "png:frame") (Ok Mock.window) (λ _ _, None) (λ _, Raise WebDriverException).

Definition framed_page : page :=
  Page (Ok "Analysis")
       (λ loc, if decide (loc = (XPATH, iframe_xpath)) then Ok (Mock.leaf "iframe")
               else Raise NoSuchElementException)
       Mock.none Mock.ready (λ _, Ok (JNum 2400%Z))
       (Raise WebDriverException) (λ _ _, Raise WebDriverException)
       (Ok "png:viewport") (Ok Mock.window) (λ _ _, None) (λ _, Ok frame_inner).

Definition framed_site : env :=
  Mock.env_with None None
    (λ url, if decide (url = analysis_url "005930") then Ok framed_page else Ok Mock.bare).


(** An overview page with a theme section of five links: the third text
    is the first again, with a no-break space (U+00A0) before it and an
    ideographic space (U+3000) after it; the fourth is blank and the fifth
    an ideographic space alone. *)
Definition theme_section : element :=
  Element (Ok EmptyString) (λ _, Ok None) (λ _, Raise NoSuchElementException)
          (λ loc, if decide (loc = (TAG_NAME, "a"))
                  then Ok [Mock.leaf " AI "; Mock.leaf "Chips"; Mock.leaf " AI　";
                           Mock.leaf " "; Mock.leaf "　"]
                  else Ok [])
          (Ok "png:themes").


(** A chart page with its chart region, on a disk that takes no file. *)
Definition chart_page : page :=
  Mock.page_with "Chart"
    (λ loc, if decide (loc = chart_area_selector) then Ok (Mock.leaf "chart")
            else Raise NoSuchElementException)
    Mock.none Mock.ready (Ok "png:viewport").

Definition read_only_site : env :=
  Env "https://finance.naver.com/item/main.naver" "png" "screenshots"
      (λ _ n, "t" +:+ pretty n) (λ n, "t" +:+ pretty n)
      (λ _, None) (λ _, None) (λ _, false) (λ s, Ok s)
      None None None Mock.bare (λ _, Ok chart_page) None.

(** * Invariants of a computation *)

(** [I] holds after [m] whenever it held before, whether [m] returns or
    raises. *)
Definition preserves {L A} (I : L * world → Prop) (m : M L A) : Prop :=
  ∀ s, I s → I (m s).2.

(** What holds of the locals when [m] returns. *)
Definition ensures {L A} (Q : L → Prop) (m : M L A) : Prop :=
  ∀ s a s', m s = (Ok a, s') → Q s'.1.

(** What holds of the locals after [m], whether it returns or raises. *)
Definition always {L A} (Q : L → Prop) (m : M L A) : Prop :=
  ∀ s, Q (m s).2.1.

(** What holds of the value [m] returns. *)
Definition returns {L A} (Q : A → Prop) (m : M L A) : Prop :=
  ∀ s a s', m s = (Ok a, s') → Q a.

(** A computation that changes its locals only as its last act: when it
    raises they are as they were, when it returns they are related by
    [P]. *)
Definition sets_last {L A} (P : L → L → Prop) (m : M L A) : Prop :=
  ∀ s, match (m s).1 with
       | Raise _ => (m s).2.1 = s.1
       | Ok _ => P s.1 (m s).2.1
       end.

(** A string without path separator. *)
Definition no_slash (s : string) : bool := negb (PyStr.contains_char "/" s).

(** The name of a file: one path component that is neither empty nor one
    of the two directory links. *)
Definition file_name (name : string) : Prop :=
  no_slash name = true ∧ name ∉ [EmptyString; "."; ".."].

(** [p] is a file directly in directory [d]. *)
Definition file_of (d p : string) : Prop :=
  ∃ name, file_name name ∧ p = d +:+ "/" +:+ name.

(** The path a screenshot call of the driver or of an element is given. *)
Definition screenshot_target (e : event) : option string :=
  match e with
  | EvSaveScreenshot p | EvElementScreenshot p => Some p
  | _ => None
  end.

(** The stock code, the configured image format and the capture time
    stamps hold no path separator. *)
Definition plain_names (E : env) (stock_code : string) : Prop :=
  no_slash stock_code = true ∧ no_slash (cfg_format E) = true ∧
  ∀ n, no_slash (strftime E "%Y%m%d_%H%M%S" n) = true.

(** The run directory is [d]; the collector's calls have written no file
    but files directly in [d] since the files were [F]; and every
    screenshot call since the log was [log0] was given such a file. *)
Definition captures_in (d : string) (F : gmap string content) (log0 : list event)
    (w : world) : Prop :=
  current_stock_screenshot_dir w = Some d ∧
  (∀ p, ¬ file_of d p → files w !! p = F !! p) ∧
  ∃ t, log w = log0 ++ t ∧
       Forall (λ e, ∀ p, screenshot_target e = Some p → file_of d p) t.

(** A site like [Mock.site_ok] whose time stamps are all the same. *)
Definition plain_site : env :=
  Env "https://finance.naver.com/item/main.naver" "png" "screenshots"
      (λ _ _, "t") (λ _, "t")
      (λ _, None) (λ _, None) (λ _, true) (λ s, Ok s)
      None None None Mock.bare (Mock.site_with (Ok Mock.overview)) None.

(** The keys [_get_basic_info] can store. *)
Definition basic_info_keys : list string :=
  ["stock_name"; "stock_code"; "current_price"; "price_change"; "change_rate";
   "company_description"].

Definition keys_within {V} (K : list string) (l : gmap string V) : Prop :=
  ∀ k, is_Some (l !! k) → k ∈ K.

(** The keys under which capture paths are recorded. *)
Definition analysis_keys : list string := ["cdp_screenshot"; "fallback_screenshot"].

Definition chart_keys (label : string) : list string :=
  ["chart_" +:+ label; "chart_" +:+ label +:+ "_full"].

Definition chart_labels : list string := ["month"; "week"; "day"; "1hour"].

(** The slots of [chart_screenshots]: the company analysis capture and one
    chart per interval; each slot has a key for the intended capture and
    one for its fallback. *)
Definition artifact_slots : list (list string) :=
  analysis_keys :: (chart_keys <$> chart_labels).

Definition artifact_keys : list string := concat artifact_slots.

(** One step of a capture dict: nothing, or one path stored under a key
    of [K]. *)
Definition step_one (K : list string) (l l' : gmap string string) : Prop :=
  l' = l ∨ ∃ k v, k ∈ K ∧ l' = <[k := v]> l.

Fixpoint reach (Ks : list (list string)) (l l' : gmap string string) : Prop :=
  match Ks with
  | [] => l' = l
  | K :: Ks' => ∃ l1, step_one K l l1 ∧ reach Ks' l1 l'
  end.

(** A computation that leaves its locals and the run directory alone. *)
Definition silent {L A} (m : M L A) : Prop :=
  ∀ l0 dir, preserves (λ s, s.1 = l0 ∧ current_stock_screenshot_dir s.2 = dir) m.

(** A computation that stores at most one capture path, as its last act:
    when it raises, the dict is as it was. *)
Definition puts_one {A} (K : list string) (m : M (gmap string string) A) : Prop :=
  sets_last (step_one K) m.

Definition puts_seq {A} (Ks : list (list string)) (m : M (gmap string string) A) : Prop :=
  ∀ s, reach Ks s.1 (m s).2.1.

Definition is_get (e : event) : bool :=
  match e with EvGet _ => true | _ => false end.

(** A computation that requests no page. *)
Definition no_get {L A} (m : M L A) : Prop :=
  ∀ G, preserves (λ s, List.filter is_get (log s.2) = G) m.

(** A computation that, with a driver, requests exactly the page [url]. *)
Definition one_get {L A} (url : string) (m : M L A) : Prop :=
  ∀ s, driver s.2 = true →
    List.filter is_get (log (m s).2.2) = List.filter is_get (log s.2) ++ [EvGet url].

(** The pages a run that gets past navigation requests, in order. *)
Definition pages_of_run (E : env) (stock_code : string) : list event :=
  [ EvGet (get_stock_url E stock_code);
    EvGet (analysis_url stock_code);
    EvGet (news_url stock_code);
    EvGet (investor_url stock_code);
    EvGet (chart_url stock_code) ].

(** * Reasoning about computations *)

Section Frames.

Lemma quiet_refl w : quiet w w.
Proof.
  repeat split; try reflexivity.
  exists []. split; [by rewrite app_nil_r | constructor].
Qed.

Lemma quiet_trans w1 w2 w3 : quiet w1 w2 → quiet w2 w3 → quiet w1 w3.
Proof.
  intros (Hd1 & Ha1 & Hc1 & t1 & Hl1 & Ht1) (Hd2 & Ha2 & Hc2 & t2 & Hl2 & Ht2).
  repeat split; try congruence.
  exists (t1 ++ t2). split.
  - by rewrite Hl2, Hl1, app_assoc.
  - by apply Forall_app.
Qed.

Lemma quiet_emit e w : stage_event e → quiet w (emit e w).
Proof.
  intros He. repeat split; try reflexivity.
  exists [e]. split; [reflexivity | by constructor].
Qed.

Lemma quiet_same w w' :
  driver w' = driver w → alive w' = alive w →
  current_stock_screenshot_dir w' = current_stock_screenshot_dir w →
  log w' = log w → quiet w w'.
Proof.
  intros ? ? ? Hl. repeat split; try done.
  exists []. split; [by rewrite app_nil_r | constructor].
Qed.

Context {L : Type}.

Lemma keeps_ret {A} (a : A) : keeps (mret a : M L A).
Proof. intros s. apply quiet_refl. Qed.

Lemma keeps_raise {A} e : keeps (raise e : M L A).
Proof. intros s. apply quiet_refl. Qed.

Lemma keeps_of_result {A} (r : result A) : keeps (of_result r : M L A).
Proof. intros s. apply quiet_refl. Qed.

Lemma keeps_bind {A B} (m : M L A) (k : A → M L B) :
  keeps m → (∀ a, keeps (k a)) → keeps (m ≫= k).
Proof.
  intros Hm Hk s. unfold mbind, M_bind.
  specialize (Hm s). destruct (m s) as [[a|e] s']; simpl in *.
  - eapply quiet_trans; [exact Hm | apply Hk].
  - exact Hm.
Qed.

Lemma keeps_try_when {A} sel (m : M L A) h :
  keeps m → (∀ e, keeps (h e)) → keeps (try_except_when sel m h).
Proof.
  intros Hm Hh s. unfold try_except_when.
  specialize (Hm s). destruct (m s) as [[a|e] s']; simpl in *; [exact Hm|].
  destruct (sel e); [|exact Hm].
  eapply quiet_trans; [exact Hm | apply Hh].
Qed.

Lemma keeps_try {A} (m : M L A) h :
  keeps m → (∀ e, keeps (h e)) → keeps (try_except m h).
Proof. apply keeps_try_when. Qed.

Lemma keeps_get_local : keeps (get_local : M L L).
Proof. intros s. apply quiet_refl. Qed.

Lemma keeps_put_local l : keeps (put_local l : M L unit).
Proof. intros s. apply quiet_refl. Qed.

Lemma keeps_update_local f : keeps (update_local f : M L unit).
Proof. intros s. apply quiet_refl. Qed.

Lemma keeps_call {L' A} (init : L') (m : M L' A) : keeps m → keeps (call init m : M L A).
Proof.
  intros Hm s. unfold call. specialize (Hm (init, s.2)).
  destruct (m (init, s.2)) as [r [l w]]. exact Hm.
Qed.

Lemma keeps_on_world {A} (f : world → result A * world) :
  (∀ w, quiet w (f w).2) → keeps (on_world f : M L A).
Proof.
  intros Hf s. unfold on_world. specialize (Hf s.2).
  destruct (f s.2) as [r w]. exact Hf.
Qed.

Lemma keeps_on_driver {A} ev (f : world → result A * world) :
  stage_event ev → (∀ w, quiet w (f w).2) → keeps (on_driver ev f : M L A).
Proof.
  intros Hev Hf. apply keeps_on_world. intros w.
  destruct (driver w); [|apply quiet_refl].
  eapply quiet_trans; [by apply quiet_emit | apply Hf].
Qed.

Lemma keeps_for_each {X} (l : list X) (body : X → M L unit) :
  (∀ x, keeps (body x)) → keeps (for_each l body).
Proof.
  intros Hb. induction l as [|x l IH]; simpl.
  - apply keeps_ret.
  - apply keeps_bind; [apply Hb | intros _; exact IH].
Qed.

Lemma keeps_for_break {X} (l : list X) (body : X → M L bool) :
  (∀ x, keeps (body x)) → keeps (for_break l body).
Proof.
  intros Hb. induction l as [|x l IH]; simpl.
  - apply keeps_ret.
  - apply keeps_bind; [apply Hb | intros [|]; [apply keeps_ret | exact IH]].
Qed.

Lemma keeps_fold_each {X B} (l : list X) (acc : B) (body : B → X → M L B) :
  (∀ b x, keeps (body b x)) → keeps (fold_each l acc body).
Proof.
  intros Hb. revert acc. induction l as [|x l IH]; intros acc; simpl.
  - apply keeps_ret.
  - apply keeps_bind; [apply Hb | intros b; apply IH].
Qed.

Lemma keeps_getitem {V} (d : gmap string V) k : keeps (getitem d k : M L V).
Proof. apply keeps_of_result. Qed.

Lemma keeps_nth_item {X} (l : list X) i : keeps (nth_item l i : M L X).
Proof. apply keeps_of_result. Qed.

End Frames.

(** The structural steps, as one tactic: it walks a method body and leaves
    nothing when every outside call in it emits stage events only. *)
Ltac world_quiet :=
  intros; simpl;
  repeat match goal with
         | |- context [match ?x with _ => _ end] => destruct x
         end;
  simpl; first [apply quiet_refl | apply quiet_same; reflexivity].

Lemma keeps_of_find {L} loc :
  theme_lookup (EvFindElement loc) = false → keeps (driver_find_element loc : M L element).
Proof.
  intros H. unfold driver_find_element.
  apply keeps_on_driver; [by split | intros w; apply quiet_refl].
Qed.

Create HintDb keeps.

Ltac keeps_step :=
  lazymatch goal with
  | |- keeps (mret _) => apply keeps_ret
  | |- keeps (raise _) => apply keeps_raise
  | |- keeps (of_result _) => apply keeps_of_result
  | |- keeps get_local => apply keeps_get_local
  | |- keeps (put_local _) => apply keeps_put_local
  | |- keeps (update_local _) => apply keeps_update_local
  | |- keeps (getitem _ _) => apply keeps_getitem
  | |- keeps (nth_item _ _) => apply keeps_nth_item
  | |- keeps (mbind _ _) => apply keeps_bind; [|intros]
  | |- keeps (try_except _ _) => apply keeps_try; [|intros]
  | |- keeps (try_except_when _ _ _) => apply keeps_try_when; [|intros]
  | |- keeps (call _ _) => apply keeps_call
  | |- keeps (for_each _ _) => apply keeps_for_each; intros
  | |- keeps (for_break _ _) => apply keeps_for_break; intros
  | |- keeps (fold_each _ _ _) => apply keeps_fold_each; intros
  | |- keeps (on_driver _ _) => apply keeps_on_driver; [by split | world_quiet]
  | |- keeps (on_world _) => apply keeps_on_world; world_quiet
  | |- keeps (if ?b then _ else _) => destruct b
  | |- keeps (match ?x with _ => _ end) => destruct x
  | |- keeps (let _ := _ in _) => cbv zeta
  | |- keeps (driver_find_element _) => apply keeps_of_find; reflexivity
  | |- keeps _ => solve [auto with keeps]
  end.

Ltac keeps_auto := repeat keeps_step.

Section StageFrames.

Variable E : env.
Context {L : Type}.

Lemma keeps_driver_get url : keeps (driver_get E url : M L unit).
Proof. unfold driver_get. keeps_auto. Qed.

Lemma keeps_driver_title : keeps (driver_title : M L string).
Proof. unfold driver_title. keeps_auto. Qed.

Lemma keeps_driver_find_elements loc : keeps (driver_find_elements loc : M L (list element)).
Proof. unfold driver_find_elements. keeps_auto. Qed.

Lemma keeps_wait_until_presence loc : keeps (wait_until_presence loc : M L unit).
Proof. unfold wait_until_presence. keeps_auto. Qed.

Lemma keeps_driver_execute_script s : keeps (driver_execute_script s : M L jsval).
Proof. unfold driver_execute_script. keeps_auto. Qed.

Lemma keeps_driver_switch_to_frame e : keeps (driver_switch_to_frame e : M L unit).
Proof. unfold driver_switch_to_frame. keeps_auto. Qed.

Lemma keeps_driver_switch_to_default_content : keeps (driver_switch_to_default_content : M L unit).
Proof. unfold driver_switch_to_default_content. keeps_auto. Qed.

Lemma keeps_driver_get_window_size : keeps (driver_get_window_size : M L (gmap string Z)).
Proof. unfold driver_get_window_size. keeps_auto. Qed.

Lemma keeps_driver_set_window_size a b : keeps (driver_set_window_size a b : M L unit).
Proof. unfold driver_set_window_size, outcome. keeps_auto. Qed.

Lemma keeps_driver_save_screenshot p : keeps (driver_save_screenshot E p : M L bool).
Proof. unfold driver_save_screenshot, save_png. keeps_auto. Qed.

Lemma keeps_element_screenshot e p : keeps (element_screenshot E e p : M L bool).
Proof.
  unfold element_screenshot, save_png. apply keeps_on_world. intros w.
  eapply quiet_trans; [apply (quiet_emit (EvElementScreenshot p)); by split|].
  world_quiet.
Qed.

Lemma keeps_driver_cdp_layout_metrics : keeps (driver_cdp_layout_metrics : M L _).
Proof. unfold driver_cdp_layout_metrics. keeps_auto. Qed.

Lemma keeps_driver_cdp_capture a b : keeps (driver_cdp_capture a b : M L _).
Proof. unfold driver_cdp_capture. keeps_auto. Qed.

Lemma keeps_open_write p : keeps (open_write E p : M L unit).
Proof. unfold open_write. keeps_auto. Qed.

Lemma keeps_write_file p c : keeps (write_file p c : M L unit).
Proof. unfold write_file. keeps_auto. Qed.

Lemma keeps_now_strftime fmt : keeps (now_strftime E fmt : M L string).
Proof. unfold now_strftime. keeps_auto. Qed.

Lemma keeps_now_isoformat : keeps (now_isoformat E : M L string).
Proof. unfold now_isoformat. keeps_auto. Qed.

Lemma keeps_text_of e : keeps (text_of e : M L string).
Proof. apply keeps_of_result. Qed.

Lemma keeps_dir_div name f : keeps (dir_div E name f : M L string).
Proof. unfold dir_div, getattr_dir. keeps_auto. Qed.

End StageFrames.

#[global] Hint Resolve keeps_driver_get keeps_driver_title keeps_driver_find_elements
  keeps_wait_until_presence keeps_driver_execute_script keeps_driver_switch_to_frame
  keeps_driver_switch_to_default_content keeps_driver_get_window_size
  keeps_driver_set_window_size keeps_driver_save_screenshot keeps_element_screenshot
  keeps_driver_cdp_layout_metrics keeps_driver_cdp_capture keeps_open_write
  keeps_write_file keeps_now_strftime keeps_now_isoformat keeps_dir_div keeps_text_of : keeps.

(** Every stage keeps the session. *)
Section Stages.

Variable E : env.

Lemma keeps_take_full_page_screenshot_cdp path :
  keeps (_take_full_page_screenshot_cdp E path).
Proof. unfold _take_full_page_screenshot_cdp. keeps_auto. Qed.
Hint Resolve keeps_take_full_page_screenshot_cdp : keeps.

Lemma keeps_navigate_to_stock code : keeps (_navigate_to_stock E code).
Proof. unfold _navigate_to_stock. keeps_auto. Qed.

Lemma keeps_get_basic_info : keeps _get_basic_info.
Proof. unfold _get_basic_info. keeps_auto. Qed.

Lemma keeps_capture_company_analysis code : keeps (_capture_company_analysis E code).
Proof. unfold _capture_company_analysis. keeps_auto. Qed.

Lemma keeps_get_news_announcements code : keeps (_get_news_announcements E code).
Proof. unfold _get_news_announcements. keeps_auto. Qed.

Lemma keeps_get_investor_trends code : keeps (_get_investor_trends E code).
Proof. unfold _get_investor_trends. keeps_auto. Qed.

Lemma keeps_capture_chart_area code label : keeps (capture_chart_area E code label).
Proof. unfold capture_chart_area. keeps_auto. Qed.
Hint Resolve keeps_capture_chart_area : keeps.

Lemma keeps_capture_advanced_charts code : keeps (_capture_advanced_charts E code).
Proof. unfold _capture_advanced_charts. keeps_auto. Qed.

End Stages.

#[global] Hint Resolve keeps_take_full_page_screenshot_cdp keeps_capture_chart_area : keeps.


(** * Methods that cannot raise *)

Section Totality.

Context {L : Type}.

Lemma total_ret {A} (a : A) : total (mret a : M L A).
Proof. intros s. by exists a. Qed.

Lemma total_bind {A B} (m : M L A) (k : A → M L B) :
  total m → (∀ a, total (k a)) → total (m ≫= k).
Proof.
  intros Hm Hk s. unfold mbind, M_bind.
  destruct (Hm s) as [a Ha]. destruct (m s) as [[a'|e] s']; simpl in Ha; [|done].
  apply Hk.
Qed.

Lemma total_try {A} (m : M L A) h : (∀ e, total (h e)) → total (try_except m h).
Proof.
  intros Hh s. unfold try_except, try_except_when.
  destruct (m s) as [[a|e] s']; [by exists a | apply Hh].
Qed.

Lemma total_get_local : total (get_local : M L L).
Proof. intros s. by eexists. Qed.

Lemma total_put_local l : total (put_local l : M L unit).
Proof. intros s. by eexists. Qed.

Lemma total_update_local f : total (update_local f : M L unit).
Proof. intros s. by eexists. Qed.

(** The shape of every extraction and capture method: initialise the
    local, run a guarded body, return the local. *)
Lemma total_guarded (init : L) (body : M L unit) h :
  (∀ e, total (h e)) → total (put_local init ;; try_except body h ;; get_local).
Proof.
  intros Hh. apply total_bind; [apply total_put_local | intros _].
  apply total_bind; [by apply total_try | intros _; apply total_get_local].
Qed.

End Totality.

Section StageTotality.

Variable E : env.

Lemma total_take_full_page_screenshot_cdp path :
  total (_take_full_page_screenshot_cdp E path).
Proof. apply total_try. intros _. apply total_ret. Qed.

Lemma total_navigate_to_stock code : total (_navigate_to_stock E code).
Proof. apply total_try. intros _. apply total_ret. Qed.

Lemma total_get_basic_info : total _get_basic_info.
Proof.
  apply total_guarded. intros _. apply total_try. intros _. apply total_update_local.
Qed.

Lemma total_get_related_themes : total _get_related_themes.
Proof. apply total_guarded. intros _. apply total_ret. Qed.

Lemma total_capture_company_analysis code : total (_capture_company_analysis E code).
Proof. apply total_guarded. intros _. apply total_ret. Qed.

Lemma total_get_news_announcements code : total (_get_news_announcements E code).
Proof. apply total_guarded. intros _. apply total_ret. Qed.

Lemma total_get_investor_trends code : total (_get_investor_trends E code).
Proof. apply total_guarded. intros _. apply total_ret. Qed.

Lemma total_capture_advanced_charts code : total (_capture_advanced_charts E code).
Proof. apply total_guarded. intros _. apply total_ret. Qed.

(** In terms of [run_in]. *)
Lemma total_run_in {L A} (m : M L A) init w :
  total m → ∃ a w', run_in init m w = (Ok a, w').
Proof.
  intros Hm. unfold run_in. destruct (Hm (init, w)) as [a Ha].
  destruct (m (init, w)) as [r [l w']]. simpl in Ha. subst r. by exists a, w'.
Qed.

Lemma keeps_run_in {L A} (m : M L A) init w r w' :
  keeps m → run_in init m w = (r, w') → quiet w w'.
Proof.
  intros Hm. unfold run_in. specialize (Hm (init, w)).
  destruct (m (init, w)) as [r0 [l w0]]. intros [= _ <-]. exact Hm.
Qed.

Lemma call_run_in {L L' A} (init : L') (m : M L' A) (s : L * world) :
  call init m s = ((run_in init m s.2).1, (s.1, (run_in init m s.2).2)).
Proof.
  unfold call, run_in. by destruct (m (init, s.2)) as [r [l w]].
Qed.

End StageTotality.

(** * Set-up, tear-down and navigation, step by step *)

Lemma bind_eq {L A B} (m : M L A) (k : A → M L B) s :
  (m ≫= k) s = match m s with
               | (Ok a, s') => k a s'
               | (Raise e, s') => (Raise e, s')
               end.
Proof. reflexivity. Qed.

Section Session.

Variable E : env.

Lemma run_setup_folder code w :
  run (_setup_stock_screenshot_folder E code) w =
  (match mkdir E (run_dir E code w) with None => Ok tt | Some e => Raise e end,
   set_dir (Some (run_dir E code w)) (tick w)).
Proof.
  unfold run, run_in, _setup_stock_screenshot_folder, path_mkdir, now_strftime,
    on_world, outcome, run_dir, mbind, M_bind. simpl.
  by destruct (mkdir E _).
Qed.

Lemma run_close_driver w :
  run (_close_driver E) w =
  (Ok tt,
   if driver w then
     match quit E with
     | None => set_alive false (emit EvQuit w)
     | Some _ => emit EvQuit w
     end
   else w).
Proof.
  unfold run, run_in, _close_driver, self_driver, driver_quit, try_except,
    try_except_when, on_world, mbind, M_bind. simpl.
  destruct (driver w); [|done]. by destruct (quit E).
Qed.

Lemma run_setup_driver w :
  ∃ r w2 t, run (_setup_driver E) w = (r, w2) ∧
    is_ok r = negb (driver_setup_fails E) ∧
    log w2 = log w ++ t ∧ session_log t ∧
    current_stock_screenshot_dir w2 = current_stock_screenshot_dir w ∧
    clock w2 = clock w ∧
    ((driver w2 = true ∧ alive w2 = true) ∨
     (is_ok r = false ∧ driver w2 = driver w ∧ alive w2 = alive w)).
Proof.
  unfold run, run_in, _setup_driver, os_makedirs, uc_Chrome, driver_implicitly_wait,
    try_except, try_except_when, on_world, outcome, raise, mbind, M_bind,
    driver_setup_fails, session_log. simpl.
  destruct (makedirs E _) as [e0|]; simpl.
  { eexists _, _, []. rewrite app_nil_r. repeat split; auto. }
  destruct (chrome_with_options E) as [e1|]; simpl.
  - destruct (chrome_default E) as [e2|], (implicitly_wait E) as [e3|]; simpl;
      (eexists _, _, [EvLaunch; EvLaunch];
       split; [reflexivity|]; split; [reflexivity|];
       split; [simpl; by rewrite <- app_assoc|];
       split; [repeat constructor; done|];
       split; [reflexivity|]; split; [reflexivity|];
       first [left; split; reflexivity | right; repeat split; reflexivity]).
  - destruct (implicitly_wait E) as [e3|]; simpl;
      (eexists _, _, [EvLaunch];
       split; [reflexivity|]; split; [reflexivity|];
       split; [reflexivity|];
       split; [repeat constructor; done|];
       split; [reflexivity|]; split; [reflexivity|];
       left; split; reflexivity).
Qed.

Lemma wait_turn_eq loc b w :
  driver w = true →
  wait_turn loc (b, w) =
  match pg_wait_presence (context w) loc with
  | Ok _ => (Ok true, (true, emit (EvWait loc) w))
  | Raise e => if is_timeout e then (Ok false, (b, emit (EvWait loc) w))
               else (Raise e, (b, emit (EvWait loc) w))
  end.
Proof.
  intros Hd.
  unfold wait_turn, try_except_when, wait_until_presence, on_driver, on_world, answer,
    put_local, mbind, M_bind. simpl. rewrite Hd.
  destruct (pg_wait_presence (context w) loc) as [[]|e]; [done|].
  by destruct (is_timeout e).
Qed.

(** The loop stops at the first wait that succeeds, goes on after a
    timeout, and lets any other exception through. *)
Lemma navigate_waits l : ∀ b w,
  driver w = true →
  ∃ r b' w',
    for_break l wait_turn (b, w) = (r, (b', w')) ∧
    is_ok r = negb (waits_abort (context w) l).
Proof.
  induction l as [|loc l IH]; intros b w Hd.
  - by eexists _, _, _.
  - cbn [for_break waits_abort]. rewrite bind_eq, wait_turn_eq by done.
    destruct (pg_wait_presence (context w) loc) as [[]|e].
    + by eexists _, _, _.
    + destruct (is_timeout e).
      * apply (IH b (emit (EvWait loc) w) Hd).
      * by eexists _, _, _.
Qed.

Lemma run_navigate code w init :
  driver w = true →
  ∃ w', run_in init (_navigate_to_stock E code) w = (Ok (negb (navigation_fails E code)), w').
Proof.
  intros Hd.
  unfold run_in, _navigate_to_stock, try_except, try_except_when, navigation_fails.
  change (for_break selectors_to_try _) with (for_break selectors_to_try wait_turn).
  rewrite bind_eq.
  unfold driver_get, on_driver, on_world. cbn [fst snd]. rewrite Hd.
  destruct (site E (get_stock_url E code)) as [p|e]; [|by eexists].
  rewrite !bind_eq. cbn [put_local fst snd].
  destruct (navigate_waits selectors_to_try false
              (set_pages p p (emit (EvGet (get_stock_url E code)) w)) Hd)
    as (r & b' & w' & Hr & Hok).
  rewrite ?bind_eq, Hr. cbn [context set_pages] in Hok.
  destruct r as [[]|e]; cbn [is_ok] in Hok; rewrite <- Hok; by eexists.
Qed.

End Session.

(** * The orchestrator, path by path *)

Section Orchestrator.

Variable E : env.

Lemma collect_inv code w r1 w1 r2 w2 r3 w3 :
  run (_setup_stock_screenshot_folder E code) w = (r1, w1) →
  run (_setup_driver E) w1 = (r2, w2) →
  run_in false (_navigate_to_stock E code) w2 = (r3, w3) →
  let out := run (collect_stock_data E code) w in
  match r1, r2, r3 with
  | Raise _, _, _ => out = (Ok None, (run (_close_driver E) w1).2)
  | Ok _, Raise _, _ => out = (Ok None, (run (_close_driver E) w2).2)
  | Ok _, Ok _, Ok true => ∃ d w', out = (Ok (Some d), w') ∧ stages_from E code w3 d w'
  | Ok _, Ok _, _ => out = (Ok None, w3)
  end.
Proof.
  unfold run. intros Hf Hs Hn. cbv zeta.
  assert (Hclose : ∀ (s : unit * world),
             (call tt (_close_driver E) ≫= λ _, mret None) s
             = (Ok (@None StockData), (s.1, (run_in tt (_close_driver E) s.2).2))).
  { intros s. rewrite bind_eq, call_run_in.
    pose proof (run_close_driver E s.2) as Hc. unfold run in Hc. by rewrite Hc. }
  assert (Hrun : ∀ k : unit → M unit (option StockData),
             (call tt (_setup_stock_screenshot_folder E code) ≫= k) (tt, w)
             = match r1 with Ok a => k a (tt, w1) | Raise e => (Raise e, (tt, w1)) end).
  { intros k. rewrite bind_eq, call_run_in; cbn [fst snd]. by rewrite Hf. }
  assert (Hrun2 : ∀ k : unit → M unit (option StockData),
             (call tt (_setup_driver E) ≫= k) (tt, w1)
             = match r2 with Ok a => k a (tt, w2) | Raise e => (Raise e, (tt, w2)) end).
  { intros k. rewrite bind_eq, call_run_in; cbn [fst snd]. by rewrite Hs. }
  assert (Hrun3 : ∀ k : bool → M unit (option StockData),
             (call false (_navigate_to_stock E code) ≫= k) (tt, w2)
             = match r3 with Ok a => k a (tt, w3) | Raise e => (Raise e, (tt, w3)) end).
  { intros k. rewrite bind_eq, call_run_in; cbn [fst snd]. by rewrite Hn. }
  unfold collect_stock_data, try_except, try_except_when.
  destruct r1 as [[]|e1].
  2:{ unfold run_in at 1. rewrite Hrun. cbn beta. by rewrite Hclose. }
  destruct r2 as [[]|e2].
  2:{ unfold run_in at 1. rewrite Hrun, Hrun2. cbn beta. by rewrite Hclose. }
  destruct (total_run_in (_navigate_to_stock E code) false w2
              (total_navigate_to_stock E code)) as (b & w3' & Hn').
  rewrite Hn' in Hn. injection Hn as <- <-.
  destruct b.
  2:{ unfold run_in at 1. by rewrite Hrun, Hrun2, Hrun3. }
  unfold run_in at 1. rewrite Hrun, Hrun2, Hrun3. cbn [negb].
  destruct (total_run_in _get_basic_info ∅ w3' total_get_basic_info) as (bi & w4 & H4).
  destruct (total_run_in (_capture_company_analysis E code) ∅ w4
              (total_capture_company_analysis E code)) as (an & w5 & H5).
  destruct (total_run_in (_get_news_announcements E code) [] w5
              (total_get_news_announcements E code)) as (nw & w6 & H6).
  destruct (total_run_in (_get_investor_trends E code) [] w6
              (total_get_investor_trends E code)) as (fl & w7 & H7).
  destruct (total_run_in (_capture_advanced_charts E code) ∅ w7
              (total_capture_advanced_charts E code)) as (ch & w8 & H8).
  rewrite bind_eq, call_run_in; cbn [fst snd]; rewrite H4; cbn [fst snd].
  rewrite bind_eq, call_run_in; cbn [fst snd]; rewrite H5; cbn [fst snd].
  rewrite bind_eq, call_run_in; cbn [fst snd]; rewrite H6; cbn [fst snd].
  rewrite bind_eq, call_run_in; cbn [fst snd]; rewrite H7; cbn [fst snd].
  rewrite bind_eq, call_run_in; cbn [fst snd]; rewrite H8; cbn [fst snd].
  rewrite bind_eq. unfold now_isoformat, on_world. cbn [fst snd].
  eexists _, _. split; [reflexivity|].
  exists bi, w4, an, w5, nw, w6, fl, w7, ch, w8. by repeat split.
Qed.

End Orchestrator.

Section Paths.

Variable E : env.

Lemma collect_paths code w :
  ∃ r w', run (collect_stock_data E code) w = (Ok r, w') ∧
  ∃ w2 t, log w2 = log w ++ t ∧ session_log t ∧
    if folder_setup_fails E code w || driver_setup_fails E then
      r = None ∧ w' = (run (_close_driver E) w2).2 ∧
      ((driver w2 = true ∧ alive w2 = true) ∨
       (driver w2 = driver w ∧ alive w2 = alive w))
    else
      driver w2 = true ∧ alive w2 = true ∧
      current_stock_screenshot_dir w2 = Some (run_dir E code w) ∧
      ∃ w3, run_in false (_navigate_to_stock E code) w2
            = (Ok (negb (navigation_fails E code)), w3) ∧
        if navigation_fails E code then r = None ∧ w' = w3
        else ∃ d, r = Some d ∧ stages_from E code w3 d w'.
Proof.
  pose proof (run_setup_folder E code w) as Hf.
  set (w1 := set_dir (Some (run_dir E code w)) (tick w)) in *.
  destruct (run_setup_driver E w1) as (r2 & w2 & t & Hs & Hok & Hlog & Ht & Hdir & _ & Hsess).
  destruct (total_run_in (_navigate_to_stock E code) false w2
              (total_navigate_to_stock E code)) as (b & w3 & Hn).
  pose proof (collect_inv E code w _ _ _ _ _ _ Hf Hs Hn) as Hinv. cbv zeta in Hinv.
  unfold folder_setup_fails.
  destruct (mkdir E (run_dir E code w)) as [e1|] eqn:Hmk.
  - (* the run directory cannot be made *)
    rewrite bool_decide_eq_true_2 by eauto. cbn [orb].
    eexists _, _. split; [exact Hinv|].
    exists w1, []. rewrite app_nil_r.
    repeat split; [constructor | by right].
  - rewrite bool_decide_eq_false_2 by (by intros [? ?]). cbn [orb].
    destruct r2 as [[]|e2]; cbn [is_ok] in Hok.
    + (* the driver is up *)
      destruct (driver_setup_fails E); [done|].
      destruct Hsess as [[Hd Ha]|[? _]]; [|done].
      destruct (run_navigate E code w2 false Hd) as (w3' & Hn').
      rewrite Hn' in Hn. injection Hn as <- <-.
      destruct (navigation_fails E code); cbn [negb] in *.
      * eexists _, _. split; [exact Hinv|].
        exists w2, t. repeat split; try done. by exists w3'.
      * destruct Hinv as (d & w' & Hout & Hst).
        eexists _, _. split; [exact Hout|].
        exists w2, t. repeat split; try done. exists w3'. split; [done|]. by exists d.
    + (* the driver could not be set up *)
      destruct (driver_setup_fails E); [|done].
      eexists _, _. split; [exact Hinv|].
      exists w2, t. repeat split; try done.
      destruct Hsess as [?|(_ & ? & ?)]; [by left | by right].
Qed.

Lemma stages_quiet code w3 d w' : stages_from E code w3 d w' → quiet w3 w'.
Proof.
  intros (bi & w4 & an & w5 & nw & w6 & fl & w7 & ch & w8 & H4 & H5 & H6 & H7 & H8 & _ & ->).
  eapply quiet_trans; [eapply keeps_run_in, H4; apply keeps_get_basic_info|].
  eapply quiet_trans; [eapply keeps_run_in, H5; apply keeps_capture_company_analysis|].
  eapply quiet_trans; [eapply keeps_run_in, H6; apply keeps_get_news_announcements|].
  eapply quiet_trans; [eapply keeps_run_in, H7; apply keeps_get_investor_trends|].
  eapply quiet_trans; [eapply keeps_run_in, H8; apply keeps_capture_advanced_charts|].
  by apply quiet_same.
Qed.

End Paths.

(** * Claims about the orchestrator *)

Section OrchestratorClaims.

Variable E : env.

Lemma session_log_no_theme t : session_log t → Forall (λ e, theme_lookup e = false) t.
Proof. intros Ht. eapply Forall_impl; [exact Ht|]. by intros e [? _]. Qed.

Lemma quiet_no_theme w w' :
  quiet w w' → ∃ t, log w' = log w ++ t ∧ Forall (λ e, theme_lookup e = false) t.
Proof.
  intros (_ & _ & _ & t & Hl & Ht). exists t. split; [done|].
  eapply Forall_impl; [exact Ht|]. by intros e [? _].
Qed.

(** Tear-down adds at most the [quit] call to the log. *)
Lemma close_driver_log w :
  ∃ t, log (run (_close_driver E) w).2 = log w ++ t ∧
       Forall (λ e, theme_lookup e = false) t.
Proof.
  rewrite run_close_driver. cbn [snd].
  destruct (driver w); [|exists []; by rewrite app_nil_r].
  exists [EvQuit]. by destruct (quit E); repeat constructor.
Qed.

Lemma collect_log code w :
  ∃ t, log (run (collect_stock_data E code) w).2 = log w ++ t ∧
       Forall (λ e, theme_lookup e = false) t.
Proof.
  destruct (collect_paths E code w) as (r & w' & Hout & w2 & t & Hlog & Ht & Hcase).
  rewrite Hout. cbn [snd]. apply session_log_no_theme in Ht.
  destruct (_ || _).
  - destruct Hcase as (_ & -> & _).
    destruct (close_driver_log w2) as (t' & Hl' & Ht').
    exists (t ++ t'). split; [by rewrite Hl', Hlog, app_assoc | by apply Forall_app].
  - destruct Hcase as (_ & _ & _ & w3 & Hn & Hcase).
    apply keeps_run_in in Hn; [|apply keeps_navigate_to_stock].
    apply quiet_no_theme in Hn as (t3 & Hl3 & Ht3).
    destruct (navigation_fails E code).
    + destruct Hcase as [_ ->].
      exists (t ++ t3). split; [by rewrite Hl3, Hlog, app_assoc | by apply Forall_app].
    + destruct Hcase as (d & _ & Hst).
      apply stages_quiet, quiet_no_theme in Hst as (t4 & Hl4 & Ht4).
      exists (t ++ t3 ++ t4). split.
      * by rewrite Hl4, Hl3, Hlog, !app_assoc.
      * by rewrite !Forall_app.
Qed.

End OrchestratorClaims.

(** The theme extractor keeps its list free of repetitions. *)
Lemma theme_loop_nodup (links : list element) : ∀ (themes : list string) (w : world),
  NoDup themes →
  NoDup (for_each links (λ theme_link,
           t ← text_of theme_link;
           let theme_text := PyStr.strip t in
           themes ← get_local;
           if PyStr.truthy theme_text && negb (bool_decide (theme_text ∈ themes))
           then put_local (themes ++ [theme_text])
           else mret tt) (themes, w)).2.1.
Proof.
  induction links as [|link links IH]; intros themes w Hnd; [exact Hnd|].
  cbn [for_each]. rewrite bind_eq.
  unfold text_of at 1, of_result at 1. rewrite bind_eq.
  destruct (el_text link) as [t|e]; [|exact Hnd].
  cbv zeta. rewrite bind_eq. cbn [get_local fst snd].
  destruct (PyStr.truthy (PyStr.strip t)); cbn [andb]; [|by apply IH].
  destruct (bool_decide_reflect (PyStr.strip t ∈ themes)) as [Hin|Hin]; cbn [negb].
  - by apply IH.
  - apply IH. apply NoDup_app. repeat split; [done| |apply NoDup_singleton].
    intros x Hx ->%list_elem_of_singleton. done.
Qed.

Lemma related_themes_nodup (w : world) :
  match (run_in [] _get_related_themes w).1 with
  | Ok themes => NoDup themes
  | Raise _ => False
  end.
Proof.
  unfold run_in, _get_related_themes, try_except, try_except_when.
  rewrite bind_eq. cbn [put_local snd]. rewrite bind_eq.
  rewrite bind_eq.
  destruct (driver_find_element (CLASS_NAME, "group_theme") ([], w)) as [[sec|e] [l0 w0]] eqn:Hfind.
  2:{ cbn [get_local fst]. unfold driver_find_element, on_driver, on_world in Hfind.
      cbn [snd fst] in Hfind. destruct (driver w); injection Hfind as _ <- _; constructor. }
  assert (l0 = []) as ->.
  { unfold driver_find_element, on_driver, on_world in Hfind.
    cbn [snd fst] in Hfind. by destruct (driver w); injection Hfind as _ <- _. }
  rewrite bind_eq. unfold of_result at 1.
  destruct (el_find_elements sec (TAG_NAME, "a")) as [links|e]; [|constructor].
  pose proof (theme_loop_nodup links [] w0 (NoDup_nil_2)) as Hloop.
  destruct (for_each links _ ([], w0)) as [[[]|e] [l1 w1]]; exact Hloop.
Qed.

(** C8.  Whenever [collect_stock_data] returns a record, its [stock_code]
    field is the identifier it was called with, whatever the overview page
    shows as code. *)
Theorem collect_record_keeps_stock_code (E : env) (code : string) (w w' : world) (d : StockData) :
  run (collect_stock_data E code) w = (Ok (Some d), w') → stock_code d = code.
Proof.
  intros Hrun.
  destruct (collect_paths E code w) as (r & w'' & Hout & w2 & t & _ & _ & Hcase).
  rewrite Hrun in Hout. injection Hout as <- <-.
  destruct (_ || _); [by destruct Hcase as [? _]|].
  destruct Hcase as (_ & _ & _ & w3 & _ & Hcase).
  destruct (navigation_fails E code); [by destruct Hcase|].
  destruct Hcase as (d' & [= <-] & Hst).
  by destruct Hst as (? & ? & ? & ? & ? & ? & ? & ? & ? & ? & _ & _ & _ & _ & _ & -> & _).
Qed.

Lemma collect_record_keeps_stock_code_witness :
  ∃ d w', run (collect_stock_data Mock.site_ok "005930") (fresh Mock.site_ok) = (Ok (Some d), w')
          ∧ stock_code d = "005930".
Proof.
  destruct (run (collect_stock_data Mock.site_ok "005930") (fresh Mock.site_ok))
    as [[[d|]|e] w'] eqn:Hrun; [|by vm_compute in Hrun..].
  exists d, w'. split; [reflexivity|].
  exact (collect_record_keeps_stock_code Mock.site_ok "005930" (fresh Mock.site_ok) w' d Hrun).
Defined.

(** C10.  The record of a successful run has [related_themes = []], and no
    run ever looks up the theme section ([group_theme]): the extractor
    [_get_related_themes] is not called.  The extractor itself, run on any
    page, returns a list without repetitions. *)
Theorem collect_related_themes_empty (E : env) (code : string) (w : world) :
  let out := run (collect_stock_data E code) w in
  match out.1 with
  | Ok (Some d) => related_themes d = []
  | Ok None => True
  | Raise _ => False
  end ∧
  (∃ t, log out.2 = log w ++ t ∧ Forall (λ e, theme_lookup e = false) t) ∧
  match (run_in [] _get_related_themes w).1 with
  | Ok themes => NoDup themes
  | Raise _ => False
  end.
Proof.
  cbv zeta. split; [|split; [apply collect_log | apply related_themes_nodup]].
  destruct (collect_paths E code w) as (r & w' & Hout & w2 & t & _ & _ & Hcase).
  rewrite Hout. cbn [fst]. destruct r as [d|]; [|done].
  destruct (_ || _); [by destruct Hcase as [? _]|].
  destruct Hcase as (_ & _ & _ & w3 & _ & Hcase).
  destruct (navigation_fails E code); [by destruct Hcase|].
  destruct Hcase as (d' & [= <-] & Hst).
  by destruct Hst as (? & ? & ? & ? & ? & ? & ? & ? & ? & ? & _ & _ & _ & _ & _ & -> & _).
Qed.

Lemma quiet_session w w' :
  quiet w w' →
  driver w' = driver w ∧ alive w' = alive w ∧
  ∃ t, log w' = log w ++ t ∧ Forall (λ e, e ≠ EvQuit) t.
Proof.
  intros (Hd & Ha & _ & t & Hl & Ht). repeat split; try done.
  exists t. split; [done|]. eapply Forall_impl; [exact Ht|].
  by intros e [_ He] ->.
Qed.

(** C1 (amended).  Run on a fresh collector, [collect_stock_data] releases
    the browser itself only on its exception path: when creating the run
    directory or setting up the driver raises, [_close_driver] runs before
    [None] is returned, so the browser is no longer alive, unless [quit]
    itself raised, in which case [quit] was the last call made.  On the
    success path the session is left open on purpose, for the caller to
    release with [close_driver_if_needed], which calls [quit].  (What the
    run leaves behind when navigation fails is not part of this
    statement.) *)
Theorem collect_releases_session_only_on_error (E : env) (code : string) :
  let out := run (collect_stock_data E code) (fresh E) in
  if folder_setup_fails E code (fresh E) || driver_setup_fails E then
    out.1 = Ok None ∧
    (alive out.2 = false ∨ (is_Some (quit E) ∧ last (log out.2) = Some EvQuit))
  else
    match out.1 with
    | Ok (Some _) =>
        alive out.2 = true ∧ (EvQuit ∉ log out.2) ∧
        let closed := (run (close_driver_if_needed E) out.2).2 in
        last (log closed) = Some EvQuit ∧
        alive closed = bool_decide (is_Some (quit E))
    | Ok None => True
    | Raise _ => False
    end.
Proof.
  cbv zeta.
  destruct (collect_paths E code (fresh E)) as (r & w' & Hout & w2 & t & Hlog & Ht & Hcase).
  rewrite Hout. cbn [fst snd]. cbn [fresh log app] in Hlog.
  destruct (_ || _).
  - destruct Hcase as (-> & -> & Hsess). split; [done|].
    rewrite run_close_driver. cbn [snd].
    destruct Hsess as [[Hd Ha]|[Hd Ha]]; rewrite Hd.
    + destruct (quit E) as [e|] eqn:Hq; [right | by left].
      split; [by eexists|]. cbn [emit log]. apply last_snoc.
    + by left.
  - destruct Hcase as (Hd & Ha & _ & w3 & Hn & Hcase).
    apply keeps_run_in in Hn; [|apply keeps_navigate_to_stock].
    destruct (navigation_fails E code).
    { by destruct Hcase as [-> _]. }
    destruct Hcase as (d & -> & Hst).
    apply stages_quiet in Hst.
    destruct (quiet_session _ _ (quiet_trans _ _ _ Hn Hst)) as (Hd' & Ha' & t' & Hlog' & Ht').
    rewrite Hd in Hd'. rewrite Ha in Ha'.
    split; [done|]. split.
    + rewrite Hlog', Hlog. intros [Hin|Hin]%elem_of_app.
      * by apply (Forall_forall _ _) with (x := EvQuit) in Ht as [_ ?].
      * by apply (Forall_forall _ _) with (x := EvQuit) in Ht'.
    + unfold close_driver_if_needed. rewrite run_close_driver. cbn [snd]. rewrite Hd'.
      destruct (quit E) as [e|]; cbn [emit set_alive log alive].
      * split; [apply last_snoc|]. rewrite Ha'. symmetry. by apply bool_decide_eq_true_2.
      * split; [apply last_snoc|]. symmetry. apply bool_decide_eq_false_2. by intros [? ?].
Qed.

(** C1 as stated fails: a run that succeeds returns with the browser still
    alive, no [quit] having been called. *)
Lemma collect_success_leaves_session_open :
  let out := run (collect_stock_data Mock.site_ok "005930") (fresh Mock.site_ok) in
  (∃ d, out.1 = Ok (Some d)) ∧ alive out.2 = true ∧
  filter (λ e, session_event e = true) (log out.2) = [EvLaunch].
Proof. cbv zeta. split; [eexists; vm_compute; reflexivity | by vm_compute]. Qed.

(** The other exit path that returns without releasing: navigation fails,
    no record is returned, and the browser stays alive. *)
Lemma collect_navigation_failure_leaves_session_open :
  let out := run (collect_stock_data Mock.unreachable "005930") (fresh Mock.unreachable) in
  out.1 = Ok None ∧ alive out.2 = true ∧
  log out.2 = [EvLaunch; EvGet Mock.overview_url].
Proof. cbv zeta. by vm_compute. Qed.



(** And a page on which every page-ready wait runs into its timeout still
    counts as loaded: the run goes on and returns a record. *)
Lemma collect_proceeds_when_waits_time_out :
  let out := run (collect_stock_data Mock.site_slow "005930") (fresh Mock.site_slow) in
  waits_all_time_out Mock.slow_overview selectors_to_try = true ∧
  ∃ d, out.1 = Ok (Some d).
Proof. cbv zeta. split; [by vm_compute | eexists; vm_compute; reflexivity]. Qed.

(** * Symbolic execution of straight-line bodies *)

Lemma on_driver_eq {L A} ev (f : world → result A * world) (l : L) w :
  driver w = true →
  on_driver ev f (l, w) = ((f (emit ev w)).1, (l, (f (emit ev w)).2)).
Proof.
  intros Hd. unfold on_driver, on_world. cbn [fst snd]. rewrite Hd.
  by destruct (f (emit ev w)).
Qed.

Lemma on_world_eq {L A} (f : world → result A * world) (l : L) w :
  on_world f (l, w) = ((f w).1, (l, (f w).2)).
Proof. unfold on_world. cbn [fst snd]. by destruct (f w). Qed.

Ltac world_simpl :=
  cbn [fst snd driver alive top context files clock log current_stock_screenshot_dir
       emit tick set_files set_pages set_dir set_alive set_driver answer outcome] in *.

(** One step: expose the next statement and run it when it is an outside
    call on a world whose driver is set ([Hd]). *)
Ltac exec_step Hd :=
  first
    [ rewrite bind_eq
    | rewrite on_driver_eq by (world_simpl; exact Hd)
    | rewrite on_world_eq
    | progress unfold driver_get, driver_title, driver_find_element, driver_find_elements,
        wait_until_presence, driver_execute_script, driver_switch_to_frame,
        driver_switch_to_default_content, driver_get_window_size, driver_set_window_size,
        driver_save_screenshot, element_screenshot, driver_cdp_layout_metrics,
        driver_cdp_capture, now_strftime, now_isoformat, open_write, write_file,
        text_of, getitem, nth_item, dir_div, getattr_dir
    | progress unfold try_except, try_except_when
    | progress unfold put_local, update_local, get_local, of_result, raise, mret, M_ret
    | progress world_simpl ].

Ltac exec Hd := repeat exec_step Hd.

(** * Basic information *)

Section BasicInfo.

(** The description loop reads the paragraphs in order and keeps what
    [description_texts] keeps. *)
Lemma fold_each_description {L} (els : list element)
    (body : list string → element → M L (list string)) :
  (∀ acc x s, body acc x s =
     (match el_text x with
      | Ok t => Ok (if PyStr.truthy (PyStr.strip t) && negb (String.prefix "출처" (PyStr.strip t))
                    then acc ++ [PyStr.strip t] else acc)
      | Raise e => Raise e
      end, s)) →
  ∀ (acc : list string) (s : L * world),
    fold_each els acc body s =
    (match description_texts els with
     | Ok texts => Ok (acc ++ texts)
     | Raise e => Raise e
     end, s).
Proof.
  intros Hbody. induction els as [|x els IH]; intros acc s.
  - cbn [fold_each description_texts]. by rewrite app_nil_r.
  - cbn [fold_each description_texts]. rewrite bind_eq, Hbody.
    destruct (el_text x) as [t|e]; cbn [mbind result_bind]; [|done].
    rewrite IH. cbv zeta.
    destruct (description_texts els) as [texts|e]; cbn [mbind result_bind]; [|done].
    destruct (_ && _); [by rewrite <- app_assoc | done].
Qed.

(** Whatever happens inside the description block, it ends normally with
    [company_description] set: to the joined paragraphs when every step
    went through, to the placeholder otherwise. *)
Lemma description_block_sets (l : gmap string string) (w : world) :
  driver w = true →
  ∃ w', description_block (l, w)
        = (Ok tt, (<["company_description" := company_description_of (context w)]> l, w')).
Proof.
  intros Hd. unfold description_block, company_description_of. exec Hd.
  destruct (pg_find_element (context w) _) as [summary|e1]; cbn [mbind result_bind]; exec Hd;
    [|by eexists].
  destruct (pg_execute_script (context w) _) as [v|e2]; cbn [mbind result_bind]; exec Hd;
    [|by eexists].
  destruct (pg_find_elements (context w) _) as [els|e3]; cbn [mbind result_bind]; exec Hd;
    [|by eexists].
  match goal with
  | |- context [fold_each els [] ?body ?s0] =>
      rewrite (fold_each_description els body) by
        (intros acc x s; cbv beta; rewrite ?bind_eq;
         destruct (el_text x) as [t|e]; [|reflexivity];
         cbv zeta; by destruct (_ && _))
  end.
  destruct (description_texts els) as [texts|e4]; cbn [mbind result_bind app]; exec Hd.
  2:{ by eexists. }
  destruct (pg_find_element (context w) _) as [close_btn|e5]; cbn [mbind result_bind]; exec Hd.
  2:{ rewrite insert_insert_eq. by eexists. }
  destruct (pg_execute_script (context w) _) as [v'|e6]; cbn [mbind result_bind]; exec Hd.
  - by eexists.
  - rewrite insert_insert_eq. by eexists.
Qed.

Lemma name_fallback_sets (l : gmap string string) (w : world) :
  driver w = true →
  ∃ w', name_fallback (l, w) = (Ok tt, (<["stock_name" := title_fallback (context w)]> l, w')).
Proof.
  intros Hd. unfold name_fallback, title_fallback. exec Hd.
  destruct (pg_title (context w)) as [title|e] eqn:Ht; exec Hd; [|by eexists].
  destruct (PyStr.contains_char ":" title); exec Hd; [|by eexists].
  rewrite Ht. exec Hd. by eexists.
Qed.

End BasicInfo.

(** C3 (amended).  [_get_basic_info] reads name, code and current price in
    this order inside one [try] block.  When one of them cannot be read,
    nothing after it is extracted (not even fields the page does show) and
    [stock_name] becomes the page-title fallback; what was stored before
    stays.  The change pair is optional: with fewer than two change
    elements the mapping merely lacks [price_change] and [change_rate],
    with two or more it holds both; but when the change elements cannot be
    listed, or the text of one of the first two cannot be read, extraction
    stops there as well.  Only the company description is independent of
    the rest: when name, code, price and change pair went through, the
    mapping holds them unchanged together with [company_description],
    which is the joined paragraphs when every step of the description
    block succeeded and the placeholder otherwise. *)
Theorem basic_info_stops_at_first_unreadable_field (w : world) (init : gmap string string) :
  driver w = true →
  let p := context w in
  let info := (run_in init _get_basic_info w).1 in
  match field_text p name_selector, field_text p code_selector, field_text p price_selector with
  | Raise _, _, _ => info = Ok {[ "stock_name" := title_fallback p ]}
  | Ok n, Raise _, _ => info = Ok {[ "stock_name" := title_fallback p ]}
  | Ok n, Ok c, Raise _ =>
      info = Ok (<["stock_name" := title_fallback p]> {[ "stock_code" := c ]})
  | Ok n, Ok c, Ok pr =>
      let read := <["current_price" := PyStr.remove_char "," pr]>
                    (<["stock_code" := c]> {[ "stock_name" := n ]}) in
      match change_pair p with
      | Raise _ => info = Ok (<["stock_name" := title_fallback p]> read)
      | Ok None =>
          info = Ok (<["company_description" := company_description_of p]> read)
      | Ok (Some (price_change, change_rate)) =>
          info = Ok (<["company_description" := company_description_of p]>
                       (<["change_rate" := change_rate]>
                          (<["price_change" := price_change]> read)))
      end
  end.
Proof.
  intros Hd p info. subst p info.
  unfold run_in, _get_basic_info. fold description_block name_fallback.
  change (CSS_SELECTOR, ".wrap_company h2 a") with name_selector.
  change (CSS_SELECTOR, ".wrap_company .description .code") with code_selector.
  change (CSS_SELECTOR, ".today .no_today em") with price_selector.
  change (CSS_SELECTOR, ".today .no_exday em") with change_selector.
  unfold field_text, change_pair.
  assert (Hfb : ∀ (l : gmap string string) w0,
            driver w0 = true → context w0 = context w →
            ∃ w', name_fallback (l, w0)
                  = (Ok tt, (<["stock_name" := title_fallback (context w)]> l, w'))).
  { intros l w0 Hd0 <-. by apply name_fallback_sets. }
  assert (Hdesc : ∀ (l : gmap string string) w0,
            driver w0 = true → context w0 = context w →
            ∃ w', description_block (l, w0)
                  = (Ok tt, (<["company_description" := company_description_of (context w)]> l,
                             w'))).
  { intros l w0 Hd0 <-. by apply description_block_sets. }
  exec Hd.
  (* the name *)
  destruct (pg_find_element (context w) name_selector) as [en|e1];
    cbn [mbind result_bind]; exec Hd.
  2:{ match goal with
      | |- context [name_fallback (?l, ?w0)] => destruct (Hfb l w0 Hd eq_refl) as [w' ->]
      end; exec Hd. by rewrite insert_empty. }
  destruct (el_text en) as [tn|e1]; cbn [mbind result_bind]; exec Hd.
  2:{ match goal with
      | |- context [name_fallback (?l, ?w0)] => destruct (Hfb l w0 Hd eq_refl) as [w' ->]
      end; exec Hd. by rewrite insert_empty. }
  (* the code *)
  destruct (pg_find_element (context w) code_selector) as [ec|e2];
    cbn [mbind result_bind]; exec Hd.
  2:{ match goal with
      | |- context [name_fallback (?l, ?w0)] => destruct (Hfb l w0 Hd eq_refl) as [w' ->]
      end; exec Hd.
      by rewrite insert_insert_eq, insert_empty. }
  destruct (el_text ec) as [tc|e2]; cbn [mbind result_bind]; exec Hd.
  2:{ match goal with
      | |- context [name_fallback (?l, ?w0)] => destruct (Hfb l w0 Hd eq_refl) as [w' ->]
      end; exec Hd.
      by rewrite insert_insert_eq, insert_empty. }
  (* the price *)
  destruct (pg_find_element (context w) price_selector) as [ep|e3];
    cbn [mbind result_bind]; exec Hd.
  2:{ match goal with
      | |- context [name_fallback (?l, ?w0)] => destruct (Hfb l w0 Hd eq_refl) as [w' ->]
      end; exec Hd.
      rewrite (insert_insert_ne _ "stock_code" "stock_name") by done.
      by rewrite insert_insert_eq, insert_empty. }
  destruct (el_text ep) as [tp|e3]; cbn [mbind result_bind]; exec Hd.
  2:{ match goal with
      | |- context [name_fallback (?l, ?w0)] => destruct (Hfb l w0 Hd eq_refl) as [w' ->]
      end; exec Hd.
      rewrite (insert_insert_ne _ "stock_code" "stock_name") by done.
      by rewrite insert_insert_eq, insert_empty. }
  cbv zeta. rewrite !insert_empty.
  (* the change pair *)
  destruct (pg_find_elements (context w) change_selector) as [l|e4];
    cbn [mbind result_bind]; exec Hd.
  2:{ match goal with
      | |- context [name_fallback (?l, ?w0)] => destruct (Hfb l w0 Hd eq_refl) as [w' ->]
      end; exec Hd. reflexivity. }
  destruct (Nat.leb_spec 2 (length l)) as [Hlen|Hlen]; exec Hd.
  - (* two change elements or more *)
    destruct l as [|e0 [|e1 rest]]; [cbn [length] in Hlen; lia..|].
    unfold lookup_index. cbn [lookup list_lookup]. cbn [mbind result_bind]. exec Hd.
    destruct (el_text e0) as [t0|e5]; cbn [mbind result_bind]; exec Hd.
    2:{ match goal with
        | |- context [name_fallback (?l, ?w0)] => destruct (Hfb l w0 Hd eq_refl) as [w' ->]
        end; exec Hd. reflexivity. }
    destruct (el_text e1) as [t1|e6]; cbn [mbind result_bind]; exec Hd.
    2:{ match goal with
        | |- context [name_fallback (?l, ?w0)] => destruct (Hfb l w0 Hd eq_refl) as [w' ->]
        end; exec Hd. reflexivity. }
    match goal with
    | |- context [description_block (?l, ?w0)] => destruct (Hdesc l w0 Hd eq_refl) as [w' ->]
    end; exec Hd.
    unfold lookup_key.
    repeat first [rewrite lookup_insert_eq | rewrite lookup_insert_ne by done].
    exec Hd.
    repeat first [rewrite lookup_insert_eq | rewrite lookup_insert_ne by done].
    exec Hd. reflexivity.
  - (* fewer than two change elements *)
    match goal with
    | |- context [description_block (?l, ?w0)] => destruct (Hdesc l w0 Hd eq_refl) as [w' ->]
    end; exec Hd.
    unfold lookup_key.
    repeat first [rewrite lookup_insert_eq | rewrite lookup_insert_ne by done].
    exec Hd.
    repeat first [rewrite lookup_insert_eq | rewrite lookup_insert_ne by done].
    exec Hd. reflexivity.
Qed.

(** * Capture through the DevTools protocol *)

Ltac log_eq := world_simpl; rewrite <- ?app_assoc; reflexivity.

Ltac cdp_done :=
  eexists _, _; split; [reflexivity|]; do 5 (split; [done|]);
  split; [log_eq|]; split; [by repeat constructor|]; world_simpl; try done.

Section Capture.

Variable E : env.

(** The protocol-level capture answers [True] exactly when [cdp_png]
    yields the image, which is then the file at [path]; it never raises,
    logs DevTools commands only, and leaves the page where it was. *)
Lemma cdp_capture_spec (path : string) (w : world) :
  driver w = true →
  ∃ w' t,
    run_in tt (_take_full_page_screenshot_cdp E path) w
      = (Ok (is_ok (cdp_png E (top w) path)), w') ∧
    driver w' = true ∧ top w' = top w ∧ context w' = context w ∧
    clock w' = clock w ∧
    current_stock_screenshot_dir w' = current_stock_screenshot_dir w ∧
    log w' = log w ++ EvCdp "Page.getLayoutMetrics" :: t ∧
    Forall (λ e, is_cdp e = true) t ∧
    match cdp_png E (top w) path with
    | Ok png => files w' !! path = Some (Bytes png)
    | Raise _ => ∀ q, q ≠ path → files w' !! q = files w !! q
    end.
Proof.
  intros Hd. unfold run_in, _take_full_page_screenshot_cdp, cdp_png. exec Hd.
  destruct (pg_layout_metrics (top w)) as [rect|e]; cbn [mbind result_bind]; exec Hd.
  2:{ cdp_done. }
  destruct (lookup_key rect "contentSize") as [sz|e]; cbn [mbind result_bind]; exec Hd.
  2:{ cdp_done. }
  destruct (lookup_key sz "width") as [width|e]; cbn [mbind result_bind]; exec Hd.
  2:{ cdp_done. }
  destruct (lookup_key sz "height") as [height|e]; cbn [mbind result_bind]; exec Hd.
  2:{ cdp_done. }
  destruct (pg_capture_screenshot (top w) width height) as [shot|e];
    cbn [mbind result_bind]; exec Hd.
  2:{ cdp_done. }
  destruct (writable E path); cbn [mbind result_bind]; exec Hd.
  2:{ cdp_done. }
  destruct (lookup_key shot "data") as [data|e]; cbn [mbind result_bind]; exec Hd.
  2:{ cdp_done. intros q Hq. by rewrite lookup_insert_ne. }
  destruct (b64decode E data) as [png|e]; cbn [mbind result_bind]; exec Hd.
  - cdp_done. by rewrite lookup_insert_eq.
  - cdp_done. intros q Hq. by rewrite lookup_insert_ne.
Qed.

End Capture.

(** * News and flows *)

Lemma omap_cons_eq {A B} (f : A → option B) (a : A) (l : list A) :
  omap f (a :: l) = match f a with Some y => y :: omap f l | None => omap f l end.
Proof. reflexivity. Qed.

Lemma news_loop (items : list (nat * element)) : ∀ (acc : list news_item) (w : world),
  for_each items (λ '(idx, item),
    try_except
      (entry ← of_result (news_entry idx item);
       update_local (λ news_data, news_data ++ [entry]))
      (λ _, mret tt)) (acc, w)
  = (Ok tt, (acc ++ kept_news items, w)).
Proof.
  induction items as [|[idx item] items IH]; intros acc w.
  - cbn [for_each]. unfold mret, M_ret, kept_news. change (omap _ []) with (@nil news_item).
    by rewrite app_nil_r.
  - cbn [for_each]. rewrite bind_eq. unfold try_except, try_except_when.
    rewrite bind_eq. unfold of_result at 1. unfold kept_news. rewrite omap_cons_eq.
    destruct (news_entry idx item) as [entry|e].
    + unfold update_local. cbn [fst snd]. rewrite IH. by rewrite <- app_assoc.
    + unfold mret at 1, M_ret at 1. apply IH.
Qed.

Section News.

Variable E : env.

(** What the news stage returns once its page is up, and what it did to
    files and log on the way. *)
Lemma news_run (code dir : string) (p : page) (w : world) init :
  driver w = true →
  current_stock_screenshot_dir w = Some dir →
  site E (news_url code) = Ok p →
  is_ok (pg_execute_script p scroll_to_top) = true →
  let path := news_path E code dir w in
  let cdp := cdp_png E p path in
  ∃ w' t1 t2,
    run_in init (_get_news_announcements E code) w
      = (Ok (if is_ok cdp || is_ok (pg_png p) then
               match pg_find_elements p news_selector with
               | Ok items => kept_news (enumerate (take 20 items))
               | Raise _ => []
               end
             else []), w') ∧
    log w' = log w ++ [EvGet (news_url code); EvScript scroll_to_top]
                   ++ EvCdp "Page.getLayoutMetrics" :: t1
                   ++ (if is_ok cdp then [] else [EvSaveScreenshot path]) ++ t2 ∧
    Forall (λ e, is_cdp e = true) t1 ∧
    match cdp, pg_png p with
    | Ok png, _ => files w' !! path = Some (Bytes png)
    | Raise _, Ok png => writable E path = true → files w' !! path = Some (Bytes png)
    | Raise _, Raise _ => ∀ q, q ≠ path → files w' !! q = files w !! q
    end.
Proof.
  intros Hd Hdir Hsite Hscript path cdp. subst cdp path.
  unfold run_in, _get_news_announcements, news_path.
  change (CSS_SELECTOR, ".tb_cont, .newsList li") with news_selector.
  exec Hd. rewrite Hsite. exec Hd.
  destruct (pg_execute_script p scroll_to_top) as [v|]; [|done]. exec Hd.
  rewrite decide_False by done. rewrite decide_True by done. exec Hd.
  rewrite Hdir. exec Hd. rewrite call_run_in. cbn [fst snd].
  set (path := path_div dir _).
  set (w0 := tick _).
  destruct (cdp_capture_spec E path w0 Hd)
    as (w1 & t1 & Hrun & Hd1 & Htop & Hctx & _ & _ & Hlog1 & Ht1 & Hfiles).
  rewrite Hrun. cbn [fst snd]. subst w0. world_simpl.
  destruct (cdp_png E p path) as [png|e] eqn:Hcdp; cbn [is_ok negb orb].
  - (* the protocol-level capture worked *)
    exec Hd1. rewrite Hctx.
    destruct (pg_find_elements p news_selector) as [items|e]; exec Hd1.
    + rewrite news_loop. exec Hd1.
      eexists _, t1, [_]. split; [reflexivity|]. world_simpl. rewrite Hlog1.
      split; [log_eq|]. split; [done|]. exact Hfiles.
    + eexists _, t1, [_]. split; [reflexivity|]. world_simpl. rewrite Hlog1.
      split; [log_eq|]. split; [done|]. exact Hfiles.
  - (* it failed: the viewport capture takes over *)
    exec Hd1. rewrite Htop. unfold save_png.
    destruct (pg_png p) as [png|e'].
    + destruct (writable E path) eqn:Hwr; exec Hd1; rewrite Hctx.
      * destruct (pg_find_elements p news_selector) as [items|e'']; exec Hd1;
          rewrite ?news_loop; exec Hd1;
          (eexists _, t1, [_]; split; [reflexivity|]; world_simpl; rewrite Hlog1;
           split; [log_eq|]; split; [done|]; intros _; by rewrite lookup_insert_eq).
      * destruct (pg_find_elements p news_selector) as [items|e'']; exec Hd1;
          rewrite ?news_loop; exec Hd1;
          (eexists _, t1, [_]; split; [reflexivity|]; world_simpl; rewrite Hlog1;
           split; [log_eq|]; split; [done|]; done).
    + exec Hd1. eexists _, t1, []. split; [reflexivity|]. world_simpl. rewrite Hlog1.
      split; [log_eq|]. split; [done|]. exact Hfiles.
Qed.

End News.

Lemma on_driver_unset {L A} ev (f : world → result A * world) (l : L) w :
  driver w = false → on_driver ev f (l, w) = (Raise AttributeError, (l, w)).
Proof. intros Hd. unfold on_driver, on_world. cbn [fst snd]. by rewrite Hd. Qed.

Section NewsResult.

Variable E : env.

(** Whatever the world, the news stage returns a list: empty, or the
    entries kept from the first twenty list elements of the page. *)
Lemma news_result (code : string) (w : world) init :
  ∃ nw, (run_in init (_get_news_announcements E code) w).1 = Ok nw ∧
    (nw = [] ∨
     ∃ p items, site E (news_url code) = Ok p ∧
                pg_find_elements p news_selector = Ok items ∧
                nw = kept_news (enumerate (take 20 items))).
Proof.
  destruct (driver w) eqn:Hd.
  2:{ exists []. split; [|by left].
      unfold run_in, _get_news_announcements, driver_get.
      rewrite !bind_eq. unfold put_local at 1. cbn [fst snd].
      unfold try_except, try_except_when. rewrite !bind_eq.
      by rewrite on_driver_unset. }
  destruct (site E (news_url code)) as [p|e] eqn:Hsite.
  2:{ exists []. split; [|by left].
      unfold run_in, _get_news_announcements. exec Hd. rewrite Hsite. by exec Hd. }
  destruct (pg_execute_script p scroll_to_top) as [v|e] eqn:Hscript.
  2:{ exists []. split; [|by left].
      unfold run_in, _get_news_announcements. exec Hd. rewrite Hsite. exec Hd.
      rewrite Hscript. by exec Hd. }
  destruct (current_stock_screenshot_dir w) as [dir|] eqn:Hdir.
  2:{ exists []. split; [|by left].
      unfold run_in, _get_news_announcements. exec Hd. rewrite Hsite. exec Hd.
      rewrite Hscript. exec Hd.
      rewrite decide_False by done. rewrite decide_True by done. exec Hd.
      rewrite Hdir. by exec Hd. }
  destruct (news_run E code dir p w init Hd Hdir Hsite) as (w' & t1 & t2 & Hrun & _).
  { by rewrite Hscript. }
  rewrite Hrun. cbn [fst]. eexists. split; [reflexivity|].
  destruct (_ || _); [|by left].
  destruct (pg_find_elements p news_selector) as [items|e] eqn:Hitems; [|by left].
  right. by exists p, items.
Qed.

End NewsResult.

Lemma flows_loop (rows : list (nat * element)) : ∀ (acc : list investor_row) (w : world),
  ∃ r, for_each rows flow_turn (acc, w) = (r, (acc ++ kept_rows rows, w)).
Proof.
  induction rows as [|[idx row] rows IH]; intros acc w.
  - exists (Ok tt). cbn [for_each kept_rows]. unfold mret, M_ret. by rewrite app_nil_r.
  - cbn [for_each kept_rows]. rewrite bind_eq. unfold flow_turn at 1.
    rewrite bind_eq. unfold of_result at 1.
    destruct (el_find_elements row (TAG_NAME, "td")) as [cells|e].
    2:{ eexists. by rewrite app_nil_r. }
    destruct (6 <=? length cells).
    + rewrite bind_eq. unfold of_result at 1.
      destruct (investor_entry idx cells) as [entry|e].
      * unfold update_local at 1. cbn [fst snd].
        destruct (IH (acc ++ [entry]) w) as [r Hr]. exists r.
        by rewrite Hr, <- app_assoc.
      * eexists. by rewrite app_nil_r.
    + unfold mret at 1, M_ret at 1. apply IH.
Qed.

Lemma flow_table_block_run (acc : list investor_row) (w : world) :
  driver w = true →
  ∃ w', flow_table_block (acc, w)
        = (Ok tt, (acc ++ match flow_table_rows (context w) with
                          | Ok rows => kept_rows (enumerate rows)
                          | Raise _ => []
                          end, w')).
Proof.
  intros Hd. unfold flow_table_block, flow_table_rows.
  change (CSS_SELECTOR, ".type2, .tb_cont") with table_selector.
  change (for_each ?l _) with (for_each l flow_turn).
  unfold try_except, try_except_when. rewrite bind_eq.
  unfold driver_find_element. rewrite on_driver_eq by done. world_simpl.
  destruct (pg_find_element (context w) table_selector) as [table|e];
    cbn [mbind result_bind].
  2:{ eexists. unfold mret, M_ret. by rewrite app_nil_r. }
  rewrite bind_eq. unfold of_result at 1.
  destruct (el_find_elements table (TAG_NAME, "tr")) as [all_rows|e];
    cbn [mbind result_bind].
  2:{ eexists. unfold mret, M_ret. by rewrite app_nil_r. }
  cbv zeta.
  destruct (flows_loop (enumerate (take 10 (drop 1 all_rows))) acc
              (emit (EvFindElement table_selector) w)) as [r ->].
  destruct r as [[]|e]; unfold mret, M_ret; by eexists.
Qed.

Section Flows.

Variable E : env.

Lemma flows_run (code dir : string) (p : page) (w : world) init :
  driver w = true →
  current_stock_screenshot_dir w = Some dir →
  site E (investor_url code) = Ok p →
  is_ok (pg_execute_script p scroll_to_top) = true →
  (run_in init (_get_investor_trends E code) w).1
  = Ok (if is_ok (cdp_png E p (flows_path E code dir w)) || is_ok (pg_png p) then
          match flow_table_rows p with
          | Ok rows => kept_rows (enumerate rows)
          | Raise _ => []
          end
        else []).
Proof.
  intros Hd Hdir Hsite Hscript.
  unfold run_in, _get_investor_trends, flows_path. fold flow_table_block.
  exec Hd. rewrite Hsite. exec Hd.
  destruct (pg_execute_script p scroll_to_top) as [v|]; [|done]. exec Hd.
  rewrite decide_False by done. rewrite decide_True by done. exec Hd.
  rewrite Hdir. exec Hd. rewrite call_run_in. cbn [fst snd].
  set (path := path_div dir _).
  set (w0 := tick _).
  destruct (cdp_capture_spec E path w0 Hd)
    as (w1 & t1 & Hrun & Hd1 & Htop & Hctx & _).
  rewrite Hrun. cbn [fst snd]. subst w0. world_simpl.
  destruct (cdp_png E p path) as [png|e] eqn:Hcdp; cbn [is_ok negb orb].
  - exec Hd1.
    destruct (flow_table_block_run [] w1 Hd1) as [w' ->]. rewrite Hctx. by exec Hd1.
  - exec Hd1. rewrite Htop. unfold save_png.
    destruct (pg_png p) as [png|e']; cbn [is_ok]; [|by exec Hd1].
    destruct (writable E path); exec Hd1.
    + match goal with
      | |- context [flow_table_block (?l, ?w2)] =>
          destruct (flow_table_block_run l w2 Hd1) as [w' ->]
      end. world_simpl. rewrite Hctx. by exec Hd1.
    + match goal with
      | |- context [flow_table_block (?l, ?w2)] =>
          destruct (flow_table_block_run l w2 Hd1) as [w' ->]
      end. world_simpl. rewrite Hctx. by exec Hd1.
Qed.

End Flows.

(** * The kept entries, as lists *)

Lemma news_entry_index idx item entry : news_entry idx item = Ok entry → news_index entry = idx + 1.
Proof.
  unfold news_entry. intros H.
  destruct (el_find_element item (CSS_SELECTOR, "a")) as [a|]; cbn [mbind result_bind] in H; [|done].
  destruct (title_of a); cbn [mbind result_bind] in H; [|done].
  destruct (el_find_element item (CSS_SELECTOR, ".date, .wdate")) as [d|];
    cbn [mbind result_bind] in H; [|done].
  destruct (el_text d); cbn [mbind result_bind] in H; [|done].
  destruct (el_find_element item (CSS_SELECTOR, ".press, .info_policy")) as [s|];
    cbn [mbind result_bind] in H; [|done].
  destruct (el_text s); cbn [mbind result_bind] in H; [|done].
  by injection H as <-.
Qed.

Lemma investor_entry_fields idx cells entry :
  investor_entry idx cells = Ok entry →
  cell_text cells 0 = Ok (row_date entry) ∧
  cell_text cells 1 = Ok (foreign_buy entry) ∧
  cell_text cells 2 = Ok (foreign_sell entry) ∧
  cell_text cells 3 = Ok (institution_buy entry) ∧
  cell_text cells 4 = Ok (institution_sell entry) ∧
  cell_text cells 5 = Ok (individual_volume entry) ∧
  row_index entry = idx + 1.
Proof.
  unfold investor_entry. intros H.
  destruct (cell_text cells 0); cbn [mbind result_bind] in H; [|done].
  destruct (cell_text cells 1); cbn [mbind result_bind] in H; [|done].
  destruct (cell_text cells 2); cbn [mbind result_bind] in H; [|done].
  destruct (cell_text cells 3); cbn [mbind result_bind] in H; [|done].
  destruct (cell_text cells 4); cbn [mbind result_bind] in H; [|done].
  destruct (cell_text cells 5); cbn [mbind result_bind] in H; [|done].
  by injection H as <-.
Qed.

Lemma investor_entry_any_index i j cells :
  is_ok (investor_entry i cells) = is_ok (investor_entry j cells).
Proof.
  unfold investor_entry.
  destruct (cell_text cells 0); cbn [mbind result_bind]; [|done].
  destruct (cell_text cells 1); cbn [mbind result_bind]; [|done].
  destruct (cell_text cells 2); cbn [mbind result_bind]; [|done].
  destruct (cell_text cells 3); cbn [mbind result_bind]; [|done].
  destruct (cell_text cells 4); cbn [mbind result_bind]; [|done].
  by destruct (cell_text cells 5).
Qed.

Lemma imap_shift {X} (n : nat) (l : list X) :
  imap ((λ i x, (n + i, x)) ∘ S) l = imap (λ i x, (S n + i, x)) l.
Proof. apply imap_ext. intros i y _. cbn. f_equal. lia. Qed.

(** Where a kept news entry comes from, and the order of the kept ones. *)
Lemma kept_news_from (n : nat) (l : list element) :
  let kept := kept_news (imap (λ i x, (n + i, x)) l) in
  Forall (λ a, ∃ i item, l !! i = Some item ∧ news_entry (n + i) item = Ok a) kept ∧
  StronglySorted (λ a b, news_index a < news_index b) kept.
Proof.
  revert n. induction l as [|x l IH]; intros n; cbv zeta.
  { split; constructor. }
  cbn [imap]. rewrite imap_shift, Nat.add_0_r. unfold kept_news. rewrite omap_cons_eq.
  destruct (IH (S n)) as [Hsrc Hsort]. fold (kept_news (imap (λ i x0, (S n + i, x0)) l)).
  assert (Hsrc' : Forall (λ a, ∃ i item, (x :: l) !! i = Some item ∧
                                 news_entry (n + i) item = Ok a)
                    (kept_news (imap (λ i x0, (S n + i, x0)) l))).
  { eapply Forall_impl; [exact Hsrc|]. intros a (i & item & Hi & Ha).
    exists (S i), item. split; [done|]. by replace (n + S i) with (S n + i) by lia. }
  destruct (news_entry n x) as [entry|e] eqn:Hx; [|by split].
  split.
  - constructor; [|done]. exists 0, x. by rewrite Nat.add_0_r.
  - constructor; [done|].
    eapply Forall_impl; [exact Hsrc|]. intros a (i & item & Hi & Ha).
    apply news_entry_index in Hx, Ha. lia.
Qed.

Lemma kept_news_length (items : list (nat * element)) : length (kept_news items) ≤ length items.
Proof.
  induction items as [|[idx item] items IH]; [done|].
  unfold kept_news. rewrite omap_cons_eq. fold (kept_news items).
  destruct (news_entry idx item); cbn [length]; lia.
Qed.

(** The same for the flow rows; a kept row has six cells or more. *)
Lemma kept_rows_from (n : nat) (l : list element) :
  let kept := kept_rows (imap (λ i x, (n + i, x)) l) in
  Forall (λ r, ∃ i row cells, l !! i = Some row ∧
                 el_find_elements row (TAG_NAME, "td") = Ok cells ∧
                 6 ≤ length cells ∧ investor_entry (n + i) cells = Ok r) kept ∧
  StronglySorted (λ a b, row_index a < row_index b) kept.
Proof.
  revert n. induction l as [|x l IH]; intros n; cbv zeta.
  { split; constructor. }
  cbn [imap kept_rows]. rewrite imap_shift, Nat.add_0_r.
  destruct (IH (S n)) as [Hsrc Hsort].
  assert (Hsrc' : Forall (λ r, ∃ i row cells, (x :: l) !! i = Some row ∧
                                 el_find_elements row (TAG_NAME, "td") = Ok cells ∧
                                 6 ≤ length cells ∧ investor_entry (n + i) cells = Ok r)
                    (kept_rows (imap (λ i x0, (S n + i, x0)) l))).
  { eapply Forall_impl; [exact Hsrc|]. intros r (i & row & cells & Hi & Hc & Hlen & Hr).
    exists (S i), row, cells. repeat split; try done.
    by replace (n + S i) with (S n + i) by lia. }
  destruct (el_find_elements x (TAG_NAME, "td")) as [cells|e] eqn:Hcells; [|split; constructor].
  destruct (Nat.leb_spec 6 (length cells)) as [Hlen|Hlen]; [|by split].
  destruct (investor_entry n cells) as [entry|e] eqn:Hx; [|split; constructor].
  split.
  - constructor; [|done]. exists 0, x, cells. by rewrite Nat.add_0_r.
  - constructor; [done|].
    eapply Forall_impl; [exact Hsrc|]. intros r (i & row & cells' & Hi & _ & _ & Hr).
    apply investor_entry_fields in Hx as (_ & _ & _ & _ & _ & _ & Hx).
    apply investor_entry_fields in Hr as (_ & _ & _ & _ & _ & _ & Hr). lia.
Qed.

Lemma kept_rows_length (rows : list (nat * element)) : length (kept_rows rows) ≤ length rows.
Proof.
  induction rows as [|[idx row] rows IH]; [done|]. cbn [kept_rows length].
  destruct (el_find_elements row (TAG_NAME, "td")) as [cells|]; [|cbn [length]; lia].
  destruct (6 <=? length cells); [|lia].
  destruct (investor_entry idx cells); cbn [length]; lia.
Qed.

(** A well-formed row is kept when the rows before it could be read. *)
Lemma kept_rows_keeps (n : nat) (l : list element) (i : nat) (row : element)
    (cells : list element) (r : investor_row) :
  l !! i = Some row →
  el_find_elements row (TAG_NAME, "td") = Ok cells →
  6 ≤ length cells →
  investor_entry (n + i) cells = Ok r →
  Forall readable_row (take i l) →
  r ∈ kept_rows (imap (λ i x, (n + i, x)) l).
Proof.
  revert n i. induction l as [|x l IH]; intros n i Hi Hcells Hlen Hr Hread; [done|].
  cbn [imap kept_rows]. rewrite imap_shift, Nat.add_0_r.
  destruct i as [|i].
  - injection Hi as ->. rewrite Hcells. rewrite Nat.add_0_r in Hr. rewrite Hr.
    destruct (Nat.leb_spec 6 (length cells)); [|lia]. by left.
  - cbn [take] in Hread. apply Forall_cons in Hread as [(cx & Hcx & Hx) Hread].
    assert (Hin : r ∈ kept_rows (imap (λ i x, (S n + i, x)) l)).
    { apply (IH (S n) i); try done. by replace (S n + i) with (n + S i) by lia. }
    rewrite Hcx. destruct (Nat.leb_spec 6 (length cx)) as [H6|H6]; [|done].
    destruct Hx as [?|Hx]; [lia|].
    rewrite (investor_entry_any_index 0 n) in Hx.
    destruct (investor_entry n cx); [by right | done].
Qed.

Section FlowsResult.

Variable E : env.

(** Whatever the world, the flow stage returns a list: empty, or the
    entries kept from rows 1 to 10 of the table. *)
Lemma flows_result (code : string) (w : world) init :
  ∃ fl, (run_in init (_get_investor_trends E code) w).1 = Ok fl ∧
    (fl = [] ∨
     ∃ p rows, site E (investor_url code) = Ok p ∧
               flow_table_rows p = Ok rows ∧
               fl = kept_rows (enumerate rows)).
Proof.
  destruct (driver w) eqn:Hd.
  2:{ exists []. split; [|by left].
      unfold run_in, _get_investor_trends, driver_get.
      rewrite !bind_eq. unfold put_local at 1. cbn [fst snd].
      unfold try_except, try_except_when. rewrite !bind_eq.
      by rewrite on_driver_unset. }
  destruct (site E (investor_url code)) as [p|e] eqn:Hsite.
  2:{ exists []. split; [|by left].
      unfold run_in, _get_investor_trends. fold flow_table_block.
      exec Hd. rewrite Hsite. by exec Hd. }
  destruct (pg_execute_script p scroll_to_top) as [v|e] eqn:Hscript.
  2:{ exists []. split; [|by left].
      unfold run_in, _get_investor_trends. fold flow_table_block.
      exec Hd. rewrite Hsite. exec Hd. rewrite Hscript. by exec Hd. }
  destruct (current_stock_screenshot_dir w) as [dir|] eqn:Hdir.
  2:{ exists []. split; [|by left].
      unfold run_in, _get_investor_trends. fold flow_table_block.
      exec Hd. rewrite Hsite. exec Hd. rewrite Hscript. exec Hd.
      rewrite decide_False by done. rewrite decide_True by done. exec Hd.
      rewrite Hdir. by exec Hd. }
  rewrite (flows_run E code dir p w init Hd Hdir Hsite) by (by rewrite Hscript).
  eexists. split; [reflexivity|].
  destruct (_ || _); [|by left].
  destruct (flow_table_rows p) as [rows|e] eqn:Hrows; [|by left].
  right. by exists p, rows.
Qed.

End FlowsResult.

(** C4.  The news stage returns at most 20 entries and the flow stage at
    most 10, whatever the pages hold.  Each list is in page order: the
    [index] fields increase strictly along it, and the entry with index
    [k] was read from element [k - 1] of the news list, respectively from
    table row [k] (row 0 being the header). *)
Theorem news_and_flows_bounded_in_page_order (E : env) (code : string) (w : world)
    (init_news : list news_item) (init_flows : list investor_row) :
  match (run_in init_news (_get_news_announcements E code) w).1,
        (run_in init_flows (_get_investor_trends E code) w).1 with
  | Ok nw, Ok fl =>
      length nw ≤ 20 ∧ length fl ≤ 10 ∧
      StronglySorted (λ a b, news_index a < news_index b) nw ∧
      StronglySorted (λ a b, row_index a < row_index b) fl ∧
      Forall (λ a, ∃ p items item,
                site E (news_url code) = Ok p ∧
                pg_find_elements p news_selector = Ok items ∧
                1 ≤ news_index a ≤ 20 ∧
                items !! (news_index a - 1) = Some item ∧
                news_entry (news_index a - 1) item = Ok a) nw ∧
      Forall (λ r, ∃ p table all_rows row cells,
                site E (investor_url code) = Ok p ∧
                pg_find_element p table_selector = Ok table ∧
                el_find_elements table (TAG_NAME, "tr") = Ok all_rows ∧
                1 ≤ row_index r ≤ 10 ∧
                all_rows !! row_index r = Some row ∧
                el_find_elements row (TAG_NAME, "td") = Ok cells ∧
                investor_entry (row_index r - 1) cells = Ok r) fl
  | _, _ => False
  end.
Proof.
  destruct (news_result E code w init_news) as (nw & -> & Hnw).
  destruct (flows_result E code w init_flows) as (fl & -> & Hfl).
  assert (Hnews : length nw ≤ 20 ∧
            StronglySorted (λ a b, news_index a < news_index b) nw ∧
            Forall (λ a, ∃ p items item,
                site E (news_url code) = Ok p ∧
                pg_find_elements p news_selector = Ok items ∧
                1 ≤ news_index a ≤ 20 ∧
                items !! (news_index a - 1) = Some item ∧
                news_entry (news_index a - 1) item = Ok a) nw).
  { destruct Hnw as [->|(p & items & Hsite & Hitems & ->)].
    { repeat split; [cbn; lia | constructor | constructor]. }
    destruct (kept_news_from 0 (take 20 items)) as [Hsrc Hsort].
    split; [|split; [exact Hsort|]].
    - etrans; [apply kept_news_length|]. unfold enumerate.
      rewrite length_imap, length_take. lia.
    - eapply Forall_impl; [exact Hsrc|]. intros a (i & item & Hi & Ha). cbn [Nat.add] in Ha.
      apply lookup_take_Some in Hi as [Hi Hlt].
      pose proof (news_entry_index _ _ _ Ha) as Hidx.
      exists p, items, item.
      replace (news_index a - 1) with i by lia. repeat split; try done; lia. }
  assert (Hflows : length fl ≤ 10 ∧
            StronglySorted (λ a b, row_index a < row_index b) fl ∧
            Forall (λ r, ∃ p table all_rows row cells,
                site E (investor_url code) = Ok p ∧
                pg_find_element p table_selector = Ok table ∧
                el_find_elements table (TAG_NAME, "tr") = Ok all_rows ∧
                1 ≤ row_index r ≤ 10 ∧
                all_rows !! row_index r = Some row ∧
                el_find_elements row (TAG_NAME, "td") = Ok cells ∧
                investor_entry (row_index r - 1) cells = Ok r) fl).
  { destruct Hfl as [->|(p & rows & Hsite & Hrows & ->)].
    { repeat split; [cbn; lia | constructor | constructor]. }
    unfold flow_table_rows in Hrows.
    destruct (pg_find_element p table_selector) as [table|] eqn:Htable;
      cbn [mbind result_bind] in Hrows; [|done].
    destruct (el_find_elements table (TAG_NAME, "tr")) as [all_rows|] eqn:Hall;
      cbn [mbind result_bind] in Hrows; [|done].
    injection Hrows as <-.
    destruct (kept_rows_from 0 (take 10 (drop 1 all_rows))) as [Hsrc Hsort].
    split; [|split; [exact Hsort|]].
    - etrans; [apply kept_rows_length|]. unfold enumerate.
      rewrite length_imap, length_take. lia.
    - eapply Forall_impl; [exact Hsrc|].
      intros r (i & row & cells & Hi & Hcells & _ & Hr). cbn [Nat.add] in Hr.
      apply lookup_take_Some in Hi as [Hi Hlt]. rewrite lookup_drop in Hi.
      pose proof (investor_entry_fields _ _ _ Hr) as (_ & _ & _ & _ & _ & _ & Hidx).
      exists p, table, all_rows, row, cells.
      replace (row_index r - 1) with i by lia.
      replace (row_index r) with (1 + i) by lia. repeat split; try done; lia. }
  destruct Hnews as (? & ? & ?), Hflows as (? & ? & ?). by repeat split.
Qed.

Lemma basic_info_stops_at_first_unreadable_field_witness :
  driver (browsing Mock.nameless_overview "run") = true ∧
  (run_in ∅ _get_basic_info (browsing Mock.nameless_overview "run")).1
  = Ok {[ "stock_name" := "Samsung Electronics" ]}.
Proof.
  split; [reflexivity|].
  exact (basic_info_stops_at_first_unreadable_field
           (browsing Mock.nameless_overview "run") ∅ eq_refl).
Defined.

(** C3 as stated fails: on an overview page that lacks only the stock-name
    element, the code and price elements are there to be read, yet the
    mapping has neither (nor the change fields). *)
Lemma basic_info_missing_name_drops_present_fields :
  let p := Mock.nameless_overview in
  let info := (run_in ∅ _get_basic_info (browsing p "run")).1 in
  field_text p code_selector = Ok "005930" ∧
  field_text p price_selector = Ok "71,200" ∧
  is_ok (pg_find_elements p change_selector) = true ∧
  ∃ d, info = Ok d ∧
       d !! "stock_code" = None ∧ d !! "current_price" = None ∧
       d !! "price_change" = None ∧ d !! "change_rate" = None.
Proof.
  cbv zeta. repeat split; [reflexivity..|].
  eexists. split; [vm_compute; reflexivity|]. by vm_compute.
Qed.

(** C5 (amended).  On the news page the protocol-level capture is tried
    first.  Whenever it throws or answers failure, [save_screenshot] is
    called on the same path; if the browser can capture the viewport and
    the file can be written, the image is then at that path, and if the
    viewport capture raises too the stage returns the empty list.  In no
    case does an exception leave the stage. *)
Theorem cdp_failure_falls_back_to_viewport_capture (E : env) (code dir : string)
    (p : page) (w : world) (init : list news_item) :
  driver w = true →
  current_stock_screenshot_dir w = Some dir →
  site E (news_url code) = Ok p →
  is_ok (pg_execute_script p scroll_to_top) = true →
  let path := news_path E code dir w in
  is_ok (cdp_png E p path) = false →
  let out := run_in init (_get_news_announcements E code) w in
  is_ok out.1 = true ∧
  (∃ t1 t2, log out.2 = log w ++ [EvGet (news_url code); EvScript scroll_to_top]
                              ++ EvCdp "Page.getLayoutMetrics" :: t1
                              ++ EvSaveScreenshot path :: t2 ∧
            Forall (λ e, is_cdp e = true) t1) ∧
  match pg_png p with
  | Ok png => if writable E path then files out.2 !! path = Some (Bytes png) else True
  | Raise _ => out.1 = Ok []
  end.
Proof.
  intros Hd Hdir Hsite Hscript path Hcdp out. subst out.
  destruct (news_run E code dir p w init Hd Hdir Hsite Hscript)
    as (w' & t1 & t2 & Hrun & Hlog & Ht1 & Hfiles).
  fold path in Hrun, Hlog, Hfiles. rewrite Hrun. cbn [fst snd].
  destruct (cdp_png E p path) as [png|e]; [done|]. cbn [is_ok orb] in *.
  split; [done|]. split; [by exists t1, t2|].
  destruct (pg_png p) as [png|e']; [|done].
  destruct (writable E path); [by apply Hfiles | done].
Qed.

Lemma cdp_failure_falls_back_to_viewport_capture_witness :
  let E := Mock.site_ok in
  let w := browsing Mock.bare "run" in
  files (run_in [] (_get_news_announcements E "005930") w).2
    !! news_path E "005930" "run" w = Some (Bytes "png:viewport").
Proof.
  cbv zeta.
  pose proof (cdp_failure_falls_back_to_viewport_capture Mock.site_ok "005930" "run"
                Mock.bare (browsing Mock.bare "run") []
                eq_refl eq_refl eq_refl eq_refl eq_refl) as (_ & _ & H).
  exact H.
Defined.

(** C5 as stated fails: when the viewport capture raises as well, no file
    is produced at the target path and the stage returns nothing. *)
Lemma cdp_failure_without_image :
  let E := Mock.news_blind in
  let w := browsing Mock.bare "run" in
  let path := news_path E "005930" "run" w in
  let out := run_in [] (_get_news_announcements E "005930") w in
  is_ok (cdp_png E Mock.blind_page path) = false ∧
  files out.2 !! path = None ∧
  out.1 = Ok [].
Proof. cbv zeta. by vm_compute. Qed.

(** C7.  On the flow page, every record the stage returns comes from a
    table row with six cells or more, and its date and five figures are
    the stripped texts of the first six; a row with fewer than six cells
    leaves no record and does not stop the loop: a well-formed row is kept
    whenever the rows before it could be read. *)
Theorem flow_rows_need_six_cells (E : env) (code dir : string) (p : page)
    (rows : list element) (w : world) (init : list investor_row) :
  driver w = true →
  current_stock_screenshot_dir w = Some dir →
  site E (investor_url code) = Ok p →
  is_ok (pg_execute_script p scroll_to_top) = true →
  is_ok (cdp_png E p (flows_path E code dir w)) || is_ok (pg_png p) = true →
  flow_table_rows p = Ok rows →
  ∃ fl, (run_in init (_get_investor_trends E code) w).1 = Ok fl ∧
    Forall (λ r, ∃ row cells,
              rows !! (row_index r - 1) = Some row ∧
              el_find_elements row (TAG_NAME, "td") = Ok cells ∧
              6 ≤ length cells ∧
              cell_text cells 0 = Ok (row_date r) ∧
              cell_text cells 1 = Ok (foreign_buy r) ∧
              cell_text cells 2 = Ok (foreign_sell r) ∧
              cell_text cells 3 = Ok (institution_buy r) ∧
              cell_text cells 4 = Ok (institution_sell r) ∧
              cell_text cells 5 = Ok (individual_volume r)) fl ∧
    (∀ i row cells,
        rows !! i = Some row →
        el_find_elements row (TAG_NAME, "td") = Ok cells →
        length cells < 6 →
        Forall (λ r, row_index r ≠ i + 1) fl) ∧
    (∀ i row cells r,
        rows !! i = Some row →
        el_find_elements row (TAG_NAME, "td") = Ok cells →
        6 ≤ length cells →
        investor_entry i cells = Ok r →
        Forall readable_row (take i rows) →
        r ∈ fl).
Proof.
  intros Hd Hdir Hsite Hscript Hcap Hrows.
  rewrite (flows_run E code dir p w init Hd Hdir Hsite Hscript), Hcap, Hrows.
  eexists. split; [reflexivity|].
  destruct (kept_rows_from 0 rows) as [Hsrc _]. change (imap _ rows) with (enumerate rows) in Hsrc.
  assert (Hfrom : Forall (λ r, ∃ i row cells,
                     rows !! i = Some row ∧ row_index r = i + 1 ∧
                     el_find_elements row (TAG_NAME, "td") = Ok cells ∧
                     6 ≤ length cells ∧ investor_entry i cells = Ok r)
                   (kept_rows (enumerate rows))).
  { eapply Forall_impl; [exact Hsrc|]. intros r (i & row & cells & Hi & Hc & Hlen & Hr).
    cbn [Nat.add] in Hr.
    pose proof (investor_entry_fields _ _ _ Hr) as (_ & _ & _ & _ & _ & _ & Hidx).
    by exists i, row, cells. }
  split; [|split].
  - eapply Forall_impl; [exact Hfrom|].
    intros r (i & row & cells & Hi & Hidx & Hc & Hlen & Hr).
    pose proof (investor_entry_fields _ _ _ Hr) as (? & ? & ? & ? & ? & ? & _).
    exists row, cells. replace (row_index r - 1) with i by lia. by repeat split.
  - intros i row cells Hi Hc Hshort.
    eapply Forall_impl; [exact Hfrom|].
    intros r (i' & row' & cells' & Hi' & Hidx & Hc' & Hlen & _) Heq.
    assert (i' = i) as -> by lia.
    rewrite Hi in Hi'. injection Hi' as <-. rewrite Hc in Hc'. injection Hc' as <-. lia.
  - intros i row cells r Hi Hc Hlen Hr Hread.
    by apply (kept_rows_keeps 0 rows i row cells r).
Qed.

Lemma flow_rows_need_six_cells_witness :
  ∃ fl, (run_in [] (_get_investor_trends Mock.flows_site "005930")
                (browsing Mock.bare "run")).1 = Ok fl ∧
        Forall (λ r, row_index r ≠ 1) fl ∧
        Mock.full_entry ∈ fl.
Proof.
  destruct (flow_rows_need_six_cells Mock.flows_site "005930" "run" Mock.flows_page
              [Mock.short_row; Mock.full_row] (browsing Mock.bare "run") []
              eq_refl eq_refl eq_refl eq_refl eq_refl eq_refl)
    as (fl & Hrun & _ & Hshort & Hkeep).
  exists fl. split; [exact Hrun|]. split.
  - apply (Hshort 0 Mock.short_row (Mock.leaf <$> ["2025.01.02"; " "])); [reflexivity..|].
    cbn. lia.
  - apply (Hkeep 1 Mock.full_row
             (Mock.leaf <$> [" 2025.01.03 "; "1,200"; "900"; "3,000"; "2,500"; "41,000"]));
      [reflexivity | reflexivity | cbn; lia | reflexivity |].
    constructor; [|constructor].
    exists (Mock.leaf <$> ["2025.01.02"; " "]). split; [reflexivity|]. left. cbn. lia.
Defined.

(** * The company-analysis stage and what follows it *)

Section Analysis.

Variable E : env.


End Analysis.

(** Each later stage begins by loading its page. *)
Section FirstCall.

Variable E : env.
Context {L : Type}.





End FirstCall.

Section StageStarts.

Variable E : env.





End StageStarts.




(** * Saving the record *)

(** The rest of [save_data_to_json] works: given a path that can be
    written, the record goes into that file and the path is returned. *)
Lemma save_with_filepath (E : env) (d : StockData) (path : string) (w : world) :
  writable E path = true →
  run (save_data_to_json E d (Some path)) w
  = (Ok path, set_files (<[path := JsonDoc d]> (files w)) w).
Proof.
  intros Hw. unfold run, run_in, save_data_to_json, try_except, try_except_when.
rewrite bind_eq. unfold mret at 1, M_ret at 1.
rewrite bind_eq. unfold open_write. rewrite on_world_eq, Hw. cbn [fst snd].
rewrite bind_eq. unfold write_file. rewrite on_world_eq. cbn [fst snd set_files files].
unfold mret, M_ret. by rewrite insert_insert_eq.
Qed.

(** C9 (code defect).  Called without a file path, [save_data_to_json]
    builds the file name and then reads [self.screenshot_dir], an attribute
    the class never defines: the call raises [AttributeError] before any
    directory or file is touched, for every record and every world. *)
Theorem save_without_filepath_raises (E : env) (d : StockData) (w : world) :
  run (save_data_to_json E d None) w = (Raise AttributeError, tick w).
Proof.
  unfold run, run_in, save_data_to_json, now_strftime, getattr_dir.
  rewrite !bind_eq, on_world_eq. cbn [fst snd].
  rewrite bind_eq. rewrite decide_False by done. rewrite decide_False by done.
  reflexivity.
Qed.

(** * Invariants, rule by rule *)

Section Preserves.

Context {L : Type} (I : L * world → Prop).

Lemma preserves_ret {A} (a : A) : preserves I (mret a : M L A).
Proof. intros s Hs. exact Hs. Qed.

Lemma preserves_raise {A} e : preserves I (raise e : M L A).
Proof. intros s Hs. exact Hs. Qed.

Lemma preserves_of_result {A} (r : result A) : preserves I (of_result r : M L A).
Proof. intros s Hs. exact Hs. Qed.

Lemma preserves_get_local : preserves I (get_local : M L L).
Proof. intros s Hs. exact Hs. Qed.

Lemma preserves_bind {A B} (m : M L A) (k : A → M L B) :
  preserves I m → (∀ a, preserves I (k a)) → preserves I (m ≫= k).
Proof.
  intros Hm Hk s Hs. rewrite bind_eq. specialize (Hm s Hs).
  destruct (m s) as [[a|e] s']; [apply Hk, Hm | exact Hm].
Qed.

Lemma preserves_try_when {A} sel (m : M L A) h :
  preserves I m → (∀ e, preserves I (h e)) → preserves I (try_except_when sel m h).
Proof.
  intros Hm Hh s Hs. unfold try_except_when. specialize (Hm s Hs).
  destruct (m s) as [[a|e] s']; [exact Hm|].
  destruct (sel e); [apply Hh, Hm | exact Hm].
Qed.

Lemma preserves_try {A} (m : M L A) h :
  preserves I m → (∀ e, preserves I (h e)) → preserves I (try_except m h).
Proof. apply preserves_try_when. Qed.

Lemma preserves_for_each {X} (l : list X) (body : X → M L unit) :
  (∀ x, preserves I (body x)) → preserves I (for_each l body).
Proof.
  intros Hb. induction l as [|x l IH]; cbn [for_each].
  - apply preserves_ret.
  - apply preserves_bind; [apply Hb | intros _; exact IH].
Qed.

Lemma preserves_for_break {X} (l : list X) (body : X → M L bool) :
  (∀ x, preserves I (body x)) → preserves I (for_break l body).
Proof.
  intros Hb. induction l as [|x l IH]; cbn [for_break].
  - apply preserves_ret.
  - apply preserves_bind; [apply Hb | intros [|]; [apply preserves_ret | exact IH]].
Qed.

Lemma preserves_fold_each {X B} (l : list X) (acc : B) (body : B → X → M L B) :
  (∀ b x, preserves I (body b x)) → preserves I (fold_each l acc body).
Proof.
  intros Hb. revert acc. induction l as [|x l IH]; intros acc; cbn [fold_each].
  - apply preserves_ret.
  - apply preserves_bind; [apply Hb | intros b; apply IH].
Qed.

Lemma preserves_put_local l :
  (∀ s, I s → I (l, s.2)) → preserves I (put_local l).
Proof. intros H s Hs. by apply H. Qed.

Lemma preserves_update_local f :
  (∀ s, I s → I (f s.1, s.2)) → preserves I (update_local f).
Proof. intros H s Hs. by apply H. Qed.

Lemma preserves_on_world {A} (f : world → result A * world) :
  (∀ l w, I (l, w) → I (l, (f w).2)) → preserves I (on_world f : M L A).
Proof.
  intros H [l w] Hs. unfold on_world. cbn [fst snd].
  specialize (H l w Hs). by destruct (f w).
Qed.

Lemma preserves_on_driver {A} ev (f : world → result A * world) :
  (∀ l w, I (l, w) → I (l, (f (emit ev w)).2)) → preserves I (on_driver ev f : M L A).
Proof.
  intros H. apply preserves_on_world. intros l w Hs.
  destruct (driver w); [by apply H | exact Hs].
Qed.

Lemma preserves_call {L' A} (init : L') (m : M L' A) :
  (∀ l, preserves (λ s', I (l, s'.2)) m) → preserves I (call init m : M L A).
Proof.
  intros H [l w] Hs. rewrite call_run_in. cbn [fst snd].
  specialize (H l (init, w) Hs). unfold run_in.
  by destruct (m (init, w)) as [r [l' w']].
Qed.

(** A step that always raises ends the computation where it stands. *)
Lemma preserves_bind_raises {A B} (m : M L A) (k : A → M L B) :
  (∀ s, ∃ e, m s = (Raise e, s)) → preserves I (m ≫= k).
Proof.
  intros Hm s Hs. rewrite bind_eq. destruct (Hm s) as [e ->]. exact Hs.
Qed.

End Preserves.

Ltac pres_unfold :=
  progress unfold driver_get, driver_title, driver_find_element, driver_find_elements,
    wait_until_presence, driver_execute_script, driver_switch_to_frame,
    driver_switch_to_default_content, driver_get_window_size, driver_set_window_size,
    driver_save_screenshot, element_screenshot, driver_cdp_layout_metrics,
    driver_cdp_capture, now_strftime, now_isoformat, open_write, write_file, text_of,
    getitem, nth_item, uc_Chrome, driver_implicitly_wait, driver_quit, os_makedirs,
    path_mkdir, self_driver, element_click, dir_div, getattr_dir,
    _take_full_page_screenshot_cdp, capture_chart_area.

(** The cases of an outside call, one goal each. *)
Ltac leaf_cases :=
  intros; unfold answer, outcome, save_png; cbn beta;
  repeat match goal with
         | |- context [match ?x with _ => _ end] => destruct x
         end;
  world_simpl.

(** Walks a method body; [leaf] closes what an outside call or an
    assignment to a local leaves to show. *)
Ltac pres_step leaf :=
  lazymatch goal with
  | |- preserves _ (mret _) => apply preserves_ret
  | |- preserves _ (raise _) => apply preserves_raise
  | |- preserves _ (of_result _) => apply preserves_of_result
  | |- preserves _ get_local => apply preserves_get_local
  | |- preserves _ (put_local _) => apply preserves_put_local; leaf
  | |- preserves _ (update_local _) => apply preserves_update_local; leaf
  | |- preserves _ (mbind _ _) => apply preserves_bind; [|intros]
  | |- preserves _ (try_except _ _) => apply preserves_try; [|intros]
  | |- preserves _ (try_except_when _ _ _) => apply preserves_try_when; [|intros]
  | |- preserves _ (call _ _) => apply preserves_call; intros
  | |- preserves _ (for_each _ _) => apply preserves_for_each; intros
  | |- preserves _ (for_break _ _) => apply preserves_for_break; intros
  | |- preserves _ (fold_each _ _ _) => apply preserves_fold_each; intros
  | |- preserves _ (on_driver _ _) => apply preserves_on_driver; leaf
  | |- preserves _ (on_world _) => apply preserves_on_world; leaf
  | |- preserves _ (if ?b then _ else _) => destruct b eqn:?
  | |- preserves _ (match ?x with _ => _ end) => destruct x
  | |- preserves _ (let _ := _ in _) => cbv zeta
  | |- preserves _ _ => pres_unfold
  end.

(** * An invariant of the world through a whole run *)

Lemma preserves_run_in {L A} (J : world → Prop) (m : M L A) init w :
  preserves (λ s, J s.2) m → J w → J (run_in init m w).2.
Proof.
  intros Hm Hw. specialize (Hm (init, w) Hw). unfold run_in.
  by destruct (m (init, w)) as [r [l w']].
Qed.

Section RunInvariant.

Variable E : env.

(** What holds once the run directory is named, and is kept by set-up,
    tear-down, navigation, the five stages and the clock, holds when the
    run ends, whichever way it ends. *)
Lemma collect_invariant (J : world → Prop) (code : string) (w : world) :
  J (set_dir (Some (run_dir E code w)) (tick w)) →
  (∀ w0, J w0 → J (tick w0)) →
  preserves (λ s, J s.2) (_setup_driver E) →
  preserves (λ s, J s.2) (_close_driver E) →
  preserves (λ s, J s.2) (_navigate_to_stock E code) →
  preserves (λ s, J s.2) _get_basic_info →
  preserves (λ s, J s.2) (_capture_company_analysis E code) →
  preserves (λ s, J s.2) (_get_news_announcements E code) →
  preserves (λ s, J s.2) (_get_investor_trends E code) →
  preserves (λ s, J s.2) (_capture_advanced_charts E code) →
  J (run (collect_stock_data E code) w).2.
Proof.
  intros H1 Htick Hsetup Hclose Hnav Hbi Han Hnw Hfl Hch.
  pose proof (run_setup_folder E code w) as Hf.
  set (w1 := set_dir (Some (run_dir E code w)) (tick w)) in *.
  destruct (run (_setup_driver E) w1) as [r2 w2] eqn:Hs.
  destruct (run_in false (_navigate_to_stock E code) w2) as [r3 w3] eqn:Hn.
  pose proof (collect_inv E code w _ _ _ _ _ _ Hf Hs Hn) as Hinv. cbv zeta in Hinv.
  assert (H2 : J w2).
  { pose proof (preserves_run_in J (_setup_driver E) tt w1 Hsetup H1) as H.
    unfold run in Hs. by rewrite Hs in H. }
  assert (H3 : J w3).
  { pose proof (preserves_run_in J (_navigate_to_stock E code) false w2 Hnav H2) as H.
    by rewrite Hn in H. }
  destruct (mkdir E (run_dir E code w)) as [e1|].
  { rewrite Hinv. cbn [snd]. exact (preserves_run_in J (_close_driver E) tt w1 Hclose H1). }
  destruct r2 as [[]|e2].
  2:{ rewrite Hinv. cbn [snd]. exact (preserves_run_in J (_close_driver E) tt w2 Hclose H2). }
  destruct r3 as [[|]|e3]; [|by rewrite Hinv..].
  destruct Hinv as (d & w' & -> & Hst). cbn [snd].
  destruct Hst as (bi & w4 & an & w5 & nw & w6 & fl & w7 & ch & w8
                   & H4 & H5 & H6 & H7 & H8 & _ & ->).
  apply Htick.
  pose proof (preserves_run_in J _ ∅ w3 Hbi H3) as K4. rewrite H4 in K4.
  pose proof (preserves_run_in J _ ∅ w4 Han K4) as K5. rewrite H5 in K5.
  pose proof (preserves_run_in J _ [] w5 Hnw K5) as K6. rewrite H6 in K6.
  pose proof (preserves_run_in J _ [] w6 Hfl K6) as K7. rewrite H7 in K7.
  pose proof (preserves_run_in J _ ∅ w7 Hch K7) as K8. rewrite H8 in K8.
  exact K8.
Qed.

(** A run that returns a record went through set-up and navigation, and
    then through the five stages, which start with the driver set and the
    run directory named. *)
Lemma collect_success (code : string) (w w' : world) (d : StockData) :
  run (collect_stock_data E code) w = (Ok (Some d), w') →
  ∃ w2 w3,
    run (_setup_driver E) (set_dir (Some (run_dir E code w)) (tick w)) = (Ok tt, w2) ∧
    driver w2 = true ∧
    run_in false (_navigate_to_stock E code) w2 = (Ok true, w3) ∧
    driver w3 = true ∧
    current_stock_screenshot_dir w3 = Some (run_dir E code w) ∧
    stages_from E code w3 d w'.
Proof.
  intros Hrun.
  pose proof (run_setup_folder E code w) as Hf.
  set (w1 := set_dir (Some (run_dir E code w)) (tick w)) in *.
  destruct (run_setup_driver E w1) as (r2 & w2 & t & Hs & Hok & _ & _ & Hdir & _ & Hsess).
  destruct (run_in false (_navigate_to_stock E code) w2) as [r3 w3] eqn:Hn.
  pose proof (collect_inv E code w _ _ _ _ _ _ Hf Hs Hn) as Hinv. cbv zeta in Hinv.
  rewrite Hrun in Hinv.
  destruct (mkdir E (run_dir E code w)) as [e1|]; [done|].
  destruct r2 as [[]|e2]; [|done].
  destruct r3 as [[|]|e3]; [|done..].
  destruct Hinv as (d' & w'' & [= <- <-] & Hst).
  assert (Hd2 : driver w2 = true).
  { destruct Hsess as [[Hd _]|[Hno _]]; [done | by cbn in Hno]. }
  pose proof (keeps_run_in _ _ _ _ _ (keeps_navigate_to_stock E code) Hn) as (Hd3 & _ & Hdir3 & _).
  exists w2, w3. repeat split; try done.
  - by rewrite Hd3.
  - by rewrite Hdir3, Hdir.
Qed.

End RunInvariant.

(** * Captures: every target is a file of the run directory *)

Lemma contains_char_app (c : ascii) (a b : string) :
  PyStr.contains_char c (a +:+ b) = PyStr.contains_char c a || PyStr.contains_char c b.
Proof.
  induction a as [|x a IH]; simpl; [done|].
  by rewrite IH, orb_assoc.
Qed.

Lemma no_slash_app (a b : string) : no_slash (a +:+ b) = no_slash a && no_slash b.
Proof. unfold no_slash. by rewrite contains_char_app, negb_orb. Qed.

(** A name with an underscore is none of the names that are no file. *)
Lemma file_name_underscore (name : string) :
  no_slash name = true → PyStr.contains_char "_" name = true → file_name name.
Proof.
  intros Hs Hu. split; [exact Hs|]. intros Hin.
  repeat (apply elem_of_cons in Hin as [->|Hin]; [by cbn in Hu|]).
  by apply elem_of_nil in Hin.
Qed.

Lemma path_div_file (d name : string) :
  no_slash name = true → path_div d name = d +:+ "/" +:+ name.
Proof.
  intros Hs. unfold path_div. destruct name as [|c name]; [done|].
  cbn [String.prefix]. destruct (ascii_dec "/" c) as [<-|_]; [|done].
  by cbn in Hs.
Qed.

Section Captures.

Variable E : env.
Variable code : string.
Hypothesis Hplain : plain_names E code.
Variable d : string.
Variable F : gmap string content.
Variable log0 : list event.

Lemma artifact_file_name (label : string) (n : nat) :
  no_slash label = true → PyStr.contains_char "_" label = true →
  file_name (artifact_name E code label (strftime E "%Y%m%d_%H%M%S" n)).
Proof.
  intros Hs Hu. destruct Hplain as (Hcode & Hfmt & Hts).
  unfold artifact_name. apply file_name_underscore.
  - rewrite !no_slash_app, Hcode, Hs, Hts, Hfmt. reflexivity.
  - rewrite !contains_char_app, Hu. by rewrite orb_true_r.
Qed.

(** The time stamp of a capture is what the clock says then. *)
Lemma captures_now_bind {L B} (k : string → M L B) :
  (∀ n, preserves (λ s, captures_in d F log0 s.2) (k (strftime E "%Y%m%d_%H%M%S" n))) →
  preserves (λ s, captures_in d F log0 s.2) (now_strftime E "%Y%m%d_%H%M%S" ≫= k).
Proof.
  intros Hk [l w] Hs. rewrite bind_eq. unfold now_strftime. rewrite on_world_eq.
  cbn [fst snd] in *. apply Hk. exact Hs.
Qed.

(** A file name put under the run directory gives a file of it. *)
Lemma captures_dir_div_bind {L B} (f : string) (k : string → M L B) :
  file_name f →
  (∀ p, file_of d p → preserves (λ s, captures_in d F log0 s.2) (k p)) →
  preserves (λ s, captures_in d F log0 s.2) (dir_div E "current_stock_screenshot_dir" f ≫= k).
Proof.
  intros Hf Hk [l w] Hs. rewrite bind_eq. unfold dir_div, getattr_dir.
  rewrite decide_False by done. rewrite decide_True by done.
  rewrite bind_eq, on_world_eq. cbn [fst snd] in *.
  destruct Hs as (Hdir & Hout & Hlog). rewrite Hdir.
  apply (Hk (path_div d f)); [|by repeat split].
  exists f. split; [exact Hf|]. apply path_div_file, Hf.
Qed.

End Captures.

Ltac captures_outside :=
  let q := fresh "q" in
  intros q ?;
  rewrite ?lookup_insert_ne
    by (let Heq := fresh in
        intros Heq;
        match goal with Hq : ¬ file_of _ q |- _ => apply Hq; rewrite <- Heq; assumption end);
  auto.

Ltac captures_event :=
  let p := fresh "p" in
  let Hp := fresh "Hp" in
  intros p Hp; cbn [screenshot_target] in Hp;
  first [ discriminate Hp | injection Hp as <-; assumption ].

Ltac captures_log :=
  first
    [ eexists; split; [eassumption | assumption]
    | eexists; split;
      [ match goal with Hl : log _ = _ |- _ => rewrite Hl end;
        rewrite <- app_assoc; reflexivity
      | apply Forall_app; split;
        [ assumption | apply Forall_singleton; captures_event ] ] ].

Ltac captures_leaf :=
  leaf_cases;
  first
    [ assumption
    | match goal with
      | H : captures_in _ _ _ _ |- _ => destruct H as (? & ? & ? & ? & ?)
      end;
      split; [world_simpl; assumption|];
      split; [world_simpl; captures_outside | world_simpl; captures_log] ].

Ltac captures_name Hplain :=
  apply (artifact_file_name _ _ Hplain);
  [ first [ reflexivity
          | rewrite !no_slash_app;
            match goal with H : no_slash _ = true |- _ => rewrite H end; reflexivity ]
  | reflexivity ].

Ltac captures_step Hplain :=
  lazymatch goal with
  | |- preserves _ (mbind _ (now_strftime _ "%Y%m%d_%H%M%S")) =>
      apply captures_now_bind; intros
  | |- preserves _ (mbind _ (dir_div _ "current_stock_screenshot_dir" _)) =>
      apply captures_dir_div_bind; [captures_name Hplain | intros]
  | |- preserves _ (_take_full_page_screenshot_cdp _ _) =>
      unfold _take_full_page_screenshot_cdp
  | |- preserves _ (for_each chart_types _) =>
      unfold chart_types; cbn [for_each]; cbv beta iota
  | |- _ => pres_step captures_leaf
  end.

Ltac captures_auto Hplain := repeat captures_step Hplain.

Section CaptureStages.

Variable E : env.
Variable code : string.
Hypothesis Hplain : plain_names E code.
Variable d : string.
Variable F : gmap string content.
Variable log0 : list event.

Lemma captures_setup_driver : preserves (λ s, captures_in d F log0 s.2) (_setup_driver E).
Proof. unfold _setup_driver. captures_auto Hplain. Qed.

Lemma captures_close_driver : preserves (λ s, captures_in d F log0 s.2) (_close_driver E).
Proof. unfold _close_driver. captures_auto Hplain. Qed.

Lemma captures_navigate_to_stock :
  preserves (λ s, captures_in d F log0 s.2) (_navigate_to_stock E code).
Proof. unfold _navigate_to_stock. captures_auto Hplain. Qed.

Lemma captures_get_basic_info : preserves (λ s, captures_in d F log0 s.2) _get_basic_info.
Proof. unfold _get_basic_info. captures_auto Hplain. Qed.

Lemma captures_capture_company_analysis :
  preserves (λ s, captures_in d F log0 s.2) (_capture_company_analysis E code).
Proof. unfold _capture_company_analysis. captures_auto Hplain. Qed.

Lemma captures_get_news_announcements :
  preserves (λ s, captures_in d F log0 s.2) (_get_news_announcements E code).
Proof. unfold _get_news_announcements. captures_auto Hplain. Qed.

Lemma captures_get_investor_trends :
  preserves (λ s, captures_in d F log0 s.2) (_get_investor_trends E code).
Proof. unfold _get_investor_trends. captures_auto Hplain. Qed.

Lemma captures_capture_chart_area (label : string) :
  no_slash label = true →
  preserves (λ s, captures_in d F log0 s.2) (capture_chart_area E code label).
Proof. intros Hlabel. unfold capture_chart_area. captures_auto Hplain. Qed.

Lemma captures_capture_advanced_charts :
  preserves (λ s, captures_in d F log0 s.2) (_capture_advanced_charts E code).
Proof.
  unfold _capture_advanced_charts.
  repeat first [ apply captures_capture_chart_area; reflexivity | captures_step Hplain ].
Qed.

End CaptureStages.

(** X1.  Let the stock code, the configured image format and the capture
    time stamps hold no path separator.  Then, whatever happens during a
    run of [collect_stock_data], every path the run hands to
    [save_screenshot] or to an element's [screenshot] is a file directly in
    the directory the run names for itself,
    [<save_path>/<code>_<timestamp>]: that directory, one separator and one
    file name.  The same holds of every regular file the collector's own
    calls write, the [open] of the DevTools capture included; set-up,
    navigation and tear-down write none.  Directories, and what Chrome and
    the logging module write on their own account, are not covered. *)
Theorem collect_captures_go_into_run_directory (E : env) (code : string) (w : world) :
  plain_names E code →
  let out := (run (collect_stock_data E code) w).2 in
  let d := run_dir E code w in
  current_stock_screenshot_dir out = Some d ∧
  (∀ p, ¬ file_of d p → files out !! p = files w !! p) ∧
  ∃ t, log out = log w ++ t ∧
       Forall (λ e, ∀ p, screenshot_target e = Some p → file_of d p) t.
Proof.
  intros Hplain out d. subst out d.
  apply (collect_invariant E (captures_in (run_dir E code w) (files w) (log w))).
  - split; [done|]. split; [done|]. exists []. split; [by rewrite app_nil_r | constructor].
  - intros w0 H. exact H.
  - apply captures_setup_driver.
  - apply captures_close_driver.
  - apply captures_navigate_to_stock.
  - apply captures_get_basic_info.
  - by apply captures_capture_company_analysis.
  - by apply captures_get_news_announcements.
  - by apply captures_get_investor_trends.
  - by apply captures_capture_advanced_charts.
Qed.

Lemma collect_captures_go_into_run_directory_witness :
  let out := (run (collect_stock_data plain_site "005930")
                  (set_files {["notes.txt" := Bytes "kept"]} (fresh plain_site))).2 in
  files out !! "notes.txt" = Some (Bytes "kept") ∧
  ∃ t, log out = log (fresh plain_site) ++ t ∧
       Forall (λ e, ∀ p, screenshot_target e = Some p → file_of "screenshots/005930_t" p) t.
Proof.
  assert (Hplain : plain_names plain_site "005930") by (by repeat split).
  destruct (collect_captures_go_into_run_directory plain_site "005930"
              (set_files {["notes.txt" := Bytes "kept"]} (fresh plain_site)) Hplain)
    as (_ & Hfiles & Hlog).
  split; [|exact Hlog].
  rewrite Hfiles; [reflexivity|].
  intros (name & _ & Hname). vm_compute in Hname. discriminate Hname.
Defined.

(** * The pages a run requests *)

(** The [get] calls recorded so far. *)
Lemma gets_emit (ev : event) (w : world) :
  is_get ev = false → List.filter is_get (log (emit ev w)) = List.filter is_get (log w).
Proof.
  intros Hev. cbn [log emit]. rewrite List.filter_app. cbn [List.filter].
  rewrite Hev. apply app_nil_r.
Qed.

Ltac gets_leaf :=
  leaf_cases;
  first
    [ assumption
    | rewrite List.filter_app; cbn [List.filter is_get]; rewrite app_nil_r; assumption ].

Ltac gets_auto := repeat pres_step gets_leaf.

Section Pages.

Variable E : env.

Lemma one_get_driver_get {L} url : one_get url (driver_get E url : M L unit).
Proof.
  intros [l w] Hd. unfold driver_get. rewrite on_driver_eq by exact Hd.
  cbn [fst snd]. destruct (site E url); world_simpl;
    rewrite List.filter_app; reflexivity.
Qed.

Lemma one_get_then {L A B} url (m : M L A) (k : A → M L B) :
  one_get url m → (∀ a, no_get (k a)) → one_get url (m ≫= k).
Proof.
  intros Hm Hk s Hd. rewrite bind_eq. specialize (Hm s Hd).
  destruct (m s) as [[a|e] s']; [|exact Hm].
  exact (Hk a _ s' Hm).
Qed.

Lemma one_get_after {L A B} url (m : M L A) (k : A → M L B) :
  no_get m → keeps m → total m → (∀ a, one_get url (k a)) → one_get url (m ≫= k).
Proof.
  intros Hm Hq Ht Hk s Hd. rewrite bind_eq.
  pose proof (Hm _ s eq_refl) as Hg. destruct (Hq s) as (Hd' & _).
  destruct (Ht s) as [a Ha].
  destruct (m s) as [[a'|e] s']; cbn [fst snd] in *; [|done].
  rewrite <- Hg. apply Hk. by rewrite Hd'.
Qed.

Lemma one_get_try {L A} url (m : M L A) h :
  one_get url m → (∀ e, no_get (h e)) → one_get url (try_except m h).
Proof.
  intros Hm Hh s Hd. unfold try_except, try_except_when. specialize (Hm s Hd).
  destruct (m s) as [[a|e] s']; [exact Hm|].
  exact (Hh e _ s' Hm).
Qed.

(** The shape of the four stages that load a page of their own. *)
Lemma one_get_stage {L} url (init : L) (rest : M L unit) h :
  no_get rest → (∀ e, no_get (h e)) →
  one_get url (put_local init ;;
               try_except (driver_get E url ;; rest) h ;;
               get_local).
Proof.
  intros Hr Hh.
  apply one_get_after.
  - intros G. apply preserves_put_local. by intros s Hs.
  - apply keeps_put_local.
  - apply total_put_local.
  - intros _. apply one_get_then.
    + apply one_get_try; [|exact Hh].
      apply one_get_then; [apply one_get_driver_get | intros _; exact Hr].
    + intros _ G. apply preserves_get_local.
Qed.

Lemma no_get_take_full_page_screenshot_cdp path :
  no_get (_take_full_page_screenshot_cdp E path).
Proof. intros G. unfold _take_full_page_screenshot_cdp. gets_auto. Qed.

Lemma no_get_dir_div {L} name f : no_get (dir_div E name f : M L string).
Proof. intros G. unfold dir_div, getattr_dir. gets_auto. Qed.

Lemma no_get_capture_chart_area code label : no_get (capture_chart_area E code label).
Proof.
  intros G. unfold capture_chart_area.
  repeat first [ apply (no_get_dir_div _ _ G) | pres_step gets_leaf ].
Qed.

Lemma no_get_setup_driver : no_get (_setup_driver E).
Proof. intros G. unfold _setup_driver. gets_auto. Qed.

Lemma no_get_get_basic_info : no_get _get_basic_info.
Proof. intros G. unfold _get_basic_info. gets_auto. Qed.

Lemma one_get_navigate_to_stock code :
  one_get (get_stock_url E code) (_navigate_to_stock E code).
Proof.
  unfold _navigate_to_stock. apply one_get_try.
  - cbv zeta. apply one_get_then; [apply one_get_driver_get | intros _ G]. gets_auto.
  - intros _ G. gets_auto.
Qed.

Lemma one_get_capture_company_analysis code :
  one_get (analysis_url code) (_capture_company_analysis E code).
Proof.
  unfold _capture_company_analysis. apply one_get_stage; [|intros _ G; gets_auto].
  intros G.
  repeat first [ apply (no_get_dir_div _ _ G)
               | apply (no_get_take_full_page_screenshot_cdp _ G)
               | pres_step gets_leaf ].
Qed.

Lemma one_get_get_news_announcements code :
  one_get (news_url code) (_get_news_announcements E code).
Proof.
  unfold _get_news_announcements. apply one_get_stage; [|intros _ G; gets_auto].
  intros G.
  repeat first [ apply (no_get_dir_div _ _ G)
               | apply (no_get_take_full_page_screenshot_cdp _ G)
               | pres_step gets_leaf ].
Qed.

Lemma one_get_get_investor_trends code :
  one_get (investor_url code) (_get_investor_trends E code).
Proof.
  unfold _get_investor_trends. apply one_get_stage; [|intros _ G; gets_auto].
  intros G.
  repeat first [ apply (no_get_dir_div _ _ G)
               | apply (no_get_take_full_page_screenshot_cdp _ G)
               | pres_step gets_leaf ].
Qed.

Lemma one_get_capture_advanced_charts code :
  one_get (chart_url code) (_capture_advanced_charts E code).
Proof.
  unfold _capture_advanced_charts. apply one_get_stage; [|intros _ G; gets_auto].
  intros G.
  repeat first [ apply (no_get_capture_chart_area _ _ G) | pres_step gets_leaf ].
Qed.

Lemma one_get_run_in {L A} url (m : M L A) init w r w' :
  one_get url m → driver w = true → run_in init m w = (r, w') →
  List.filter is_get (log w') = List.filter is_get (log w) ++ [EvGet url].
Proof.
  intros Hm Hd. specialize (Hm (init, w) Hd). unfold run_in.
  destruct (m (init, w)) as [r0 [l w0]]. by intros [= _ <-].
Qed.

Lemma no_get_run_in {L A} (m : M L A) init w r w' :
  no_get m → run_in init m w = (r, w') →
  List.filter is_get (log w') = List.filter is_get (log w).
Proof.
  intros Hm. specialize (Hm _ (init, w) eq_refl). unfold run_in.
  destruct (m (init, w)) as [r0 [l w0]]. by intros [= _ <-].
Qed.

End Pages.

(** X2.  A run of [collect_stock_data] that returns a record has requested
    exactly five pages, in this order: the overview page of the configured
    URL, then the company analysis, news, investor flows and chart pages of
    the same stock code.  No failure inside a stage makes the run skip or
    repeat a page. *)
Theorem collect_requests_five_pages_in_order (E : env) (code : string) (w w' : world)
    (d : StockData) :
  run (collect_stock_data E code) w = (Ok (Some d), w') →
  List.filter is_get (log w') = List.filter is_get (log w) ++ pages_of_run E code.
Proof.
  intros Hrun.
  destruct (collect_success E code w w' d Hrun) as (w2 & w3 & Hs & Hd2 & Hn & Hd3 & _ & Hst).
  destruct Hst as (bi & w4 & an & w5 & nw & w6 & fl & w7 & ch & w8
                   & H4 & H5 & H6 & H7 & H8 & _ & ->).
  assert (Hd4 : driver w4 = true).
  { pose proof (keeps_run_in _ _ _ _ _ keeps_get_basic_info H4) as (-> & _). exact Hd3. }
  assert (Hd5 : driver w5 = true).
  { pose proof (keeps_run_in _ _ _ _ _ (keeps_capture_company_analysis E code) H5) as (-> & _).
    exact Hd4. }
  assert (Hd6 : driver w6 = true).
  { pose proof (keeps_run_in _ _ _ _ _ (keeps_get_news_announcements E code) H6) as (-> & _).
    exact Hd5. }
  assert (Hd7 : driver w7 = true).
  { pose proof (keeps_run_in _ _ _ _ _ (keeps_get_investor_trends E code) H7) as (-> & _).
    exact Hd6. }
  cbn [log tick].
  rewrite (one_get_run_in _ _ _ _ _ _ (one_get_capture_advanced_charts E code) Hd7 H8).
  rewrite (one_get_run_in _ _ _ _ _ _ (one_get_get_investor_trends E code) Hd6 H7).
  rewrite (one_get_run_in _ _ _ _ _ _ (one_get_get_news_announcements E code) Hd5 H6).
  rewrite (one_get_run_in _ _ _ _ _ _ (one_get_capture_company_analysis E code) Hd4 H5).
  rewrite (no_get_run_in _ _ _ _ _ no_get_get_basic_info H4).
  rewrite (one_get_run_in _ _ _ _ _ _ (one_get_navigate_to_stock E code) Hd2 Hn).
  unfold run in Hs.
  rewrite (no_get_run_in _ _ _ _ _ (no_get_setup_driver E) Hs).
  cbn [log set_dir tick]. unfold pages_of_run. by rewrite <- !app_assoc.
Qed.

Lemma collect_requests_five_pages_in_order_witness :
  ∃ d w', run (collect_stock_data Mock.site_ok "005930") (fresh Mock.site_ok) = (Ok (Some d), w')
          ∧ List.filter is_get (log w') = pages_of_run Mock.site_ok "005930".
Proof.
  destruct (run (collect_stock_data Mock.site_ok "005930") (fresh Mock.site_ok))
    as [[[d|]|e] w'] eqn:Hrun; [|by vm_compute in Hrun..].
  exists d, w'. split; [reflexivity|].
  exact (collect_requests_five_pages_in_order Mock.site_ok "005930" (fresh Mock.site_ok) w' d Hrun).
Defined.

(** * What the locals hold when a block ends *)

Section Ensures.

Context {L : Type} (Q : L → Prop).

(** Only the last statement of a sequence matters for what holds on
    return. *)
Lemma ensures_bind {A B} (m : M L A) (k : A → M L B) :
  (∀ a, ensures Q (k a)) → ensures Q (m ≫= k).
Proof.
  intros Hk s b s'. rewrite bind_eq.
  destruct (m s) as [[a|e] s1]; [apply Hk | done].
Qed.

Lemma ensures_update_local f : (∀ l, Q (f l)) → ensures Q (update_local f).
Proof. intros H s a s'. intros [= _ <-]. apply H. Qed.

Lemma always_update_local f : (∀ l, Q (f l)) → always Q (update_local f).
Proof. intros H s. apply H. Qed.

Lemma always_try {A} (m : M L A) h :
  ensures Q m → (∀ e, always Q (h e)) → always Q (try_except m h).
Proof.
  intros Hm Hh s. unfold try_except, try_except_when.
  destruct (m s) as [[a|e] s'] eqn:Hs; [exact (Hm _ _ _ Hs) | apply Hh].
Qed.

End Ensures.

(** The log line at the end of the [try] block of [_get_basic_info] reads
    the name back: a block that returns has stored it. *)
Lemma ensures_logged {A} (k : string) (rest : gmap string string → M (gmap string string) A) :
  (∀ bi s, (rest bi s).2.1 = s.1) →
  ensures (λ l, is_Some (l !! k)) (basic_info ← get_local; getitem basic_info k ;; rest basic_info).
Proof.
  intros Hrest [l w] a s'. rewrite bind_eq. cbn [get_local fst snd]. rewrite bind_eq.
  unfold getitem, of_result, lookup_key.
  destruct (l !! k) as [v|] eqn:Hk; [|done].
  specialize (Hrest l (l, w)). intros Hr. rewrite Hr in Hrest. cbn [fst snd] in Hrest.
  rewrite Hrest. by eexists.
Qed.

Lemma keys_within_insert {V} (K : list string) (k : string) (v : V) (l : gmap string V) :
  k ∈ K → keys_within K l → keys_within K (<[k := v]> l).
Proof.
  intros Hk Hl k' Hk'. destruct (decide (k' = k)) as [->|Hne]; [done|].
  apply Hl. by rewrite lookup_insert_ne in Hk'.
Qed.

Lemma keys_within_empty {V} (K : list string) : keys_within K (∅ : gmap string V).
Proof. intros k [v Hv]. by rewrite lookup_empty in Hv. Qed.

Ltac keys_leaf :=
  first
    [ by intros
    | intros ? ?; apply keys_within_insert; [repeat constructor | assumption]
    | intros; apply keys_within_empty ].

(** What a guarded method returns is what its locals hold after the
    guarded block. *)
Lemma guarded_run {L} (init0 init : L) (body : M L unit) h w l w' :
  run_in init0 (put_local init ;; try_except body h ;; get_local) w = (Ok l, w') →
  (try_except body h (init, w)).2 = (l, w').
Proof.
  unfold run_in. rewrite bind_eq. cbn [put_local snd]. rewrite bind_eq.
  destruct (try_except body h (init, w)) as [[[]|e] [l1 w1]]; [|done].
  cbn [get_local fst snd]. by intros [= <- <-].
Qed.

Lemma basic_info_run_keys init w bi w' :
  run_in init _get_basic_info w = (Ok bi, w') → keys_within basic_info_keys bi.
Proof.
  intros Hrun. apply guarded_run in Hrun.
  match type of Hrun with
  | (?m0 ?s0).2 = _ =>
      assert (Hp : preserves (λ s, keys_within basic_info_keys s.1) m0)
        by (repeat pres_step keys_leaf);
      pose proof (Hp s0 (keys_within_empty _)) as Hk
  end.
  by rewrite Hrun in Hk.
Qed.

Lemma basic_info_run_name init w bi w' :
  run_in init _get_basic_info w = (Ok bi, w') → is_Some (bi !! "stock_name").
Proof.
  intros Hrun. apply guarded_run in Hrun.
  match type of Hrun with
  | (?m0 ?s0).2 = _ =>
      assert (Ha : always (λ l, is_Some (l !! "stock_name")) m0);
      [|pose proof (Ha s0) as Hn; by rewrite Hrun in Hn]
  end.
  apply always_try.
  - do 17 (first [ apply ensures_logged; intros bi0 s; rewrite bind_eq;
                   unfold getitem, of_result; by destruct (lookup_key bi0 "stock_code")
                 | apply ensures_bind; intros ]).
  - intros _. apply always_try.
    + apply ensures_bind. intros title.
      destruct (PyStr.contains_char ":" title).
      * apply ensures_bind. intros title'. apply ensures_update_local.
        intros l. rewrite lookup_insert_eq. by eexists.
      * apply ensures_update_local. intros l. rewrite lookup_insert_eq. by eexists.
    + intros _. apply always_update_local. intros l. rewrite lookup_insert_eq. by eexists.
Qed.

(** X3.  [_get_basic_info] never raises, and the mapping it returns always
    carries a [stock_name] (the element's text, or the page-title fallback,
    or the placeholder) and no key other than [stock_name], [stock_code],
    [current_price], [price_change], [change_rate] and
    [company_description]. *)
Theorem basic_info_always_names_the_stock (w : world) (init : gmap string string) :
  ∃ bi w', run_in init _get_basic_info w = (Ok bi, w') ∧
           is_Some (bi !! "stock_name") ∧
           ∀ k, is_Some (bi !! k) → k ∈ basic_info_keys.
Proof.
  destruct (total_run_in _get_basic_info init w total_get_basic_info) as (bi & w' & Hrun).
  exists bi, w'. split; [exact Hrun|]. split.
  - by eapply basic_info_run_name.
  - by eapply basic_info_run_keys.
Qed.

(** X4.  In every record [collect_stock_data] returns, the fields [volume]
    and [market_cap] are the empty string and [financial_data] and
    [technical_indicators] are empty: the extraction never stores the
    keys [volume] and [market_cap] the record is built from, and nothing
    fills the two mappings. *)
Theorem collect_record_leaves_volume_and_market_cap_empty (E : env) (code : string)
    (w w' : world) (d : StockData) :
  run (collect_stock_data E code) w = (Ok (Some d), w') →
  volume d = EmptyString ∧ market_cap d = EmptyString ∧
  financial_data d = ∅ ∧ technical_indicators d = ∅.
Proof.
  intros Hrun.
  destruct (collect_success E code w w' d Hrun) as (w2 & w3 & _ & _ & _ & _ & _ & Hst).
  destruct Hst as (bi & w4 & an & w5 & nw & w6 & fl & w7 & ch & w8
                   & H4 & _ & _ & _ & _ & -> & _).
  pose proof (basic_info_run_keys _ _ _ _ H4) as Hk.
  assert (Hv : bi !! "volume" = None).
  { destruct (bi !! "volume") as [v|] eqn:Hv; [|done].
    assert (Hin : "volume" ∈ basic_info_keys) by (apply Hk; by eexists).
    exfalso. revert Hin. by apply (bool_decide_unpack ("volume" ∉ basic_info_keys)). }
  assert (Hm : bi !! "market_cap" = None).
  { destruct (bi !! "market_cap") as [v|] eqn:Hm; [|done].
    assert (Hin : "market_cap" ∈ basic_info_keys) by (apply Hk; by eexists).
    exfalso. revert Hin. by apply (bool_decide_unpack ("market_cap" ∉ basic_info_keys)). }
  unfold record_of. cbn [volume market_cap financial_data technical_indicators].
  unfold dict_get. by rewrite Hv, Hm.
Qed.

(** * The capture paths a stage records *)

Ltac silent_leaf := leaf_cases; assumption.

Ltac silent_auto := unfold silent; intros; repeat pres_step silent_leaf.

Lemma silent_locals {L A} (m : M L A) (s : L * world) : silent m → (m s).2.1 = s.1.
Proof.
  intros Hm. by destruct (Hm s.1 (current_stock_screenshot_dir s.2) s (conj eq_refl eq_refl)).
Qed.

Section SetsLast.

Context {L : Type} (P : L → L → Prop).

Lemma sets_last_bind_returns {A B} (Q : A → Prop) (m : M L A) (k : A → M L B) :
  silent m → returns Q m → (∀ a, Q a → sets_last P (k a)) → sets_last P (m ≫= k).
Proof.
  intros Hm Hq Hk s. rewrite bind_eq. pose proof (silent_locals m s Hm) as Hl.
  destruct (m s) as [[a|e] s1] eqn:Hs; cbn [fst snd] in *; [|exact Hl].
  specialize (Hk a (Hq _ _ _ Hs) s1). by rewrite Hl in Hk.
Qed.

Lemma sets_last_silent_bind {A B} (m : M L A) (k : A → M L B) :
  silent m → (∀ a, sets_last P (k a)) → sets_last P (m ≫= k).
Proof.
  intros Hm Hk. apply (sets_last_bind_returns (λ _, True)); [exact Hm | done | auto].
Qed.

Lemma sets_last_update_local f : (∀ l, P l (f l)) → sets_last P (update_local f).
Proof. intros H s. apply H. Qed.

End SetsLast.

Section Reach.

Lemma reach_refl Ks l : reach Ks l l.
Proof. induction Ks as [|K Ks IH]; [done|]. exists l. split; [by left | exact IH]. Qed.

Lemma reach_app Ks1 Ks2 l l1 l2 :
  reach Ks1 l l1 → reach Ks2 l1 l2 → reach (Ks1 ++ Ks2) l l2.
Proof.
  revert l. induction Ks1 as [|K Ks1 IH]; intros l; cbn [reach app].
  - by intros ->.
  - intros (l0 & Hs & Hr) H2. exists l0. split; [exact Hs | by apply IH].
Qed.

Lemma reach_one K l l' : step_one K l l' → reach [K] l l'.
Proof. intros H. by exists l'. Qed.

Lemma reach_union Ks l l' (m : gmap string string) :
  reach Ks l l' → reach Ks (l ∪ m) (l' ∪ m).
Proof.
  revert l. induction Ks as [|K Ks IH]; intros l; cbn [reach].
  - by intros ->.
  - intros (l1 & Hs & Hr). exists (l1 ∪ m). split; [|by apply IH].
    destruct Hs as [->|(k & v & Hk & ->)]; [by left | right].
    exists k, v. split; [done|]. by rewrite insert_union_l.
Qed.

Lemma reach_keys Ks (Kall : list string) l l' :
  reach Ks l l' →
  (∀ K, K ∈ Ks → ∀ k, k ∈ K → k ∈ Kall) →
  keys_within Kall l → keys_within Kall l'.
Proof.
  revert l. induction Ks as [|K Ks IH]; intros l; cbn [reach].
  - by intros ->.
  - intros (l1 & Hs & Hr) Hall Hl. apply (IH l1 Hr).
    + intros K' HK'. apply Hall. by apply list_elem_of_further.
    + destruct Hs as [->|(k0 & v0 & Hk0 & ->)]; [exact Hl|].
      intros k. destruct (decide (k = k0)) as [->|Hne].
      * intros _. apply (Hall K); [apply list_elem_of_here | done].
      * rewrite lookup_insert_ne by done. apply Hl.
Qed.

Lemma reach_size Ks l l' : reach Ks l l' → size l' ≤ size l + length Ks.
Proof.
  revert l. induction Ks as [|K Ks IH]; intros l; cbn [reach length].
  - intros ->. lia.
  - intros (l1 & Hs & Hr). specialize (IH l1 Hr).
    assert (size l1 ≤ S (size l)); [|lia].
    destruct Hs as [->|(k0 & v0 & _ & ->)]; [lia|].
    destruct (l !! k0) eqn:Hk.
    + rewrite map_size_insert_Some by eauto. lia.
    + rewrite map_size_insert_None by done. lia.
Qed.

Lemma reach_other Ks l l' k :
  reach Ks l l' → k ∉ concat Ks → l' !! k = l !! k.
Proof.
  revert l. induction Ks as [|K Ks IH]; intros l; cbn [reach concat].
  - by intros ->.
  - intros (l1 & Hs & Hr) Hk. rewrite not_elem_of_app in Hk. destruct Hk as [HkK HkKs].
    rewrite (IH l1 Hr HkKs).
    destruct Hs as [->|(k0 & v0 & Hk0 & ->)]; [done|].
    apply lookup_insert_ne. by intros ->.
Qed.

(** With all keys distinct, a slot never ends up with two of its keys. *)
Lemma reach_exclusive Ks l l' :
  reach Ks l l' → NoDup (concat Ks) →
  (∀ k, k ∈ concat Ks → l !! k = None) →
  ∀ K, K ∈ Ks → ∀ k1 k2, k1 ∈ K → k2 ∈ K → k1 ≠ k2 →
  l' !! k1 = None ∨ l' !! k2 = None.
Proof.
  revert l. induction Ks as [|K0 Ks IH]; intros l; cbn [reach concat].
  - intros _ _ _ K HK. by apply elem_of_nil in HK.
  - intros (l1 & Hs & Hr) Hnd Hl K HK k1 k2 Hk1 Hk2 Hne.
    apply NoDup_app in Hnd as (_ & Hdisj & Hnd').
    apply elem_of_cons in HK as [->|HK].
    + (* the slot filled by this step *)
      rewrite (reach_other Ks l1 l' k1 Hr) by (by apply Hdisj).
      rewrite (reach_other Ks l1 l' k2 Hr) by (by apply Hdisj).
      assert (H1 : l !! k1 = None) by (apply Hl, elem_of_app; by left).
      assert (H2 : l !! k2 = None) by (apply Hl, elem_of_app; by left).
      destruct Hs as [->|(k0 & v0 & _ & ->)]; [by left|].
      destruct (decide (k1 = k0)) as [->|Hne1].
      * right. by rewrite lookup_insert_ne.
      * left. by rewrite lookup_insert_ne.
    + (* a later slot *)
      refine (IH l1 Hr Hnd' _ K HK k1 k2 Hk1 Hk2 Hne).
      intros k Hk.
      destruct Hs as [->|(k0 & v0 & Hk0 & ->)].
      * apply Hl, elem_of_app. by right.
      * rewrite lookup_insert_ne; [apply Hl, elem_of_app; by right|].
        intros ->. by apply (Hdisj k).
Qed.

End Reach.

Section PutsOne.

Lemma puts_one_skip {A} K (m : M (gmap string string) A) : silent m → puts_one K m.
Proof.
  intros Hm s. pose proof (silent_locals m s Hm) as Hl.
  destruct (m s).1; [by left | exact Hl].
Qed.

Lemma puts_one_silent_bind {A B} K (m : M (gmap string string) A) (k : A → M _ B) :
  silent m → (∀ a, puts_one K (k a)) → puts_one K (m ≫= k).
Proof. apply sets_last_silent_bind. Qed.

Lemma puts_one_try {A} K (m : M (gmap string string) A) h :
  puts_one K m → (∀ e, puts_one K (h e)) → puts_one K (try_except m h).
Proof.
  intros Hm Hh s. unfold try_except, try_except_when.
  specialize (Hm s).
  destruct (m s) as [[a|e] s1]; cbn [fst snd] in *; [exact Hm|].
  specialize (Hh e s1). by rewrite Hm in Hh.
Qed.

Lemma puts_one_update K k v : k ∈ K → puts_one K (update_local (<[k := v]>)).
Proof. intros Hk s. right. by exists k, v. Qed.

Lemma puts_seq_skip {A} (m : M (gmap string string) A) : silent m → puts_seq [] m.
Proof. intros Hm s. by apply silent_locals. Qed.

Lemma puts_seq_of_one {A} K (m : M (gmap string string) A) :
  puts_one K m → puts_seq [K] m.
Proof.
  intros Hm s. specialize (Hm s). apply reach_one.
  destruct (m s).1; [exact Hm | by left].
Qed.

Lemma puts_seq_app {A B} Ks1 Ks2 (m : M (gmap string string) A) (k : A → M _ B) :
  puts_seq Ks1 m → (∀ a, puts_seq Ks2 (k a)) → puts_seq (Ks1 ++ Ks2) (m ≫= k).
Proof.
  intros Hm Hk s. rewrite bind_eq. specialize (Hm s).
  destruct (m s) as [[a|e] s1]; cbn [fst snd] in *.
  - eapply reach_app; [exact Hm | apply Hk].
  - eapply reach_app; [exact Hm | apply reach_refl].
Qed.

Lemma puts_seq_try {A} Ks (m : M (gmap string string) A) h :
  puts_seq Ks m → (∀ e, silent (h e)) → puts_seq Ks (try_except m h).
Proof.
  intros Hm Hh s. unfold try_except, try_except_when. specialize (Hm s).
  destruct (m s) as [[a|e] s1]; cbn [fst snd] in *; [exact Hm|].
  by rewrite (silent_locals (h e) s1 (Hh e)).
Qed.

End PutsOne.

Ltac puts_step :=
  lazymatch goal with
  | |- puts_one _ (mret _) => apply puts_one_skip; silent_auto
  | |- puts_one _ (raise _) => apply puts_one_skip; silent_auto
  | |- puts_one _ (update_local _) => apply puts_one_update; repeat constructor
  | |- puts_one _ (mbind _ _) => apply puts_one_silent_bind; [silent_auto | intros]
  | |- puts_one _ (try_except _ _) => apply puts_one_try; [|intros]
  | |- puts_one _ (if ?b then _ else _) => destruct b
  | |- puts_one _ (match ?x with _ => _ end) => destruct x
  | |- puts_one _ (let _ := _ in _) => cbv zeta
  end.

Section ArtifactStages.

Variable E : env.

Lemma puts_one_capture_chart_area code label :
  puts_one (chart_keys label) (capture_chart_area E code label).
Proof. unfold capture_chart_area. repeat puts_step. Qed.

Lemma analysis_records code w an w' :
  run_in ∅ (_capture_company_analysis E code) w = (Ok an, w') →
  reach [analysis_keys] ∅ an.
Proof.
  intros Hrun. apply guarded_run in Hrun.
  match type of Hrun with
  | (?m0 ?s0).2 = _ =>
      assert (Hp : puts_one analysis_keys m0) by (repeat puts_step);
      pose proof (Hp s0) as Hr
  end.
  rewrite Hrun in Hr. cbn [fst snd] in Hr. apply reach_one.
  match type of Hr with match ?r with _ => _ end => destruct r end;
    [exact Hr | by left].
Qed.

Lemma charts_record code w ch w' :
  run_in ∅ (_capture_advanced_charts E code) w = (Ok ch, w') →
  reach (chart_keys <$> chart_labels) ∅ ch.
Proof.
  intros Hrun. apply guarded_run in Hrun.
  match type of Hrun with
  | (?m0 ?s0).2 = _ =>
      assert (Hp : puts_seq (chart_keys <$> chart_labels) m0);
      [|pose proof (Hp s0) as Hr; by rewrite Hrun in Hr]
  end.
  apply puts_seq_try; [|intros; silent_auto].
  apply (puts_seq_app [] _); [apply puts_seq_skip; silent_auto | intros _].
  apply (puts_seq_app [] _); [apply puts_seq_skip; silent_auto | intros _].
  apply (puts_seq_app [chart_keys "month"; chart_keys "week"; chart_keys "day"]
                      [chart_keys "1hour"]).
  - unfold chart_types. cbn [for_each].
    apply (puts_seq_app [chart_keys "month"] [chart_keys "week"; chart_keys "day"]).
    { apply puts_seq_of_one. apply puts_one_try; [|intros; apply puts_one_skip; silent_auto].
      apply puts_one_silent_bind; [silent_auto | intros r].
      destruct (js_truthy r); [apply puts_one_capture_chart_area | apply puts_one_skip; silent_auto]. }
    intros _.
    apply (puts_seq_app [chart_keys "week"] [chart_keys "day"]).
    { apply puts_seq_of_one. apply puts_one_try; [|intros; apply puts_one_skip; silent_auto].
      apply puts_one_silent_bind; [silent_auto | intros r].
      destruct (js_truthy r); [apply puts_one_capture_chart_area | apply puts_one_skip; silent_auto]. }
    intros _.
    apply (puts_seq_app [chart_keys "day"] []).
    { apply puts_seq_of_one. apply puts_one_try; [|intros; apply puts_one_skip; silent_auto].
      apply puts_one_silent_bind; [silent_auto | intros r].
      destruct (js_truthy r); [apply puts_one_capture_chart_area | apply puts_one_skip; silent_auto]. }
    intros _. apply puts_seq_skip. silent_auto.
  - intros _. apply puts_seq_of_one.
    apply puts_one_try; [|intros; apply puts_one_skip; silent_auto].
    apply puts_one_silent_bind; [silent_auto | intros r].
    apply puts_one_silent_bind; [destruct (js_truthy r); silent_auto | intros _].
    apply puts_one_capture_chart_area.
Qed.

End ArtifactStages.

(** X5.  The [chart_screenshots] of a record hold at most five paths: one
    for the company analysis and one per chart interval (month, week, day,
    hour).  Each slot is filled under its capture key or under its fallback
    key, never both; and there is no other key, so the captures of the news
    and investor-flow pages have no entry. *)
Theorem collect_records_one_capture_per_slot (E : env) (code : string) (w w' : world)
    (d : StockData) :
  run (collect_stock_data E code) w = (Ok (Some d), w') →
  size (chart_screenshots d) ≤ 5 ∧
  (∀ k v, chart_screenshots d !! k = Some v → k ∈ artifact_keys) ∧
  (∀ K k1 k2, K ∈ artifact_slots → k1 ∈ K → k2 ∈ K → k1 ≠ k2 →
              chart_screenshots d !! k1 = None ∨ chart_screenshots d !! k2 = None).
Proof.
  intros Hrun.
  destruct (collect_success E code w w' d Hrun) as (w2 & w3 & _ & _ & _ & _ & _ & Hst).
  destruct Hst as (bi & w4 & an & w5 & nw & w6 & fl & w7 & ch & w8
                   & H4 & H5 & H6 & H7 & H8 & -> & _).
  pose proof (analysis_records E code w4 an w5 H5) as Han.
  pose proof (charts_record E code w7 ch w8 H8) as Hch.
  assert (Hall : reach artifact_slots ∅ (ch ∪ an)).
  { apply (reach_app [analysis_keys] _ ∅ an); [exact Han|].
    apply (reach_union _ ∅ ch an) in Hch. by rewrite (left_id ∅ (∪)) in Hch. }
  unfold record_of. cbn [chart_screenshots].
  split; [|split].
  - apply reach_size in Hall. rewrite map_size_empty in Hall. exact Hall.
  - intros k v Hk.
    apply (reach_keys artifact_slots artifact_keys ∅ _ Hall); [| |by eexists].
    + intros K HK k0 Hk0. unfold artifact_keys. apply list_elem_of_In, in_concat.
      exists K. split; by apply list_elem_of_In.
    + intros k0 [v0 Hk0]. by rewrite lookup_empty in Hk0.
  - intros K k1 k2 HK Hk1 Hk2 Hne.
    apply (reach_exclusive artifact_slots ∅ _ Hall) with (K := K); try done.
    by apply (bool_decide_unpack (NoDup (concat artifact_slots))).
Qed.

Lemma collect_records_one_capture_per_slot_witness :
  ∃ d w', run (collect_stock_data Mock.site_ok "005930") (fresh Mock.site_ok) = (Ok (Some d), w')
          ∧ size (chart_screenshots d) ≤ 5.
Proof.
  destruct (run (collect_stock_data Mock.site_ok "005930") (fresh Mock.site_ok))
    as [[[d|]|e] w'] eqn:Hrun; [|by vm_compute in Hrun..].
  exists d, w'. split; [reflexivity|].
  exact (proj1 (collect_records_one_capture_per_slot Mock.site_ok "005930"
                  (fresh Mock.site_ok) w' d Hrun)).
Defined.

Lemma collect_record_leaves_volume_and_market_cap_empty_witness :
  ∃ d w', run (collect_stock_data Mock.site_ok "005930") (fresh Mock.site_ok) = (Ok (Some d), w')
          ∧ volume d = EmptyString ∧ market_cap d = EmptyString.
Proof.
  destruct (run (collect_stock_data Mock.site_ok "005930") (fresh Mock.site_ok))
    as [[[d|]|e] w'] eqn:Hrun; [|by vm_compute in Hrun..].
  exists d, w'. split; [reflexivity|].
  destruct (collect_record_leaves_volume_and_market_cap_empty Mock.site_ok "005930"
              (fresh Mock.site_ok) w' d Hrun) as (Hv & Hm & _).
  by split.
Defined.

(** * A capture that fails after the file was opened *)

(** X6.  [_take_full_page_screenshot_cdp] opens the target file before it
    reads the image out of the DevTools answer.  When the answer has no
    [data] entry, or the entry cannot be decoded, the method answers
    [False] and leaves an empty file at the target path: whatever the file
    held before is gone. *)
Theorem cdp_capture_failure_leaves_empty_file (E : env) (path : string) (w : world)
    (shot : gmap string string) (e : exn) :
  driver w = true →
  cdp_shot (top w) = Ok shot →
  writable E path = true →
  shot_png E shot = Raise e →
  ∃ w', run_in tt (_take_full_page_screenshot_cdp E path) w = (Ok false, w') ∧
        files w' = <[path := Bytes EmptyString]> (files w).
Proof.
  intros Hd Hshot Hw Hpng.
  unfold cdp_shot in Hshot. unfold shot_png in Hpng.
  unfold run_in, _take_full_page_screenshot_cdp. exec Hd.
  destruct (pg_layout_metrics (top w)) as [rect|e0]; cbn [mbind result_bind] in Hshot; [|done].
  exec Hd.
  destruct (lookup_key rect "contentSize") as [sz|e0]; cbn [mbind result_bind] in Hshot; [|done].
  exec Hd.
  destruct (lookup_key sz "width") as [width|e0]; cbn [mbind result_bind] in Hshot; [|done].
  exec Hd.
  destruct (lookup_key sz "height") as [height|e0]; cbn [mbind result_bind] in Hshot; [|done].
  exec Hd. rewrite Hshot. exec Hd. rewrite Hw. exec Hd.
  destruct (lookup_key shot "data") as [data|e0]; cbn [mbind result_bind] in Hpng; exec Hd.
  2:{ by eexists. }
  rewrite Hpng. exec Hd. by eexists.
Qed.

Lemma cdp_capture_failure_leaves_empty_file_witness :
  ∃ w', run_in tt (_take_full_page_screenshot_cdp Mock.site_ok "shots/a.png")
               (set_files {["shots/a.png" := Bytes "old image"]}
                          (browsing dataless_page "shots")) = (Ok false, w') ∧
        files w' !! "shots/a.png" = Some (Bytes EmptyString).
Proof.
  destruct (cdp_capture_failure_leaves_empty_file Mock.site_ok "shots/a.png"
              (set_files {["shots/a.png" := Bytes "old image"]} (browsing dataless_page "shots"))
              ∅ KeyError eq_refl eq_refl eq_refl eq_refl) as (w' & Hrun & Hfiles).
  exists w'. split; [exact Hrun|]. rewrite Hfiles. apply lookup_insert_eq.
Defined.

(** * The overview-chart capture *)

Section OverviewChartsFacts.

Variable E : env.

Lemma screenshot_dir_raises {L} (f : string) (s : L * world) :
  ∃ e, dir_div E "screenshot_dir" f s = (Raise e, s).
Proof.
  exists AttributeError. unfold dir_div, getattr_dir. rewrite bind_eq.
  rewrite decide_False by done. by rewrite decide_False by done.
Qed.

End OverviewChartsFacts.

Ltac nothing_leaf :=
  leaf_cases;
  first
    [ assumption
    | match goal with
      | H : nothing_captured _ _ _ |- _ => destruct H as (? & ? & ? & ? & ?)
      end;
      split; [assumption|]; split; [assumption|];
      world_simpl;
      first
        [ eexists; split; [eassumption | assumption]
        | eexists; split;
          [ match goal with Hl : log _ = _ |- _ => rewrite Hl end;
            rewrite <- app_assoc; reflexivity
          | apply Forall_app; split; [assumption | by repeat constructor] ] ] ].

Ltac nothing_step E :=
  lazymatch goal with
  | |- preserves _ (mbind _ (dir_div _ "screenshot_dir" _)) =>
      apply preserves_bind_raises; intros; apply screenshot_dir_raises
  | |- _ => pres_step nothing_leaf
  end.

Section OverviewChartsResult.

Variable E : env.

Lemma capture_charts_nothing code F log0 :
  preserves (nothing_captured F log0)
    (try_except
       (try_except
          (update_local (λ l, (l.1, None)) ;;
           for_break chart_selectors (λ selector,
             try_except_when is_no_such_element
               (found ← driver_find_element (CSS_SELECTOR, selector);
                update_local (λ l, (l.1, Some found)) ;;
                mret true)
               (λ _, mret false)) ;;
           l ← get_local;
           match l.2 with
           | Some chart_element =>
               timestamp ← now_strftime E "%Y%m%d_%H%M%S";
               let filename := artifact_name E code "_main_chart_" timestamp in
               filepath ← dir_div E "screenshot_dir" filename;
               element_screenshot E chart_element filepath ;;
               update_local (λ l, (<["main_chart" := filepath]> l.1, l.2))
           | None => mret tt
           end)
          (λ _, mret tt) ;;
        try_except
          (timestamp ← now_strftime E "%Y%m%d_%H%M%S";
           let full_filename := artifact_name E code "_full_page_" timestamp in
           full_filepath ← dir_div E "screenshot_dir" full_filename;
           driver_save_screenshot E full_filepath ;;
           update_local (λ l, (<["full_page" := full_filepath]> l.1, l.2)))
          (λ _, mret tt))
       (λ _, mret tt)).
Proof. repeat nothing_step E. Qed.

End OverviewChartsResult.

(** X7.  [_capture_charts] builds both of its target paths from
    [self.screenshot_dir], an attribute the class never defines.  Each of
    its two capture blocks therefore fails before its screenshot call and
    the failure is swallowed: for every page and every world the method
    returns an empty mapping, takes no screenshot and changes no file. *)
Theorem capture_charts_records_nothing (E : env) (code : string) (w : world)
    (init : gmap string string * option element) :
  ∃ w' t, run_in init (_capture_charts E code) w = (Ok ∅, w') ∧
          files w' = files w ∧
          log w' = log w ++ t ∧ Forall (λ e, is_screenshot e = false) t.
Proof.
  unfold run_in, _capture_charts. rewrite bind_eq. cbn [put_local snd]. rewrite bind_eq.
  pose proof (capture_charts_nothing E code (files w) (log w) ((∅, None), w)) as Hp.
  match type of Hp with
  | _ → nothing_captured _ _ (?m0 ?s0).2 =>
      destruct (m0 s0) as [[[]|e] [[l1 c1] w1]] eqn:Hm
  end.
  - destruct Hp as (Hl & Hf & t & Hlog & Ht).
    { repeat split; try done. exists []. by rewrite app_nil_r. }
    cbn [fst snd] in *. subst l1. rewrite bind_eq. cbn [get_local fst snd].
    by exists w1, t.
  - exfalso. unfold try_except at 1, try_except_when at 1 in Hm.
    match type of Hm with
    | context [match ?x with _ => _ end] => destruct x as [[[]|e0] s1]
    end; discriminate Hm.
Qed.

(** * The tab extractors *)

Lemma on_driver_none {L A} ev (f : world → result A * world) (l : L) w :
  driver w = false → on_driver ev f (l, w) = (Raise AttributeError, (l, w)).
Proof. intros Hd. unfold on_driver, on_world. cbn [fst snd]. by rewrite Hd. Qed.

(** Runs a method body on a world without driver: the first driver call
    raises. *)
Ltac exec_none Hd :=
  repeat first
    [ rewrite bind_eq
    | rewrite on_driver_none by (world_simpl; exact Hd)
    | progress unfold driver_find_element, driver_find_elements
    | progress unfold try_except, try_except_when
    | progress unfold put_local, update_local, get_local, of_result, raise, mret, M_ret
    | progress world_simpl ].

Section ListBuilders.

Context {X : Type}.

(** The per-item [try] of the list extractors: the entry is appended when
    it could be read, and the item is passed over otherwise. *)
Lemma item_turn (r : result X) (s : list X * world) :
  try_except (entry ← of_result r; update_local (λ data, data ++ [entry])) (λ _, mret tt) s
  = (Ok tt, (match r with Ok entry => s.1 ++ [entry] | Raise _ => s.1 end, s.2)).
Proof.
  unfold try_except, try_except_when. rewrite bind_eq. unfold of_result.
  destruct s as [l w]. by destruct r as [x|e].
Qed.

(** The item loop appends the entries of the items that can be read and
    always runs to the end of the list. *)
Lemma for_each_readable (entry_of : element → result X) (items : list element)
    (body : element → M (list X) unit) :
  (∀ item s, body item s
             = (Ok tt, (match entry_of item with
                        | Ok entry => s.1 ++ [entry]
                        | Raise _ => s.1
                        end, s.2))) →
  ∀ acc w, for_each items body (acc, w)
           = (Ok tt, (acc ++ readable_entries entry_of items, w)).
Proof.
  intros Hbody. induction items as [|item items IH]; intros acc w;
    cbn [for_each readable_entries].
  - by rewrite app_nil_r.
  - rewrite bind_eq, Hbody. cbn [fst snd].
    destruct (entry_of item) as [entry|e]; rewrite IH; [|done].
    by rewrite <- app_assoc.
Qed.

Lemma readable_entries_length (entry_of : element → result X) (items : list element) :
  length (readable_entries entry_of items) ≤ length items.
Proof.
  induction items as [|item items IH]; cbn [readable_entries length]; [done|].
  destruct (entry_of item); cbn [length]; lia.
Qed.

End ListBuilders.

Section TabFacts.

Variable click : page → page → element → result (page * page).

(** The opinion loop returns what [read_opinions] reads. *)
Lemma opinion_fold_run (rows : list element) : ∀ (acc : list opinion) s,
  fold_each rows acc opinion_turn s =
  (match read_opinions rows with
   | Ok entries => Ok (acc ++ entries)
   | Raise e => Raise e
   end, s).
Proof.
  induction rows as [|row rows IH]; intros acc s; cbn [fold_each read_opinions].
  - by rewrite app_nil_r.
  - rewrite bind_eq. unfold opinion_turn at 1. rewrite bind_eq. unfold of_result at 1.
    destruct (el_find_elements row (TAG_NAME, "td")) as [cells|e];
      cbn [mbind result_bind]; [|done].
    destruct (4 <=? length cells)%nat.
    + rewrite bind_eq. unfold of_result at 1.
      destruct (opinion_entry cells) as [entry|e]; cbn [mbind result_bind]; [|done].
      cbn [mret M_ret]. rewrite IH.
      destruct (read_opinions rows) as [entries|e]; cbn [mbind result_bind]; [|done].
      by rewrite <- app_assoc.
    + cbn [mret M_ret]. apply IH.
Qed.

Lemma read_opinions_length (rows : list element) : ∀ entries,
  read_opinions rows = Ok entries → length entries ≤ length rows.
Proof.
  induction rows as [|row rows IH]; intros entries; cbn [read_opinions].
  - by intros [= <-].
  - destruct (el_find_elements row (TAG_NAME, "td")) as [cells|e];
      cbn [mbind result_bind]; [|done].
    destruct (4 <=? length cells)%nat.
    + destruct (opinion_entry cells) as [entry|e]; cbn [mbind result_bind]; [|done].
      destruct (read_opinions rows) as [rest|e]; cbn [mbind result_bind]; [|done].
      intros [= <-]. specialize (IH rest eq_refl). cbn [length]. lia.
    + intros H. specialize (IH _ H). cbn [length]. lia.
Qed.

(** X8.  [_get_investment_opinion] never raises and always returns a
    mapping with the single key [opinions].  The list under it has at most
    five entries and is read off the page: when the opinion tab is found
    and clicked, the table found and every row visited (rows two to six)
    readable, it holds one opinion per visited row with four cells or more,
    in the order of the rows, built from the texts of the row's first four
    cells; in every other case it is empty. *)
Theorem investment_opinion_at_most_five (w : world) (init : gmap string (list opinion)) :
  (∃ w', run_in init (_get_investment_opinion click) w
         = (Ok {[ "opinions" := opinions_shown click w ]}, w')) ∧
  length (opinions_shown click w) ≤ 5.
Proof.
  split.
  - unfold opinions_shown, behind_tab, opinion_rows, opinion_tab_xpath.
    unfold run_in, _get_investment_opinion.
    destruct (driver w) eqn:Hd.
    2:{ exec_none Hd. rewrite insert_empty. by eexists. }
    exec Hd.
    destruct (pg_find_element (context w) _) as [tab|e1]; cbn [mbind result_bind]; exec Hd.
    2:{ rewrite insert_empty. by eexists. }
    unfold element_click. exec Hd.
    destruct (click (top w) (context w) tab) as [[t c]|e2]; cbn [mbind result_bind snd];
      exec Hd.
    2:{ rewrite insert_empty. by eexists. }
    destruct (pg_find_element c (CLASS_NAME, "type_1")) as [table|e3];
      cbn [mbind result_bind]; exec Hd.
    2:{ rewrite insert_empty. by eexists. }
    destruct (el_find_elements table (TAG_NAME, "tr")) as [rows|e4];
      cbn [mbind result_bind]; exec Hd.
    2:{ rewrite insert_empty. by eexists. }
    rewrite opinion_fold_run.
    destruct (read_opinions (take 5 (drop 1 rows))) as [entries|e5]; cbn [app]; exec Hd;
      rewrite insert_empty; by eexists.
  - unfold opinions_shown, behind_tab, opinion_rows.
    destruct (driver w); [|cbn [length]; lia].
    destruct (pg_find_element (context w) _) as [tab|e1]; cbn [mbind result_bind];
      [|cbn [length]; lia].
    destruct (click (top w) (context w) tab) as [[t c]|e2]; cbn [mbind result_bind snd];
      [|cbn [length]; lia].
    destruct (pg_find_element c _) as [table|e3]; cbn [mbind result_bind];
      [|cbn [length]; lia].
    destruct (el_find_elements table _) as [rows|e4]; cbn [mbind result_bind];
      [|cbn [length]; lia].
    destruct (read_opinions _) as [entries|e5] eqn:Hread; [|cbn [length]; lia].
    apply read_opinions_length in Hread. rewrite length_take in Hread. lia.
Qed.

(** What both list extractors do, for the tab and the entry they read. *)
Lemma tab_list_run {X} (tab_xpath : locator) (entry_of : element → result X)
    (w : world) (init : list X) :
  ∃ w', run_in init
          (put_local [] ;;
           try_except
             (tab ← driver_find_element tab_xpath;
              element_click click tab ;;
              items ← driver_find_elements (CLASS_NAME, "tb_cont");
              for_each (take 10 items) (λ item,
                try_except
                  (entry ← of_result (entry_of item);
                   update_local (λ data, data ++ [entry]))
                  (λ _, mret tt)))
             (λ _, mret tt) ;;
           get_local) w
        = (Ok (tab_list click tab_xpath entry_of w), w').
Proof.
  unfold tab_list, behind_tab, run_in.
  set (body := λ item : element,
         try_except
           (entry ← of_result (entry_of item);
            update_local (λ data : list X, data ++ [entry]))
           (λ _, mret tt)).
  destruct (driver w) eqn:Hd.
  2:{ exec_none Hd. by eexists. }
  exec Hd.
  destruct (pg_find_element (context w) tab_xpath) as [tab|e1]; cbn [mbind result_bind];
    exec Hd.
  2:{ by eexists. }
  unfold element_click. exec Hd.
  destruct (click (top w) (context w) tab) as [[t c]|e2]; cbn [mbind result_bind snd];
    exec Hd.
  2:{ by eexists. }
  destruct (pg_find_elements c (CLASS_NAME, "tb_cont")) as [items|e3];
    cbn [mbind result_bind]; exec Hd.
  2:{ by eexists. }
  rewrite (for_each_readable entry_of _ body)
    by (intros item s; unfold body; apply item_turn).
  cbn [app]. by eexists.
Qed.

(** X9.  Both list extractors behind a tab, [_get_news_data] and
    [_get_discussion_data], never raise and return at most ten entries,
    read off the page: when the tab is found and clicked and the list
    found, the result holds, in the order of the list, the entry of each of
    its first ten items that has all its parts; an item that lacks a part
    is passed over and the items after it are still read.  In every other
    case the result is empty. *)
Theorem tab_lists_at_most_ten (w : world) (init1 : list tab_news) (init2 : list discussion) :
  ((∃ w', run_in init1 (_get_news_data click) w
          = (Ok (tab_list click news_tab_xpath tab_news_entry w), w')) ∧
   length (tab_list click news_tab_xpath tab_news_entry w) ≤ 10) ∧
  ((∃ w', run_in init2 (_get_discussion_data click) w
          = (Ok (tab_list click discussion_tab_xpath discussion_entry w), w')) ∧
   length (tab_list click discussion_tab_xpath discussion_entry w) ≤ 10).
Proof.
  assert (Hlen : ∀ X tab_xpath (entry_of : element → result X),
            length (tab_list click tab_xpath entry_of w) ≤ 10).
  { intros X tab_xpath entry_of. unfold tab_list.
    destruct (behind_tab _ _ _ _) as [items|e]; [|cbn [length]; lia].
    pose proof (readable_entries_length entry_of (take 10 items)) as H.
    rewrite length_take in H. lia. }
  split; (split; [|apply Hlen]).
  - apply (tab_list_run news_tab_xpath tab_news_entry).
  - apply (tab_list_run discussion_tab_xpath discussion_entry).
Qed.

(** One unreadable row makes the whole loop raise, wherever it stands. *)
Lemma opinion_fold_raises (rows : list element) : ∀ (acc : list opinion) s,
  (∃ row, row ∈ rows ∧ unreadable_opinion_row row) →
  ∃ e, fold_each rows acc opinion_turn s = (Raise e, s).
Proof.
  induction rows as [|row rows IH]; intros acc s (row' & Hin & Hun).
  - by apply elem_of_nil in Hin.
  - cbn [fold_each]. rewrite bind_eq. unfold opinion_turn at 1.
    rewrite bind_eq. unfold of_result at 1.
    unfold unreadable_opinion_row in Hun.
    apply elem_of_cons in Hin as [->|Hin].
    + destruct (el_find_elements row (TAG_NAME, "td")) as [cells|e]; [|by eexists].
      destruct Hun as [Hlen Hno].
      destruct (Nat.leb_spec 4 (length cells)) as [_|?]; [|lia].
      rewrite bind_eq. unfold of_result at 1.
      destruct (opinion_entry cells) as [entry|e]; [done | by eexists].
    + destruct (el_find_elements row (TAG_NAME, "td")) as [cells|e]; [|by eexists].
      destruct (4 <=? length cells)%nat.
      * rewrite bind_eq. unfold of_result at 1.
        destruct (opinion_entry cells) as [entry|e]; [|by eexists].
        cbn [mret M_ret]. apply IH. by exists row'.
      * cbn [mret M_ret]. apply IH. by exists row'.
Qed.

(** X10.  In [_get_investment_opinion] the opinions reach the result only
    when the whole table was read: if one of the rows the loop visits
    cannot be read, the opinions already read from the rows before it are
    dropped and the list returned is empty. *)
Theorem investment_opinion_all_or_nothing (w : world) (init : gmap string (list opinion))
    (tab : element) (t c : page) (rows : list element) (row : element) :
  driver w = true →
  pg_find_element (context w) opinion_tab_xpath = Ok tab →
  click (top w) (context w) tab = Ok (t, c) →
  opinion_rows c = Ok rows →
  row ∈ rows → unreadable_opinion_row row →
  ∃ w', run_in init (_get_investment_opinion click) w = (Ok {[ "opinions" := [] ]}, w').
Proof.
  intros Hd Htab Hclick Hrows Hin Hun.
  unfold opinion_rows in Hrows. unfold opinion_tab_xpath in Htab.
  unfold run_in, _get_investment_opinion. exec Hd. rewrite Htab. exec Hd.
  unfold element_click. exec Hd. rewrite Hclick. exec Hd.
  destruct (pg_find_element c (CLASS_NAME, "type_1")) as [table|e];
    cbn [mbind result_bind] in Hrows; [|done].
  exec Hd.
  destruct (el_find_elements table (TAG_NAME, "tr")) as [all_rows|e];
    cbn [mbind result_bind] in Hrows; [|done].
  injection Hrows as <-. exec Hd.
  match goal with
  | |- context [fold_each _ [] opinion_turn ?s0] =>
      destruct (opinion_fold_raises (take 5 (drop 1 all_rows)) [] s0) as [e ->];
      [by exists row|]
  end.
  exec Hd. rewrite insert_empty. by eexists.
Qed.

End TabFacts.

Lemma investment_opinion_all_or_nothing_witness :
  ∃ w', run_in ∅ (_get_investment_opinion click_stays) (browsing opinion_page "shots")
        = (Ok {[ "opinions" := [] ]}, w').
Proof.
  apply (investment_opinion_all_or_nothing click_stays (browsing opinion_page "shots") ∅
           (Mock.leaf "tab") opinion_page opinion_page
           [Mock.row_of ["25.01.03"; "Broker"; "Buy"; "90,000"]; broken_row] broken_row).
  - reflexivity.
  - reflexivity.
  - reflexivity.
  - reflexivity.
  - apply list_elem_of_further, list_elem_of_here.
  - exact I.
Defined.

(** * Financial data *)

Section Finance.

Variable click : page → page → element → result (page * page).

(** One turn of the row loop stores what [finance_entry] reads. *)
Lemma finance_turn_run (row : element) (l : gmap string string) (w : world) :
  finance_turn row (l, w) =
  match finance_entry row with
  | Ok (Some (label, value)) => (Ok tt, (<[label := value]> l, w))
  | Ok None => (Ok tt, (l, w))
  | Raise e => (Raise e, (l, w))
  end.
Proof.
  unfold finance_turn, finance_entry.
  rewrite bind_eq. unfold of_result at 1.
  destruct (el_find_elements row (TAG_NAME, "th")) as [ths|e]; cbn [mbind result_bind]; [|done].
  rewrite bind_eq. unfold of_result at 1.
  destruct (el_find_elements row (TAG_NAME, "td")) as [tds|e]; cbn [mbind result_bind]; [|done].
  cbv zeta.
  destruct (Nat.leb_spec 2 (length (ths ++ tds))) as [Hlen|Hlen]; [|done].
  rewrite bind_eq. unfold nth_item at 1, of_result at 1.
  destruct (lookup_index (ths ++ tds) 0) as [c0|e]; cbn [mbind result_bind]; [|done].
  rewrite bind_eq. unfold text_of at 1, of_result at 1.
  destruct (el_text c0) as [t0|e]; cbn [mbind result_bind]; [|done].
  rewrite bind_eq.
  destruct (Nat.ltb_spec 1 (length (ths ++ tds))) as [_|?]; [|lia].
  rewrite bind_eq. unfold nth_item at 1, of_result at 1.
  destruct (lookup_index (ths ++ tds) 1) as [c1|e]; cbn [mbind result_bind]; [|done].
  rewrite bind_eq. unfold text_of at 1, of_result at 1.
  destruct (el_text c1) as [t1|e]; cbn [mbind result_bind]; [|done].
  cbn [mret M_ret].
  by destruct (PyStr.truthy (PyStr.strip t0)).
Qed.

Lemma finance_loop (rows : list element) : ∀ (l : gmap string string) (w : world),
  ∃ r, for_each rows finance_turn (l, w) = (r, (finance_table rows l, w)).
Proof.
  induction rows as [|row rows IH]; intros l w; cbn [for_each finance_table].
  - by eexists.
  - rewrite bind_eq, finance_turn_run.
    destruct (finance_entry row) as [[[label value]|]|e]; [apply IH | apply IH | by eexists].
Qed.

Lemma finance_entry_label (row : element) (label value : string) :
  finance_entry row = Ok (Some (label, value)) → label ≠ EmptyString.
Proof.
  unfold finance_entry.
  destruct (el_find_elements row (TAG_NAME, "th")) as [ths|e]; cbn [mbind result_bind]; [|done].
  destruct (el_find_elements row (TAG_NAME, "td")) as [tds|e]; cbn [mbind result_bind]; [|done].
  cbv zeta. destruct (2 <=? length (ths ++ tds))%nat; [|done].
  destruct (lookup_index (ths ++ tds) 0) as [c0|e]; cbn [mbind result_bind]; [|done].
  destruct (el_text c0) as [t0|e]; cbn [mbind result_bind]; [|done].
  destruct (lookup_index (ths ++ tds) 1) as [c1|e]; cbn [mbind result_bind]; [|done].
  destruct (el_text c1) as [t1|e]; cbn [mbind result_bind]; [|done].
  destruct (PyStr.truthy (PyStr.strip t0)) eqn:Htruthy; [|done].
  intros [= <- _] Hempty. by rewrite Hempty in Htruthy.
Qed.

Lemma finance_table_labels (rows : list element) : ∀ (l : gmap string string),
  l !! EmptyString = None → finance_table rows l !! EmptyString = None.
Proof.
  induction rows as [|row rows IH]; intros l Hl; cbn [finance_table]; [done|].
  destruct (finance_entry row) as [[[label value]|]|e] eqn:Hrow; [|by apply IH|done].
  apply IH. rewrite lookup_insert_ne; [done|].
  by apply finance_entry_label in Hrow.
Qed.

(** X11.  [_get_financial_data] never raises, and the mapping it returns
    is read off the page: when the finance tab is found and clicked and
    the table and its rows found, the rows are read in order; a row with
    two cells or more and a non-empty label stores the stripped text of its
    first cell as label and that of its second cell as value, header cells
    counted before data cells, a later row replacing an equal label; rows
    with fewer than two cells or an empty label leave no entry; and the
    first row that cannot be read ends the reading, the entries before it
    being kept.  In every other case the mapping is empty.  No entry has an
    empty label. *)
Theorem financial_data_entries_come_from_rows (w : world) (init : gmap string string) :
  (∃ w', run_in init (_get_financial_data click) w = (Ok (finance_shown click w), w')) ∧
  finance_shown click w !! EmptyString = None.
Proof.
  split.
  - unfold finance_shown, behind_tab, finance_rows, finance_tab_xpath.
    unfold run_in, _get_financial_data.
    destruct (driver w) eqn:Hd.
    2:{ exec_none Hd. by eexists. }
    exec Hd.
    destruct (pg_find_element (context w) _) as [tab|e1]; cbn [mbind result_bind]; exec Hd.
    2:{ by eexists. }
    unfold element_click. exec Hd.
    destruct (click (top w) (context w) tab) as [[t c]|e2]; cbn [mbind result_bind snd];
      exec Hd.
    2:{ by eexists. }
    destruct (pg_find_element c (CLASS_NAME, "tb_type1_ifrs")) as [table|e3];
      cbn [mbind result_bind]; exec Hd.
    2:{ by eexists. }
    destruct (el_find_elements table (TAG_NAME, "tr")) as [rows|e4];
      cbn [mbind result_bind]; exec Hd.
    2:{ by eexists. }
    match goal with
    | |- context [for_each rows finance_turn (?l0, ?w0)] =>
        destruct (finance_loop rows l0 w0) as [r ->]
    end.
    destruct r as [[]|e5]; exec Hd; by eexists.
  - unfold finance_shown.
    destruct (behind_tab _ _ _ _) as [rows|e]; [|apply lookup_empty].
    apply finance_table_labels, lookup_empty.
Qed.

End Finance.

Lemma tabs_page_results :
  let w := browsing tabs_page "shots" in
  opinions_shown click_stays w
    = [Opinion "25.01.03" "Broker" "Buy" "90,000"; Opinion "25.01.02" "Other" "Hold" "80,000"] ∧
  tab_list click_stays news_tab_xpath tab_news_entry w
    = [TabNews "First" "01.03" "Daily"; TabNews "Third" "01.02" "Weekly"] ∧
  tab_list click_stays discussion_tab_xpath discussion_entry w
    = [Discussion "First" "01.03" "Daily"; Discussion "Third" "01.02" "Weekly"] ∧
  finance_shown click_stays w = {[ "Sales" := "120" ]}.
Proof. repeat split; by vm_compute. Qed.

(** * A failure inside the iframe *)

(** X12.  When the company-analysis stage has switched into the iframe and
    the height script fails there, the handler does not switch back: the
    fallback's measuring script runs in the iframe document as well.  If it
    fails there too, the stage records no capture and writes no file, and
    the driver is left inside the iframe, even when the host page itself
    can be measured and captured. *)
Theorem analysis_fallback_runs_inside_iframe (E : env) (code : string) (w : world)
    (init : gmap string string) (p fp : page) (iframe : element) (e e' : exn) :
  driver w = true →
  site E (analysis_url code) = Ok p →
  pg_find_element p (XPATH, iframe_xpath) = Ok iframe →
  pg_frame p iframe = Ok fp →
  pg_execute_script fp document_height = Raise e →
  pg_execute_script fp body_scroll_height = Raise e' →
  ∃ w', run_in init (_capture_company_analysis E code) w = (Ok ∅, w') ∧
        top w' = p ∧ context w' = fp ∧ files w' = files w.
Proof.
  intros Hd Hsite Hfind Hframe Hheight Hbody.
  unfold run_in, _capture_company_analysis. exec Hd.
  rewrite Hsite. exec Hd. rewrite Hfind. exec Hd. rewrite Hframe. exec Hd.
  rewrite Hheight. exec Hd. rewrite Hbody. exec Hd.
  by eexists.
Qed.

Lemma analysis_fallback_runs_inside_iframe_witness :
  plain_capture_works framed_page = true ∧
  ∃ w', run_in ∅ (_capture_company_analysis framed_site "005930")
               (browsing Mock.bare "shots") = (Ok ∅, w') ∧ files w' = ∅.
Proof.
  split; [reflexivity|].
  destruct (analysis_fallback_runs_inside_iframe framed_site "005930"
              (browsing Mock.bare "shots") ∅ framed_page frame_inner (Mock.leaf "iframe")
              WebDriverException WebDriverException
              eq_refl eq_refl eq_refl eq_refl eq_refl eq_refl)
    as (w' & Hrun & _ & _ & Hf).
  exists w'. by split.
Defined.

(** * Saving to a given path *)

(** X13.  Given a path, [save_data_to_json] either stores the record and
    returns the path, or lets the error out: when the file can be opened,
    the file at that path afterwards holds exactly the record, whatever it
    held before, and no other file changes; when it cannot, [OSError]
    reaches the caller (the handler logs and re-raises) and no file
    changes. *)
Theorem save_to_given_path_stores_or_raises (E : env) (d : StockData) (path : string)
    (w : world) :
  let out := run (save_data_to_json E d (Some path)) w in
  (∀ q, q ≠ path → files out.2 !! q = files w !! q) ∧
  if writable E path
  then out.1 = Ok path ∧ files out.2 !! path = Some (JsonDoc d)
  else out.1 = Raise OSError ∧ out.2 = w.
Proof.
  assert (Hout : run (save_data_to_json E d (Some path)) w
                 = if writable E path
                   then (Ok path, set_files (<[path := JsonDoc d]> (files w)) w)
                   else (Raise OSError, w)).
  { unfold run, run_in, save_data_to_json, try_except, try_except_when.
    rewrite bind_eq. unfold mret at 1, M_ret at 1.
    rewrite bind_eq. unfold open_write. rewrite on_world_eq.
    destruct (writable E path); cbn [fst snd]; [|done].
    rewrite bind_eq. unfold write_file. rewrite on_world_eq. cbn [fst snd set_files files].
    unfold mret, M_ret. by rewrite insert_insert_eq. }
  cbv zeta. rewrite Hout. destruct (writable E path); cbn [fst snd files set_files].
  - split; [|split; [done | by rewrite lookup_insert_eq]].
    intros q Hq. by rewrite lookup_insert_ne.
  - by split.
Qed.

(** * The theme extractor *)




(** * A run that stops at navigation *)

(** X15.  When the run directory and the driver were set up and
    navigation then fails, [collect_stock_data] returns [None] from inside
    its [try] block: the handler that closes the driver does not run.  The
    browser started for this run is still running afterwards, [self.driver]
    still refers to it, and no [quit] was ever called. *)
Theorem collect_navigation_failure_leaves_browser_running (E : env) (code : string)
    (w : world) :
  folder_setup_fails E code w = false →
  driver_setup_fails E = false →
  navigation_fails E code = true →
  ∃ w' t, run (collect_stock_data E code) w = (Ok None, w') ∧
          driver w' = true ∧ alive w' = true ∧
          log w' = log w ++ t ∧ EvQuit ∉ t.
Proof.
  intros Hfolder Hsetup Hnav.
  destruct (collect_paths E code w) as (r & w' & Hout & w2 & t & Hlog & Ht & Hcase).
  rewrite Hfolder, Hsetup, Hnav in Hcase. cbn [orb] in Hcase.
  destruct Hcase as (Hd & Ha & _ & w3 & Hn & -> & ->).
  apply keeps_run_in in Hn; [|apply keeps_navigate_to_stock].
  destruct (quiet_session _ _ Hn) as (Hd3 & Ha3 & t3 & Hlog3 & Ht3).
  exists w3, (t ++ t3). split; [exact Hout|].
  split; [by rewrite Hd3|]. split; [by rewrite Ha3|].
  split; [by rewrite Hlog3, Hlog, app_assoc|].
  intros [Hin|Hin]%elem_of_app.
  - by apply (Forall_forall _ _) with (x := EvQuit) in Ht as [_ ?].
  - by apply (Forall_forall _ _) with (x := EvQuit) in Ht3.
Qed.

Lemma collect_navigation_failure_leaves_browser_running_witness :
  ∃ w' t, run (collect_stock_data Mock.unreachable "005930") (fresh Mock.unreachable)
          = (Ok None, w') ∧
          driver w' = true ∧ alive w' = true ∧
          log w' = log (fresh Mock.unreachable) ++ t ∧ EvQuit ∉ t.
Proof.
  apply (collect_navigation_failure_leaves_browser_running Mock.unreachable "005930"
           (fresh Mock.unreachable)); reflexivity.
Defined.

(** * A capture that could not be written *)

(** X16.  The chart stage does not look at what [element.screenshot]
    answers.  When the chart region is found and captured but the file
    cannot be written, the call answers [False] without raising, and the
    path is recorded under [chart_<interval>] all the same: the record then
    names a file that does not exist, and no fallback capture is tried. *)
Theorem chart_path_recorded_without_file (E : env) (code label dir : string)
    (l : gmap string string) (w : world) (area : element) (png : string) :
  let path := path_div dir (artifact_name E code ("_chart_" +:+ label +:+ "_")
                                          (strftime E "%Y%m%d_%H%M%S" (clock w))) in
  driver w = true →
  current_stock_screenshot_dir w = Some dir →
  pg_find_element (context w) chart_area_selector = Ok area →
  el_png area = Ok png →
  writable E path = false →
  ∃ w', capture_chart_area E code label (l, w)
        = (Ok tt, (<["chart_" +:+ label := path]> l, w')) ∧
        files w' = files w ∧
        log w' = log w ++ [EvFindElement chart_area_selector; EvElementScreenshot path].
Proof.
  cbv zeta. intros Hd Hdir Harea Hpng Hw.
  unfold capture_chart_area. exec Hd. rewrite Harea. exec Hd.
  rewrite decide_False by done. rewrite decide_True by done.
  exec Hd. rewrite Hdir. exec Hd. unfold save_png. rewrite Hpng, Hw. exec Hd.
  eexists. split; [reflexivity|]. split; [reflexivity|].
  world_simpl. by rewrite <- app_assoc.
Qed.

Lemma chart_path_recorded_without_file_witness :
  ∃ w', capture_chart_area read_only_site "005930" "day" (∅, browsing chart_page "shots")
        = (Ok tt, ({[ "chart_day" := "shots/005930_chart_day_t0.png" ]}, w')) ∧
        files w' = ∅.
Proof.
  destruct (chart_path_recorded_without_file read_only_site "005930" "day" "shots" ∅
              (browsing chart_page "shots") (Mock.leaf "chart") "png:element"
              eq_refl eq_refl eq_refl eq_refl eq_refl) as (w' & Hrun & Hf & _).
  exists w'. split; [|exact Hf]. rewrite Hrun. by rewrite insert_empty.
Defined.
